(** * HazardPay signal engine: velocity analysis, scoring and hysteresis

    A shallow embedding of [src/velocity_v2.py] and [src/smart_signals.py],
    of the price-history query of [src/database.py], of the caller of the
    buy scan in [monitor.py], and of the two collaborators of the scorer:
    the market pulse of [src/market_pulse.py] and the long-term prices of
    [src/scraper.py].

    Modelling conventions.
    - Python [int] is [Z].  Python [float] is modelled by exact rationals
      ([Q]): every comparison the code makes on a float is made here on the
      exact value, and [int(x)] is truncation towards zero.  A rational is a
      finite float without its rounding error: [inf] and [nan] are not
      represented, and a double computed by the code may differ from the
      rational here by that error.  Bounds, signs and one-sided thresholds
      survive the rounding, for prices of the size the market has (at most
      15,000,000, [market_price]); an exact identity or an exact tie between
      two computed floats need not.
    - A naive [datetime] is a number of microseconds ([Z]);
      [(a - b).total_seconds() / 3600] is the rational [(a - b) / 3.6e9].
      Datetimes with a time zone are not represented: the database driver
      returns naive ones and [datetime.now()] is naive.
      One evaluation reads the clock several times; the model uses a single
      reading [now] for all of them.
    - A Python exception is a [Raise] in the [result] monad.
    - An f-string is kept as its template together with the values that are
      formatted into it ([Fmt]); number formatting itself is not modelled.
    - The MongoDB collections [player_states] and [signal_log] are the two
      components of [Db]; the price tables, the market pulse and the
      long-term range cache are read-only inputs gathered in [World]. *)

From Stdlib Require Import ZArith QArith Qabs Qround Lia String Ascii List Sorted Permutation.
From stdpp Require Import base option gmap strings list.

Local Open Scope Z_scope.

(** ** Exceptions and results *)

Inductive exn : Type :=
| KeyError
| ValueError
| ZeroDivisionError
| ConnectionError.

Inductive result (A : Type) : Type :=
| Ok (a : A)
| Raise (e : exn).
Arguments Ok {A} a.
Arguments Raise {A} e.

#[global] Instance result_ret : MRet result := fun _ a => Ok a.
#[global] Instance result_bind : MBind result := fun _ _ f m =>
  match m with
  | Ok a => f a
  | Raise e => Raise e
  end.

(** [for x in l: acc = step(acc, x)] where the body may raise. *)
Fixpoint for_each {A S : Type} (step : S -> A -> result S) (l : list A) (acc : S)
  : result S :=
  match l with
  | [] => Ok acc
  | x :: l' => acc' ← step acc x; for_each step l' acc'
  end.

(** ** Rationals standing for floats *)

Definition Qltb (x y : Q) : bool := negb (Qle_bool y x).
Definition Qz (n : Z) : Q := inject_Z n.

(** [x or y] on floats: [0.0] is falsy. *)
Definition float_or (x y : Q) : Q := if Qeq_bool x 0 then y else x.

(** [round(x, nd)]: to the nearest multiple of [10^-nd], ties to even. *)
Definition round_half_even (x : Q) : Z :=
  let f := Qfloor x in
  let r := (x - Qz f)%Q in
  if Qltb r (1 # 2) then f
  else if Qltb (1 # 2) r then f + 1
  else if Z.even f then f else f + 1.

Definition py_round (x : Q) (nd : nat) : Q :=
  let scale := Qz (10 ^ Z.of_nat nd) in
  (Qz (round_half_even (x * scale)) / scale)%Q.

(** [int(x)] on a float. *)
Definition py_int (x : Q) : Z := Qnum x ÷ Z.pos (Qden x).

Fixpoint sumZ (l : list Z) : Z :=
  match l with
  | [] => 0
  | x :: l' => x + sumZ l'
  end.

(** [sum(l) / len(l)] on a non-empty list of ints. *)
Definition mean (l : list Z) : Q := (Qz (sumZ l) / Qz (Z.of_nat (length l)))%Q.

(** [min(l)] and [max(l)] on a non-empty list; the model returns the default
    on [[]], which no caller passes. *)
Definition list_min (l : list Z) : Z :=
  match l with
  | [] => 0
  | x :: l' => fold_left Z.min l' x
  end.

Definition list_max (l : list Z) : Z :=
  match l with
  | [] => 0
  | x :: l' => fold_left Z.max l' x
  end.

(** [l.index(x)] for an [x] that occurs in [l]. *)
Fixpoint list_index (x : Z) (l : list Z) : nat :=
  match l with
  | [] => 0%nat
  | y :: l' => if x =? y then 0%nat else S (list_index x l')
  end.

(** ** Text *)

Inductive text : Type :=
| Lit (s : string)
| Fmt (template : string) (args : list Q)
| Wrap (prefix : string) (inner : text) (suffix : string).

Definition lower_ascii (c : ascii) : ascii :=
  let n := nat_of_ascii c in
  if ((65 <=? n)%nat && (n <=? 90)%nat)%bool then ascii_of_nat (n + 32) else c.

Fixpoint str_lower (s : string) : string :=
  match s with
  | EmptyString => EmptyString
  | String c s' => String (lower_ascii c) (str_lower s')
  end.

Fixpoint str_replace_char (a b : ascii) (s : string) : string :=
  match s with
  | EmptyString => EmptyString
  | String c s' => String (if Ascii.eqb c a then b else c) (str_replace_char a b s')
  end.

(** [needle in hay] *)
Fixpoint str_contains (needle hay : string) : bool :=
  String.prefix needle hay ||
  match hay with
  | EmptyString => false
  | String _ hay' => str_contains needle hay'
  end.

(** [needle in t.lower()] for a needle made of letters and spaces: the
    formatted values are digits and punctuation, so only the template text
    can contain it. *)
Fixpoint text_lower_contains (needle : string) (t : text) : bool :=
  match t with
  | Lit s => str_contains needle (str_lower s)
  | Fmt template _ => str_contains needle (str_lower template)
  | Wrap p inner s =>
      str_contains needle (str_lower p) || text_lower_contains needle inner
      || str_contains needle (str_lower s)
  end.

(** ** Time *)

Definition datetime : Type := Z.

Definition us_per_hour : Z := 3600000000.
Definition us_per_day : Z := 24 * us_per_hour.

(** [(a - b).total_seconds() / 3600] *)
Definition hours_between (a b : datetime) : Q := Qmake (a - b) 3600000000.

(** The [%Y-%m-%d] key of a timestamp; keys compare as the days do. *)
Definition day_key (t : datetime) : Z := t `div` us_per_day.

(** ** Persistent state *)

(** A [player_states] document.  [_save_player_state] writes all five
    fields; the readers use [.get] with a default, so a field may be absent. *)
Record PlayerState : Type := mkPlayerState {
  ps_state : option string;
  ps_readiness : option string;
  ps_score : option Z;
  ps_price : option Z;
  ps_updated_at : option datetime
}.

Record SignalLog : Type := mkSignalLog {
  log_player_id : string;
  log_direction : string;
  log_raw_score : Z;
  log_final_score : Z;
  log_components : list (string * Z);
  log_velocity_state : option string;
  log_buy_readiness : option string;
  log_market_state : string;
  log_signal_type : string;
  log_price : Z;
  log_timestamp : datetime
}.

Record Db : Type := mkDb {
  player_states : gmap string PlayerState;
  signal_log : list SignalLog
}.

(** ** Price records *)

(** The value stored under a timestamp key: a [datetime], or a string, which
    the code only ever passes to [datetime.fromisoformat]; the string is
    represented by the outcome of that call ([None]: it raises ValueError).
    A string that parses stands for one without a UTC offset; one with an
    offset parses to a datetime from which [now - ts] raises TypeError, and
    is not represented.  The properties that promise a result speak of
    stored datetimes ([stored_record]). *)
Inductive ts_value : Type :=
| TsDatetime (t : datetime)
| TsString (parsed : option datetime).

Record PriceRecord : Type := mkPrice {
  price : Z;
  recorded_at : option ts_value;
  timestamp : option ts_value
}.

Inductive ts_key : Type := Recorded_at | Timestamp.

(** [key in p] and [p[key]] *)
Definition has_key (p : PriceRecord) (k : ts_key) : bool :=
  match k with
  | Recorded_at => bool_decide (is_Some (recorded_at p))
  | Timestamp => bool_decide (is_Some (timestamp p))
  end.

Definition get_key (p : PriceRecord) (k : ts_key) : result ts_value :=
  match (match k with Recorded_at => recorded_at p | Timestamp => timestamp p end) with
  | Some v => Ok v
  | None => Raise KeyError
  end.

(** ** velocity_v2.py *)

Module VelocityV2.

Record VelocityAnalysisV2 : Type := mkVelocity {
  velocity_1h : Q;
  velocity_2h : Q;
  velocity_6h : Q;
  velocity_24h : Q;
  acceleration : Q;
  is_decelerating : bool;
  deceleration_hours : Z;
  state : string;
  has_higher_lows : bool;
  support_level : option Z;
  times_bounced_at_support : Z;
  hours_since_low : Q;
  days_in_trend : Z;
  confidence : string;
  confidence_score : Z;
  data_points : Z;
  hours_of_data : Q;
  description : text;
  buy_readiness : string;
  buy_readiness_reason : text
}.

Definition len {A : Type} (l : list A) : Z := Z.of_nat (length l).

Definition _get_timestamp (p : PriceRecord) (ts_field : ts_key) : result datetime :=
  ts ← get_key p ts_field;
  match ts with
  | TsString (Some t) => Ok t
  | TsString None => Raise ValueError
  | TsDatetime t => Ok t
  end.

(** The prices at the interior positions [i] with
    [l[i] < l[i-1] and l[i] < l[i+1]], in list order. *)
Fixpoint local_minima (l : list Z) : list Z :=
  match l with
  | a :: l' =>
      match l' with
      | b :: c :: _ =>
          if ((b <? a) && (b <? c))%bool then b :: local_minima l' else local_minima l'
      | _ => []
      end
  | [] => []
  end.

(** [d[k] = d.get(k, 0) + 1] on a dict in insertion order. *)
Fixpoint dict_incr (k : Z) (d : list (Z * Z)) : list (Z * Z) :=
  match d with
  | [] => [(k, 1)]
  | (k', n) :: d' => if k =? k' then (k', n + 1) :: d' else (k', n) :: dict_incr k d'
  end.

(** [max(d.items(), key=lambda x: x[1])]: the first entry with the largest count. *)
Fixpoint max_by_count (best : Z * Z) (d : list (Z * Z)) : Z * Z :=
  match d with
  | [] => best
  | kv :: d' => max_by_count (if snd best <? snd kv then kv else best) d'
  end.

Definition _find_support_levels (prices : list PriceRecord) : option Z * Z :=
  if len prices <? 20 then (None, 0)
  else
    let price_values := map price prices in
    let min_price := list_min price_values in
    let max_price := list_max price_values in
    if max_price =? min_price then (None, 0)
    else
      let bucket_size := Z.max 1 (py_int (Qz min_price * (2 # 100))) in
      let low_touches :=
        fold_left (fun d p => dict_incr ((p `div` bucket_size) * bucket_size) d)
                  (local_minima price_values) [] in
      match low_touches with
      | [] => (None, 0)
      | kv :: d' =>
          let best_support := max_by_count kv d' in
          (Some (fst best_support), snd best_support)
      end.

(** The prices of the records whose timestamp satisfies [keep], in order. *)
Definition prices_where (ts_field : ts_key) (keep : datetime -> bool)
    (prices : list PriceRecord) : result (list (Z * datetime)) :=
  for_each (fun acc p =>
              ts ← _get_timestamp p ts_field;
              Ok (if keep ts then acc ++ [(price p, ts)] else acc))
           prices [].

Definition _detect_higher_lows (now : datetime) (prices : list PriceRecord)
    (ts_field : ts_key) (window_days : Z) : result bool :=
  if len prices <? 10 then Ok false
  else
    let cutoff := now - window_days * us_per_day in
    window_prices ← prices_where ts_field (fun ts => cutoff <=? ts) prices;
    if len window_prices <? 5 then Ok false
    else
      let lows := local_minima (map fst window_prices) in
      if len lows <? 2 then Ok false
      else
        let mid := (length lows / 2)%nat in
        let early_lows := take mid lows in
        let recent_lows := drop mid lows in
        match early_lows, recent_lows with
        | [], _ | _, [] => Ok false
        | _, _ =>
            let avg_early := mean early_lows in
            let avg_recent := mean recent_lows in
            Ok (Qltb (avg_early * (102 # 100)) avg_recent)
        end.

(** [daily_prices[day_key].append(price)] on a dict in insertion order. *)
Fixpoint dict_append (k : Z) (v : Z) (d : list (Z * list Z)) : list (Z * list Z) :=
  match d with
  | [] => [(k, [v])]
  | (k', vs) :: d' => if k =? k' then (k', vs ++ [v]) :: d' else (k', vs) :: dict_append k v d'
  end.

(** A stable sort, largest key first: [sorted(l, key=key, reverse=True)]. *)
Fixpoint insert_desc {A : Type} (key : A -> Z) (x : A) (l : list A) : list A :=
  match l with
  | [] => [x]
  | y :: l' => if key x <? key y then y :: insert_desc key x l' else x :: y :: l'
  end.

Definition sort_desc {A : Type} (key : A -> Z) (l : list A) : list A :=
  fold_right (insert_desc key) [] l.

(** The length of the run of day-over-day changes in direction [dir] at the
    head of the daily averages. *)
Fixpoint streak_from (dir : Z) (avgs : list Q) : Z :=
  match avgs with
  | a :: rest =>
      match rest with
      | b :: _ =>
          let direction := if Qltb b a then 1 else if Qltb a b then -1 else 0 in
          if direction =? dir then 1 + streak_from dir rest else 0
      | [] => 0
      end
  | [] => 0
  end.

Definition _calculate_trend_days (prices : list PriceRecord) (ts_field : ts_key)
  : result Z :=
  if len prices <? 2 then Ok 0
  else
    daily_prices ← for_each (fun d p =>
                      ts ← _get_timestamp p ts_field;
                      Ok (dict_append (day_key ts) (price p) d))
                    prices [];
    let daily_avgs := map (fun kv => mean (snd kv)) (sort_desc fst daily_prices) in
    match daily_avgs with
    | a0 :: a1 :: _ =>
        let current_direction := if Qltb a1 a0 then 1 else -1 in
        Ok (streak_from current_direction daily_avgs * current_direction)
    | _ => Ok 0
    end.

Definition _calculate_confidence (data_points : Z) (hours_of_data price_variance : Q)
  : string * Z :=
  let score := 50 in
  let score :=
    if 100 <=? data_points then score + 25
    else if 50 <=? data_points then score + 15
    else if 20 <=? data_points then score + 5
    else score - 15 in
  let score :=
    if Qle_bool 168 hours_of_data then score + 15
    else if Qle_bool 48 hours_of_data then score + 8
    else if Qle_bool 12 hours_of_data then score + 3
    else score - 10 in
  let score :=
    if Qltb price_variance 5 then score + 10
    else if Qltb price_variance 10 then score + 5
    else if Qltb 30 price_variance then score - 10
    else score in
  let score := Z.max 0 (Z.min 100 score) in
  if 75 <=? score then ("HIGH"%string, score)
  else if 50 <=? score then ("MEDIUM"%string, score)
  else ("LOW"%string, score).

Definition target_hours : list Z := [1; 2; 4; 6; 12; 24; 48].

(** [price_windows]: target hours -> (price, actual age in hours). *)
Definition in_window (target : Z) (age_hours : Q) : bool :=
  (Qle_bool (Qz target * (1 # 2)) age_hours && Qle_bool age_hours (Qz target * (3 # 2)))%bool.

(** The inner loop [for target in target_hours] for one sample. *)
Definition record_windows (old_price : Z) (age_hours : Q) (targets : list Z)
    (price_windows : gmap Z (Z * Q)) : gmap Z (Z * Q) :=
  fold_left (fun pw target =>
               match pw !! target with
               | None =>
                   if in_window target age_hours
                   then <[target := (old_price, age_hours)]> pw
                   else pw
               | Some _ => pw
               end)
            targets price_windows.

Definition find_windows (now : datetime) (ts_field : ts_key) (prices : list PriceRecord)
  : result (gmap Z (Z * Q)) :=
  for_each (fun price_windows p =>
              ts ← _get_timestamp p ts_field;
              Ok (record_windows (price p) (hours_between now ts) target_hours
                                 price_windows))
           prices ∅.

Definition calc_velocity (price_windows : gmap Z (Z * Q)) (current : Z) (window_key : Z) : Q :=
  match price_windows !! window_key with
  | None => 0
  | Some (old_price, hours) =>
      if ((old_price =? 0) || Qeq_bool hours 0)%bool then 0
      else ((Qz (current - old_price) / Qz old_price * 100) / hours)%Q
  end.

(** The four reported rates, before rounding. *)
Definition velocities (price_windows : gmap Z (Z * Q)) (current : Z) : Q * Q * Q * Q :=
  let v_1h := calc_velocity price_windows current 1 in
  let v_2h := calc_velocity price_windows current 2 in
  let v_6h := float_or (calc_velocity price_windows current 6) v_2h in
  let v_24h := float_or (calc_velocity price_windows current 24) v_6h in
  (v_1h, v_2h, v_6h, v_24h).

Definition calc_acceleration (price_windows : gmap Z (Z * Q)) (current : Z) : Q :=
  match price_windows !! 2, price_windows !! 4 with
  | Some (p_2h, h_2h), Some (p_4h, h_4h) =>
      let recent_v := calc_velocity price_windows current 2 in
      if ((0 <? p_4h) && Qltb 0 (h_4h - h_2h))%bool
      then
        let older_v := ((Qz (p_2h - p_4h) / Qz p_4h * 100) / (h_4h - h_2h))%Q in
        (recent_v - older_v)%Q
      else 0
  | _, _ => 0
  end.

Definition detect_deceleration (v_1h v_2h v_6h acceleration : Q) : bool * Z :=
  if (Qltb v_2h (- (3 # 10)) && Qltb (2 # 10) acceleration)%bool
  then
    let deceleration_hours := if Qltb v_2h v_1h then 1 else 0 in
    let deceleration_hours :=
      if Qltb v_6h v_2h then Z.max deceleration_hours 2 else deceleration_hours in
    (true, deceleration_hours)
  else (false, 0).

(** The momentum state: (state, description, buy_readiness, buy_reason). *)
Definition classify (v_1h v_2h v_6h : Q) (is_decelerating : bool) (deceleration_hours : Z)
    (has_higher_lows : bool) (hours_since_low : Q) (support_level : option Z)
    (times_bounced : Z) : string * text * string * text :=
  let sustained_falling := (Qltb v_1h (- (1 # 2)) && Qltb v_2h (- (3 # 10)))%bool in
  let sustained_rising := (Qltb (1 # 2) v_1h && Qltb (3 # 10) v_2h)%bool in
  if sustained_falling then
    if (Qltb v_1h (-2) && Qltb v_2h (- (3 # 2)))%bool then
      ("FREEFALL"%string, Fmt "🚨 FREEFALL: -{abs(v_1h):.1f}%/h sustained" [Qabs v_1h],
       "AVOID"%string, Lit "Sustained rapid decline - wait for deceleration")
    else if (is_decelerating && (2 <=? deceleration_hours))%bool then
      if has_higher_lows then
        ("BOTTOMING"%string, Lit "🔄 BOTTOMING: Higher lows + deceleration",
         "ALMOST"%string, Lit "Strong reversal signals, wait for stability confirmation")
      else if (Qltb 12 hours_since_low && (2 <=? times_bounced))%bool then
        ("BOTTOMING"%string, Lit "🔄 BOTTOMING: Testing support level",
         "ALMOST"%string,
         Fmt "Price near support ({support_level:,}), bounced {times_bounced}x"
             [Qz (default 0 support_level); Qz times_bounced])
      else
        ("DECELERATING"%string,
         Fmt "📉 Falling but SLOWING ({v_1h:.1f}%/h, was {v_6h:.1f}%/h)" [v_1h; v_6h],
         "WAIT"%string, Lit "Slowing but not confirmed - need more signals")
    else if is_decelerating then
      ("DECELERATING"%string, Lit "📉 Falling, starting to slow",
       "WAIT"%string, Lit "Early deceleration - needs 2+ hours to confirm")
    else
      ("FALLING"%string, Fmt "📉 Falling {abs(v_1h):.1f}%/h" [Qabs v_1h],
       "AVOID"%string, Lit "Active decline with no slowing")
  else if sustained_rising then
    if Qltb 2 v_1h then
      ("SURGING"%string, Fmt "📈 SURGING: +{v_1h:.1f}%/h" [v_1h],
       "WAIT"%string, Lit "Already surging - likely missed the bottom")
    else
      ("RISING"%string, Fmt "📈 Rising {v_1h:.1f}%/h" [v_1h],
       "WAIT"%string, Lit "Price rising - wait for pullback")
  else if (Qltb (Qabs v_1h) (3 # 10) && Qltb (Qabs v_2h) (2 # 10))%bool then
    let description := Fmt "➖ Stable (±{abs(v_1h):.1f}%/h)" [Qabs v_1h] in
    if (Qle_bool hours_since_low 48 && has_higher_lows)%bool then
      ("STABLE"%string, description, "READY"%string,
       Lit "Stable after recent low with higher lows pattern")
    else if Qle_bool hours_since_low 24 then
      ("STABLE"%string, description, "READY"%string, Lit "Stable near recent low - good entry")
    else if Qle_bool hours_since_low 72 then
      ("STABLE"%string, description, "ALMOST"%string, Lit "Stable but low was 2-3 days ago")
    else
      ("STABLE"%string, description, "WAIT"%string,
       Lit "Stable but no recent low - not a dip buy")
  else
    ("CHOPPY"%string, Fmt "↔️ Choppy ({v_1h:+.1f}%/h)" [v_1h],
     "WAIT"%string, Lit "Unpredictable movement").

(** ['recorded_at' if 'recorded_at' in prices[0] else 'timestamp'] *)
Definition choose_ts_field (first : PriceRecord) : ts_key :=
  if has_key first Recorded_at then Recorded_at else Timestamp.

(** [current_price or prices[0]['price']] *)
Definition current_of (current_price : option Z) (first : PriceRecord) : Z :=
  match current_price with
  | Some c => if c =? 0 then price first else c
  | None => price first
  end.

Definition calculate_velocity_v2 (now : datetime) (prices : list PriceRecord)
    (current_price : option Z) : result (option VelocityAnalysisV2) :=
  match prices with
  | [] => Ok None
  | first :: _ =>
      if len prices <? 3 then Ok None
      else
        let ts_field := choose_ts_field first in
        if negb (has_key first ts_field) then Ok None
        else
          let current := current_of current_price first in
          price_windows ← find_windows now ts_field prices;
          let '(v_1h, v_2h, v_6h, v_24h) := velocities price_windows current in
          let acceleration := calc_acceleration price_windows current in
          let '(is_decelerating, deceleration_hours) :=
            detect_deceleration v_1h v_2h v_6h acceleration in
          let all_prices := map price prices in
          let min_price := list_min all_prices in
          let min_idx := list_index min_price all_prices in
          min_ts ← _get_timestamp (nth min_idx prices first) ts_field;
          let hours_since_low := hours_between now min_ts in
          days_in_trend ← _calculate_trend_days prices ts_field;
          has_higher_lows ← _detect_higher_lows now prices ts_field 7;
          let '(support_level, times_bounced) := _find_support_levels prices in
          oldest ← _get_timestamp (List.last prices first) ts_field;
          let hours_of_data := hours_between now oldest in
          let price_variance :=
            if 0 <? list_min all_prices
            then (Qz (list_max all_prices - list_min all_prices)
                  / Qz (list_min all_prices) * 100)%Q
            else 0%Q in
          let '(confidence, confidence_score) :=
            _calculate_confidence (len prices) hours_of_data price_variance in
          let '(state, description, buy_readiness, buy_reason) :=
            classify v_1h v_2h v_6h is_decelerating deceleration_hours has_higher_lows
                     hours_since_low support_level times_bounced in
          Ok (Some {|
            velocity_1h := py_round v_1h 2;
            velocity_2h := py_round v_2h 2;
            velocity_6h := py_round v_6h 2;
            velocity_24h := py_round v_24h 2;
            acceleration := py_round acceleration 2;
            is_decelerating := is_decelerating;
            deceleration_hours := deceleration_hours;
            state := state;
            has_higher_lows := has_higher_lows;
            support_level := support_level;
            times_bounced_at_support := times_bounced;
            hours_since_low := py_round hours_since_low 1;
            days_in_trend := days_in_trend;
            confidence := confidence;
            confidence_score := confidence_score;
            data_points := len prices;
            hours_of_data := py_round hours_of_data 1;
            description := description;
            buy_readiness := buy_readiness;
            buy_readiness_reason := buy_reason
          |})
  end.

Definition check_stabilization_v2 (now : datetime) (prices : list PriceRecord)
    (min_hours max_variance_pct : Q) : result (bool * text * Z) :=
  match prices with
  | [] => Ok (false, Lit "Insufficient data", 0)
  | first :: _ =>
      if len prices <? 5 then Ok (false, Lit "Insufficient data", 0)
      else
        let ts_field := choose_ts_field first in
        if negb (has_key first ts_field) then Ok (false, Lit "Missing timestamp data", 0)
        else
          window_prices ← for_each (fun acc p =>
                             ts ← _get_timestamp p ts_field;
                             let age_hours := hours_between now ts in
                             Ok (if Qle_bool age_hours min_hours
                                 then acc ++ [(price p, age_hours)] else acc))
                           prices [];
          if len window_prices <? 5 then
            Ok (false,
                Fmt "Only {len(window_prices)} points in {min_hours}h window"
                    [Qz (len window_prices); min_hours], 0)
          else
            let prices_only := map fst window_prices in
            let min_price := list_min prices_only in
            let max_price := list_max prices_only in
            if min_price =? 0 then Ok (false, Lit "Invalid price data", 0)
            else
              let variance_pct := (Qz (max_price - min_price) / Qz min_price * 100)%Q in
              if Qltb max_variance_pct variance_pct then
                Ok (false, Fmt "Volatile: {variance_pct:.1f}% variance" [variance_pct], 0)
              else
                let mid := (length window_prices / 2)%nat in
                let older_half := drop mid window_prices in
                let newer_half := take mid window_prices in
                let older_low := list_min (map fst older_half) in
                let newer_low := list_min (map fst newer_half) in
                if Qltb (Qz newer_low) (Qz older_low * (98 # 100)) then
                  Ok (false, Lit "Still making new lows", 0)
                else
                  stable_hours ← for_each (fun stable_hours h =>
                      let h_prices :=
                        map fst (List.filter (fun pa => Qle_bool (snd pa) (Qz h))
                                             window_prices) in
                      if 2 <=? len h_prices then
                        if list_min h_prices =? 0 then Raise ZeroDivisionError
                        else
                          let h_variance :=
                            (Qz (list_max h_prices - list_min h_prices)
                             / Qz (list_min h_prices) * 100)%Q in
                          Ok (if Qle_bool h_variance max_variance_pct
                              then h else stable_hours)
                      else Ok stable_hours)
                    (seqZ 1 (py_int min_hours)) 0;
                  let consolidating := Qltb (Qz older_low * (101 # 100)) (Qz newer_low) in
                  if consolidating then
                    Ok (true, Fmt "Consolidating {stable_hours}h (higher lows)"
                                  [Qz stable_hours], stable_hours)
                  else
                    Ok (true, Fmt "Stable {stable_hours}h ({variance_pct:.1f}% var)"
                                  [Qz stable_hours; variance_pct], stable_hours)
  end.

End VelocityV2.

(** ** The collaborators of the scorer *)

(** A [players] document. *)
Record Player : Type := mkPlayer {
  p_id : string;
  p_name : string;
  p_futbin_id : Z;
  p_slug : option string
}.

(** [MarketPulse] (market_pulse.py), the fields the scorer reads. *)
Record MarketPulse : Type := mkPulse {
  status : string;
  pct_at_lows : Q;
  pct_at_highs : Q;
  pct_trending_down : Q;
  avg_position_in_range : Q
}.

(** The dict returned by [FutbinScraper.get_longterm_daily_prices], the keys
    the scorer reads; the three read with [.get] may be absent. *)
Record Longterm : Type := mkLongterm {
  lt_data_points : Z;
  lt_position_in_range : Q;
  lt_all_time_low : Z;
  lt_recent_position : option Q;
  lt_bounce_from_low : option Q;
  lt_recent_low : option Z
}.

(** A held position, as passed to [scan_sell_opportunities]. *)
Record Position : Type := mkPosition {
  pos_player_id : string;
  pos_buy_price : Z;
  pos_id : option string;
  pos_quantity : option Z
}.

(** What one evaluation reads from outside: the clock, the [players] and
    [price_history] collections (platform fixed, [days=7]), the market pulse
    and the long-term cache ([cache_only=True]).  A fetch that raises is a
    [Raise]; a fetch that returns [None] is [Ok None].  The price history is
    any function here; the query that the database runs for it is
    [Database.get_price_history], and [reads_database] says that a world
    answers with it. *)
Record World : Type := mkWorld {
  now : datetime;
  get_player : string -> option Player;
  get_active_players : list Player;
  get_latest_price : string -> option PriceRecord;
  get_price_history : string -> Z -> list PriceRecord;
  get_pulse : result (option MarketPulse);
  get_longterm_daily_prices : Z -> string -> result (option Longterm)
}.

(** ** smart_signals.py: hysteresis *)

Module SmartSignals.

Definition _get_player_state (db : Db) (player_id : string) : option PlayerState :=
  player_states db !! player_id.

Definition _save_player_state (now : datetime) (db : Db) (player_id : string)
    (state readiness : string) (score price : Z) : Db :=
  {| player_states :=
       <[player_id := {| ps_state := Some state;
                         ps_readiness := Some readiness;
                         ps_score := Some score;
                         ps_price := Some price;
                         ps_updated_at := Some now |}]> (player_states db);
     signal_log := signal_log db |}.

(** [readiness_levels.get(r, 1)] *)
Definition readiness_level (r : string) : Z :=
  if String.eqb r "AVOID" then 0
  else if String.eqb r "WAIT" then 1
  else if String.eqb r "ALMOST" then 2
  else if String.eqb r "READY" then 3
  else 1.

Definition _apply_hysteresis (now : datetime) (db : Db) (player_id : string)
    (new_state new_readiness : string) (new_score current_price : Z)
  : string * string * Z :=
  match _get_player_state db player_id with
  | None => (new_state, new_readiness, new_score)
  | Some prev_state =>
      let prev_readiness := default "WAIT"%string (ps_readiness prev_state) in
      let prev_score := default 50 (ps_score prev_state) in
      let prev_price := default current_price (ps_price prev_state) in
      let prev_time := default now (ps_updated_at prev_state) in
      let hours_since_update := hours_between now prev_time in
      let price_change_pct :=
        if 0 <? prev_price
        then (Qz (current_price - prev_price) / Qz prev_price * 100)%Q
        else 0%Q in
      if (String.eqb prev_readiness "READY"
          && (Qltb hours_since_update 2 && Qltb (-3) price_change_pct)
          && negb (String.eqb new_readiness "READY"))%bool
      then (default new_state (ps_state prev_state), "READY"%string,
            Z.max (prev_score - 5) new_score)
      else
        let score_diff := new_score - prev_score in
        let new_level := readiness_level new_readiness in
        let prev_level := readiness_level prev_readiness in
        if prev_level <? new_level then
          if score_diff <? 10
          then (default new_state (ps_state prev_state), prev_readiness, prev_score)
          else (new_state, new_readiness, new_score)
        else if new_level <? prev_level then
          if -15 <? score_diff
          then (default new_state (ps_state prev_state), prev_readiness, prev_score)
          else (new_state, new_readiness, new_score)
        else (new_state, new_readiness, new_score)
  end.

(** Attributes that [scan_sell_opportunities] sets on a signal. *)
Record Held : Type := mkHeld {
  position_id : option string;
  buy_price : Z;
  quantity : Z
}.

Record TradeSignal : Type := mkSignal {
  player_id : string;
  player_name : string;
  signal_type : string;
  score : Z;
  reasons : list text;
  warnings : list text;
  current_price : Z;
  recommendation : text;
  velocity : option VelocityV2.VelocityAnalysisV2;
  confidence : string;
  held : option Held
}.

Definition favorable (readiness : string) : bool :=
  (String.eqb readiness "READY" || String.eqb readiness "ALMOST")%bool.

Definition _calculate_timing_score (velocity : option VelocityV2.VelocityAnalysisV2)
    (stabilization_result : bool * text * Z) : Z * list text * list text :=
  let '(is_stable, stability_reason, stable_hours) := stabilization_result in
  match velocity with
  | None => (0, [], [Lit "⚠ No velocity data"])
  | Some v =>
      let readiness := VelocityV2.buy_readiness v in
      let descr := VelocityV2.description v in
      let why := VelocityV2.buy_readiness_reason v in
      (* primary: buy readiness *)
      let '(score, reasons, warnings) :=
        if String.eqb readiness "READY" then
          (22, [Wrap "✓ " descr ""; Wrap "✓ " why ""], [])
        else if String.eqb readiness "ALMOST" then
          (10, [Wrap "✓ " descr ""], [Wrap "⏳ " why ""])
        else if String.eqb readiness "WAIT" then
          (-5, [], [Wrap "⚠ " descr ""; Wrap "   " why ""])
        else if String.eqb readiness "AVOID" then
          (-25, [], [Wrap "🚨 " descr ""; Wrap "   " why ""])
        else (0, [], []) in
      (* stabilization bonus *)
      let '(score, reasons, warnings) :=
        if (is_stable && (4 <=? stable_hours) && favorable readiness)%bool then
          (score + 5,
           reasons ++ [Fmt "✓ Stable for {stable_hours:.0f}h (confirmed)" [Qz stable_hours]],
           warnings)
        else if (negb is_stable && text_lower_contains "new low" stability_reason)%bool then
          (score - 5, reasons, warnings ++ [Wrap "✗ " stability_reason ""])
        else (score, reasons, warnings) in
      (* support bounce bonus *)
      let support_truthy :=
        match VelocityV2.support_level v with
        | Some l => negb (l =? 0)
        | None => false
        end in
      let '(score, reasons) :=
        if (support_truthy && (2 <=? VelocityV2.times_bounced_at_support v)
            && favorable readiness)%bool then
          (score + 3,
           reasons ++ [Fmt "✓ Support at {velocity.support_level:,} ({velocity.times_bounced_at_support}x)"
                           [Qz (default 0 (VelocityV2.support_level v));
                            Qz (VelocityV2.times_bounced_at_support v)]])
        else (score, reasons) in
      (* extended downtrend penalty *)
      let '(score, warnings) :=
        if VelocityV2.days_in_trend v <? -3 then
          (score - 3,
           warnings ++ [Fmt "⚠ Downtrend for {abs(velocity.days_in_trend)} days"
                            [Qz (Z.abs (VelocityV2.days_in_trend v))]])
        else if 2 <? VelocityV2.days_in_trend v then
          (score,
           warnings ++ [Fmt "⚠ Already up for {velocity.days_in_trend} days"
                            [Qz (VelocityV2.days_in_trend v)]])
        else (score, warnings) in
      (Z.max (-30) (Z.min 30 score), reasons, warnings)
  end.

Definition _log_signal (now : datetime) (db : Db) (player_id direction : string)
    (raw_score final_score : Z) (components : list (string * Z))
    (velocity : option VelocityV2.VelocityAnalysisV2)
    (market_state signal_type : string) (price : Z) : Db :=
  {| player_states := player_states db;
     signal_log :=
       signal_log db ++
       [{| log_player_id := player_id;
           log_direction := direction;
           log_raw_score := raw_score;
           log_final_score := final_score;
           log_components := components;
           log_velocity_state := VelocityV2.state <$> velocity;
           log_buy_readiness := VelocityV2.buy_readiness <$> velocity;
           log_market_state := market_state;
           log_signal_type := signal_type;
           log_price := price;
           log_timestamp := now |}] |}.

(** [player.get('slug', player['name'].lower().replace(' ', '-'))] *)
Definition slug_of (player : Player) : string :=
  default (str_replace_char " " "-" (str_lower (p_name player))) (p_slug player).

(** The MARKET PULSE block of [get_buy_score]:
    (market_state, market_score, reasons, warnings). *)
Definition buy_market_pulse (fetched : result (option MarketPulse))
  : string * Z * list text * list text :=
  match fetched with
  | Ok (Some pulse) =>
      if String.eqb (status pulse) "CRASHED" then
        (status pulse, 15,
         [Fmt "✓ MARKET CRASHED ({pulse.pct_at_lows:.0f}% at lows)" [pct_at_lows pulse]], [])
      else if String.eqb (status pulse) "CRASHING" then
        (status pulse, -15, [],
         [Fmt "🚨 MARKET CRASHING ({pulse.pct_trending_down:.0f}% falling)"
              [pct_trending_down pulse]])
      else if String.eqb (status pulse) "INFLATED" then
        (status pulse, -15, [],
         [Fmt "✗ MARKET INFLATED ({pulse.pct_at_highs:.0f}% at highs)" [pct_at_highs pulse]])
      else if String.eqb (status pulse) "RECOVERING" then
        (status pulse, 5,
         [Fmt "✓ Market recovering ({pulse.avg_position_in_range:.0f}%)"
              [avg_position_in_range pulse]], [])
      else (status pulse, 0, [], [])
  | Ok None => ("UNKNOWN"%string, 0, [], [])
  | Raise _ => ("UNKNOWN"%string, 0, [], [])
  end.

(** The HISTORICAL POSITION + BOUNCE PENALTY block of [get_buy_score]:
    (position_score, bounce_penalty, reasons, warnings). *)
Definition buy_position (fetched : result (option Longterm)) (current_price : Z)
  : Z * Z * list text * list text :=
  match fetched with
  | Ok (Some longterm) =>
      if 30 <=? lt_data_points longterm then
        let recent_position :=
          default (lt_position_in_range longterm) (lt_recent_position longterm) in
        let bounce_from_low := default 0%Q (lt_bounce_from_low longterm) in
        let recent_low := default (lt_all_time_low longterm) (lt_recent_low longterm) in
        let '(bounce_penalty, warnings) :=
          if Qle_bool 50 bounce_from_low then
            (-20, [Fmt "🚨 Already bounced {bounce_from_low:.0f}% off low!" [bounce_from_low];
                   Fmt "   Low: {recent_low:,} → Now: {current_price:,}"
                       [Qz recent_low; Qz current_price]])
          else if Qle_bool 30 bounce_from_low then
            (-12, [Fmt "⚠ Up {bounce_from_low:.0f}% from recent low" [bounce_from_low]])
          else if Qle_bool 15 bounce_from_low then
            (-5, [Fmt "⚠ Bounced {bounce_from_low:.0f}% already" [bounce_from_low]])
          else (0, []) in
        let '(position_score, reasons, warnings) :=
          if Qle_bool 80 recent_position then
            (-15, [], warnings ++ [Fmt "🚨 Near 30-day HIGH ({recent_position:.0f}%)"
                                       [recent_position]])
          else if Qle_bool 60 recent_position then
            (-8, [], warnings ++ [Fmt "⚠ Upper range ({recent_position:.0f}%)"
                                      [recent_position]])
          else if Qle_bool recent_position 15 then
            (15, [Fmt "🔥 Near 30-day LOW! ({recent_position:.0f}%)" [recent_position]],
             warnings)
          else if Qle_bool recent_position 30 then
            (8, [Fmt "✓ Lower range ({recent_position:.0f}%)" [recent_position]], warnings)
          else if Qle_bool recent_position 45 then
            (3, [Fmt "✓ Below mid ({recent_position:.0f}%)" [recent_position]], warnings)
          else (0, [], warnings) in
        (position_score, bounce_penalty, reasons, warnings)
      else (0, 0, [], [])
  | Ok None => (0, 0, [], [])
  | Raise _ => (0, 0, [], [Lit "⚠ No historical range data"])
  end.

Definition buy_signal_type (score current_price : Z) : string * text :=
  if 75 <=? score then
    ("STRONG BUY"%string,
     Fmt "Multiple factors aligned. Good entry at {current_price:,}" [Qz current_price])
  else if 60 <=? score then
    ("BUY"%string, Fmt "Good opportunity at {current_price:,}" [Qz current_price])
  else if 45 <=? score then
    ("HOLD"%string, Lit "Conditions okay but not ideal. Consider waiting.")
  else if 30 <=? score then
    ("WAIT"%string, Lit "Poor timing. Wait for better conditions.")
  else ("AVOID"%string, Lit "Bad timing. Do not buy now.").

Definition get_buy_score (w : World) (db : Db) (player_id : string)
  : result (option TradeSignal * Db) :=
  match get_player w player_id with
  | None => Ok (None, db)
  | Some player =>
      let latest := get_latest_price w player_id in
      let history := get_price_history w player_id 200 in
      match latest with
      | Some latest_rec =>
          if VelocityV2.len history <? 2 then
            Ok (Some {| player_id := player_id;
                        player_name := p_name player;
                        signal_type := "WAIT";
                        score := 0;
                        reasons := [Lit "Insufficient data"];
                        warnings := [Lit "Need more price history"];
                        current_price := price latest_rec;
                        recommendation := Lit "Wait for more data before trading";
                        velocity := None;
                        confidence := "MEDIUM";
                        held := None |}, db)
          else
            let score := 40 in
            let current_price := price latest_rec in
            (* market pulse *)
            let '(market_state, market_score, reasons, warnings) :=
              buy_market_pulse (get_pulse w) in
            let score := score + market_score in
            (* unified timing score *)
            velocity ← VelocityV2.calculate_velocity_v2 (now w) history (Some current_price);
            stabilization_result ← VelocityV2.check_stabilization_v2 (now w) history 6 5;
            let '(timing_score, timing_reasons, timing_warnings) :=
              _calculate_timing_score velocity stabilization_result in
            let score := score + timing_score in
            let reasons := reasons ++ timing_reasons in
            let warnings := warnings ++ timing_warnings in
            (* historical position and bounce penalty *)
            let '(position_score, bounce_penalty, position_reasons, position_warnings) :=
              buy_position (get_longterm_daily_prices w (p_futbin_id player) (slug_of player))
                           current_price in
            let reasons := reasons ++ position_reasons in
            let warnings := warnings ++ position_warnings in
            let score := score + (position_score + bounce_penalty) in
            (* determine signal type *)
            let raw_score := score in
            let score := Z.max 0 (Z.min 100 score) in
            let confidence := from_option VelocityV2.confidence "LOW"%string velocity in
            let raw_readiness := from_option VelocityV2.buy_readiness "WAIT"%string velocity in
            let raw_state := from_option VelocityV2.state "STABLE"%string velocity in
            (* apply hysteresis *)
            let '(smoothed_state, smoothed_readiness, smoothed_score) :=
              _apply_hysteresis (now w) db player_id raw_state raw_readiness score
                                current_price in
            let score := smoothed_score in
            let db := _save_player_state (now w) db player_id smoothed_state
                                         smoothed_readiness score current_price in
            let '(signal_type, recommendation) := buy_signal_type score current_price in
            let db :=
              _log_signal (now w) db player_id "BUY" raw_score score
                [("base"%string, 40); ("market"%string, market_score);
                 ("timing"%string, timing_score); ("position"%string, position_score);
                 ("bounce_penalty"%string, bounce_penalty)]
                velocity market_state signal_type current_price in
            Ok (Some {| player_id := player_id;
                        player_name := p_name player;
                        signal_type := signal_type;
                        score := score;
                        reasons := reasons;
                        warnings := warnings;
                        current_price := current_price;
                        recommendation := recommendation;
                        velocity := velocity;
                        confidence := confidence;
                        held := None |}, db)
      | None =>
          Ok (Some {| player_id := player_id;
                      player_name := p_name player;
                      signal_type := "WAIT";
                      score := 0;
                      reasons := [Lit "Insufficient data"];
                      warnings := [Lit "Need more price history"];
                      current_price := 0;
                      recommendation := Lit "Wait for more data before trading";
                      velocity := None;
                      confidence := "MEDIUM";
                      held := None |}, db)
      end
  end.

(** The PROFIT LEVEL block of [get_sell_score]: (profit_score, reasons, warnings). *)
Definition sell_profit (profit : Z) (profit_pct : Q) : Z * list text * list text :=
  if Qle_bool 20 profit_pct then
    (25, [Fmt "✓ Excellent profit: {profit_pct:.1f}% ({profit:,} coins)"
              [profit_pct; Qz profit]], [])
  else if Qle_bool 10 profit_pct then
    (15, [Fmt "✓ Good profit: {profit_pct:.1f}% ({profit:,} coins)"
              [profit_pct; Qz profit]], [])
  else if Qle_bool 5 profit_pct then
    (5, [Fmt "✓ Modest profit: {profit_pct:.1f}% ({profit:,} coins)"
             [profit_pct; Qz profit]], [])
  else if Qle_bool profit_pct (-10) then
    (-20, [], [Fmt "✗ Losing {abs(profit_pct):.1f}% - consider cutting loss or holding"
                   [Qabs profit_pct]])
  else if Qltb profit_pct 0 then
    (-10, [], [Fmt "⚠ Currently down {abs(profit_pct):.1f}%" [Qabs profit_pct]])
  else (0, [], []).

(** [v2_sell_map.get(velocity.state, (0, velocity.description, True))] *)
Definition v2_sell_map (v : VelocityV2.VelocityAnalysisV2) : Z * text * bool :=
  let st := VelocityV2.state v in
  let d := VelocityV2.description v in
  if String.eqb st "FREEFALL" then (20, Wrap "🚨 " d " - SELL NOW", true)
  else if String.eqb st "FALLING" then (12, Wrap "⚠ " d " - sell before worse", true)
  else if String.eqb st "DECELERATING" then (8, Wrap "⚠ " d " - still falling", true)
  else if String.eqb st "STABLE" then (5, Wrap "➖ " d " - fine to sell", true)
  else if String.eqb st "BOTTOMING" then (-3, Wrap "📈 " d " - may be recovering", false)
  else if String.eqb st "RISING" then (-5, Wrap "📈 " d " - price still going up", false)
  else if String.eqb st "SURGING" then (-10, Wrap "📈 " d " - could wait for peak", false)
  else if String.eqb st "CHOPPY" then (0, Wrap "↔ " d " - unpredictable", true)
  else (0, d, true).

(** The VELOCITY V2 block of [get_sell_score]:
    (velocity_score, reasons, warnings). *)
Definition sell_velocity (velocity : option VelocityV2.VelocityAnalysisV2)
  : Z * list text * list text :=
  match velocity with
  | Some v =>
      let '(v_score, v_msg, is_reason) := v2_sell_map v in
      if is_reason then (v_score, [v_msg], []) else (v_score, [], [v_msg])
  | None => (0, [], [])
  end.

(** The MARKET PULSE block of [get_sell_score]. *)
Definition sell_market_pulse (fetched : result (option MarketPulse))
  : string * Z * list text * list text :=
  match fetched with
  | Ok (Some pulse) =>
      if String.eqb (status pulse) "CRASHING" then
        (status pulse, 15, [Lit "🚨 Market crashing - exit positions!"], [])
      else if String.eqb (status pulse) "INFLATED" then
        (status pulse, 10, [Lit "✓ Market inflated - good time to sell"], [])
      else if String.eqb (status pulse) "CRASHED" then
        (status pulse, -15, [], [Lit "⚠ Market at lows - bad time to sell"])
      else (status pulse, 0, [], [])
  | Ok None => ("UNKNOWN"%string, 0, [], [])
  | Raise _ => ("UNKNOWN"%string, 0, [], [])
  end.

(** The HISTORICAL POSITION block of [get_sell_score]. *)
Definition sell_position (fetched : result (option Longterm)) : Z * list text * list text :=
  match fetched with
  | Ok (Some longterm) =>
      if 30 <=? lt_data_points longterm then
        let position := lt_position_in_range longterm in
        if Qle_bool 80 position then
          (15, [Fmt "✓ Near all-time high ({position:.0f}%)" [position]], [])
        else if Qle_bool 60 position then
          (8, [Fmt "✓ Upper range ({position:.0f}%)" [position]], [])
        else if Qle_bool position 20 then
          (-15, [], [Fmt "✗ Near floor ({position:.0f}%) - terrible time to sell" [position]])
        else (0, [], [])
      else (0, [], [])
  | Ok None => (0, [], [])
  | Raise _ => (0, [], [])
  end.

Definition sell_signal_type (score current_price : Z) (profit_pct : Q) : string * text :=
  if 75 <=? score then
    ("STRONG SELL"%string,
     Fmt "Take profit! Sell at {current_price:,} ({profit_pct:.1f}% profit)"
         [Qz current_price; profit_pct])
  else if 60 <=? score then
    ("SELL"%string, Fmt "Good time to sell at {current_price:,}" [Qz current_price])
  else if 45 <=? score then ("HOLD"%string, Lit "Could sell, timing not optimal")
  else if 30 <=? score then ("WAIT"%string, Lit "Wait for better exit")
  else ("HOLD"%string, Lit "Bad timing. Hold or cut losses.").

Definition get_sell_score (w : World) (db : Db) (player_id : string) (buy_price : Z)
  : result (option TradeSignal * Db) :=
  match get_player w player_id with
  | None => Ok (None, db)
  | Some player =>
      let latest := get_latest_price w player_id in
      let history := get_price_history w player_id 100 in
      match latest with
      | None => Ok (None, db)
      | Some latest_rec =>
          let score := 50 in
          let current_price := price latest_rec in
          (* profit after the 5% tax *)
          let sell_after_tax := py_int (Qz current_price * (95 # 100)) in
          let profit := sell_after_tax - buy_price in
          let profit_pct :=
            if buy_price =? 0 then 0%Q else (Qz profit / Qz buy_price * 100)%Q in
          let '(profit_score, reasons, warnings) := sell_profit profit profit_pct in
          let score := score + profit_score in
          (* velocity *)
          velocity ← VelocityV2.calculate_velocity_v2 (now w) history (Some current_price);
          let '(velocity_score, velocity_reasons, velocity_warnings) :=
            sell_velocity velocity in
          let reasons := reasons ++ velocity_reasons in
          let warnings := warnings ++ velocity_warnings in
          let score := score + velocity_score in
          (* market pulse *)
          let '(market_state, market_score, market_reasons, market_warnings) :=
            sell_market_pulse (get_pulse w) in
          let reasons := reasons ++ market_reasons in
          let warnings := warnings ++ market_warnings in
          let score := score + market_score in
          (* historical position *)
          let '(position_score, position_reasons, position_warnings) :=
            sell_position (get_longterm_daily_prices w (p_futbin_id player) (slug_of player)) in
          let reasons := reasons ++ position_reasons in
          let warnings := warnings ++ position_warnings in
          let score := score + position_score in
          (* determine signal type *)
          let raw_score := score in
          let score := Z.max 0 (Z.min 100 score) in
          let '(signal_type, recommendation) :=
            sell_signal_type score current_price profit_pct in
          let db :=
            _log_signal (now w) db player_id "SELL" raw_score score
              [("base"%string, 50); ("profit"%string, profit_score);
               ("velocity"%string, velocity_score); ("market"%string, market_score);
               ("position"%string, position_score)]
              velocity market_state signal_type current_price in
          Ok (Some {| player_id := player_id;
                      player_name := p_name player;
                      signal_type := signal_type;
                      score := score;
                      reasons := reasons;
                      warnings := warnings;
                      current_price := current_price;
                      recommendation := recommendation;
                      velocity := velocity;
                      confidence := "MEDIUM";
                      held := None |}, db)
      end
  end.

(** The scoring loop of [scan_buy_opportunities]: (opportunities, db). *)
Definition scan_buy_loop (w : World) (min_score : Z) (players : list Player)
    (acc : list TradeSignal * Db) : result (list TradeSignal * Db) :=
  for_each (fun '(opportunities, db) player =>
              '(signal, db) ← get_buy_score w db (p_id player);
              match signal with
              | Some sg =>
                  if min_score <=? score sg then Ok (opportunities ++ [sg], db)
                  else Ok (opportunities, db)
              | None => Ok (opportunities, db)
              end)
           players acc.

(** [refresh_longterm_cache] only fills the long-term cache, whose content
    after the warm-up is what [get_longterm_daily_prices w] returns. *)
Definition scan_buy_opportunities (w : World) (db : Db) (min_score : Z)
  : result (list TradeSignal * Db) :=
  let players := get_active_players w in
  '(opportunities, db) ← scan_buy_loop w min_score players ([], db);
  Ok (VelocityV2.sort_desc score opportunities, db).

Definition tag_position (pos : Position) (sg : TradeSignal) : TradeSignal :=
  {| player_id := player_id sg;
     player_name := player_name sg;
     signal_type := signal_type sg;
     score := score sg;
     reasons := reasons sg;
     warnings := warnings sg;
     current_price := current_price sg;
     recommendation := recommendation sg;
     velocity := velocity sg;
     confidence := confidence sg;
     held := Some {| position_id := pos_id pos;
                     buy_price := pos_buy_price pos;
                     quantity := default 1 (pos_quantity pos) |} |}.

Definition scan_sell_loop (w : World) (min_score : Z) (positions : list Position)
    (acc : list TradeSignal * Db) : result (list TradeSignal * Db) :=
  for_each (fun '(opportunities, db) pos =>
              '(signal, db) ← get_sell_score w db (pos_player_id pos) (pos_buy_price pos);
              match signal with
              | Some sg =>
                  if min_score <=? score sg
                  then Ok (opportunities ++ [tag_position pos sg], db)
                  else Ok (opportunities, db)
              | None => Ok (opportunities, db)
              end)
           positions acc.

Definition scan_sell_opportunities (w : World) (db : Db) (positions : list Position)
    (min_score : Z) : result (list TradeSignal * Db) :=
  '(opportunities, db) ← scan_sell_loop w min_score positions ([], db);
  Ok (VelocityV2.sort_desc score opportunities, db).

End SmartSignals.

(** ** database.py: the price history the scorer reads *)

Module Database.

(** A [price_history] document. *)
Record PriceDoc : Type := mkPriceDoc {
  doc_player_id : string;
  doc_platform : string;
  doc_record : PriceRecord
}.

(** The query of [get_price_history].  [{'recorded_at': {'$gte': cutoff}}]
    compares with a date, so it matches only a document whose [recorded_at]
    is a date: one that holds a string there, or nothing, is not returned. *)
Definition matches (cutoff : datetime) (player_id platform : string) (d : PriceDoc) : bool :=
  (String.eqb (doc_player_id d) player_id && String.eqb (doc_platform d) platform
   && match recorded_at (doc_record d) with
      | Some (TsDatetime t) => cutoff <=? t
      | _ => false
      end)%bool.

(** The sort key of a document that matches. *)
Definition recorded (d : PriceDoc) : datetime :=
  match recorded_at (doc_record d) with
  | Some (TsDatetime t) => t
  | _ => 0
  end.

(** [find(query).sort('recorded_at', DESCENDING)], then [.limit(limit)] when
    [limit] is given and not 0.  Documents of equal date are kept in the
    order of the collection. *)
Definition get_price_history (now : datetime) (collection : list PriceDoc)
    (player_id platform : string) (days : Z) (limit : option Z) : list PriceRecord :=
  let cutoff := now - days * us_per_day in
  let found :=
    VelocityV2.sort_desc recorded (List.filter (matches cutoff player_id platform) collection) in
  map doc_record
      match limit with
      | Some n => if n =? 0 then found else take (Z.to_nat (Z.abs n)) found
      | None => found
      end.

End Database.

(** ** monitor.py: the best buy opportunities *)

Module Monitor.
Import SmartSignals.

(** [lst[:n]] *)
Definition slice_to {A : Type} (n : Z) (l : list A) : list A :=
  if 0 <=? n then take (Z.to_nat n) l else take (Z.to_nat (VelocityV2.len l + n)) l.

(** [t.startswith(marker)] for a marker of one character.  A template opens
    with literal text or with a formatted number, a wrapper with its prefix,
    so the literal opening decides. *)
Fixpoint text_startswith (marker : string) (t : text) : bool :=
  match t with
  | Lit s => String.prefix marker s
  | Fmt template _ => String.prefix marker template
  | Wrap p inner _ =>
      if String.eqb p "" then text_startswith marker inner else String.prefix marker p
  end.

(** The loop over [opp.reasons] that reads the readiness off the markers. *)
Fixpoint ready_status (reasons : list text) : string :=
  match reasons with
  | [] => "WAIT"
  | reason :: rest =>
      if text_startswith "✓" reason then "READY"
      else if text_startswith "⏳" reason then "ALMOST"
      else ready_status rest
  end.

(** One entry of the list that [find_buy_opportunities] returns. *)
Record Opportunity : Type := mkOpportunity {
  o_name : string;
  o_price : Z;
  o_score : Z;
  o_signal : string;
  o_confidence : string;
  o_ready : string;
  o_reasons : list text
}.

Definition report (opp : TradeSignal) : Opportunity :=
  {| o_name := player_name opp;
     o_price := current_price opp;
     o_score := score opp;
     o_signal := signal_type opp;
     o_confidence := confidence opp;
     o_ready := ready_status (reasons opp);
     o_reasons := slice_to 2 (reasons opp) |}.

Definition find_buy_opportunities (w : World) (db : Db) (top_n : Z)
  : result (list Opportunity * Db) :=
  '(opportunities, db) ← scan_buy_opportunities w db 55;
  Ok (map report (slice_to top_n opportunities), db).

End Monitor.

(** ** market_pulse.py: the market pulse *)

Module MarketPulseAnalyzer.

Record CategoryPulse : Type := mkCategoryPulse {
  cat_name : string;
  cat_count : Z;
  cat_avg_position : Q;
  cat_pct_at_lows : Q;
  cat_pct_at_highs : Q;
  cat_pct_trending_down : Q;
  cat_pct_trending_up : Q;
  cat_status : string
}.

(** The [MarketPulse] that [get_pulse] returns: the fields the scorer reads
    ([scored]) and the others. *)
Record Pulse : Type := mkFullPulse {
  scored : MarketPulse;
  health_score : Z;
  pct_trending_up : Q;
  categories : list (string * CategoryPulse);
  fodder_status : string;
  fodder_avg_position : Q;
  summary : text;
  buy_sentiment : string;
  sell_sentiment : string;
  players_analyzed : Z;
  pulse_timestamp : datetime
}.

(** A [players] document with the [card_type] of the enrichment. *)
Record TrackedPlayer : Type := mkTracked {
  tp_player : Player;
  tp_card_type : option string
}.

(** The long-term dict of the scraper, the keys [get_pulse] reads. *)
Record Range : Type := mkRange {
  rg_data_points : Z;
  rg_position_in_range : Q;
  rg_current : Z;
  rg_all_time_high : Z
}.

(** What [get_pulse] reads from outside: the tracked players, the scraper
    (a fetch that raises is a [Raise]) and the price history of the last two
    days, newest first. *)
Record Market : Type := mkMarket {
  get_all_players : list TrackedPlayer;
  fetch_longterm : Z -> string -> result (option Range);
  recent_history : string -> list PriceRecord
}.

(** One entry of [all_stats], the keys that are read again. *)
Record Stat : Type := mkStat {
  st_position_in_range : Q;
  st_pct_change_24h : Q
}.

Definition _categorize_player (player : TrackedPlayer) (current_price all_time_high : Z)
  : string :=
  let by_id :=
    let futbin_id := p_futbin_id (tp_player player) in
    if ((18699 <=? futbin_id) && (futbin_id <=? 21500) && (200000 <=? all_time_high))%bool
    then "Icons"
    else if ((18800 <=? futbin_id) && (futbin_id <=? 18900))%bool then "Heroes"
    else if ((21760 <=? futbin_id) && (futbin_id <=? 21780)
             && (500000 <=? all_time_high))%bool then "TOTY"
    else if ((20000 <=? futbin_id) && (futbin_id <=? 22500)
             && (10000 <=? current_price) && (current_price <=? 50000))%bool then "TOTW"
    else if 20000 <=? current_price then "89+ Fodder"
    else if 5000 <=? current_price then "87-88 Fodder"
    else if 1000 <=? current_price then "86 Fodder"
    else "85 Fodder" in
  match tp_card_type player with
  | Some stored =>
      if String.eqb stored "ICON" then "Icons"
      else if String.eqb stored "HERO" then "Heroes"
      else if String.eqb stored "TOTY" then "TOTY"
      else if String.eqb stored "TOTW" then "TOTW"
      else if String.eqb stored "PROMO" then "TOTW"
      else by_id
  | None => by_id
  end.

Fixpoint sumQ (l : list Q) : Q :=
  match l with
  | [] => 0%Q
  | x :: l' => (x + sumQ l')%Q
  end.

(** [sum(1 for x in l if p(x)) / len(l) * 100] *)
Definition pct_where {A : Type} (p : A -> bool) (l : list A) : Q :=
  (Qz (VelocityV2.len (List.filter p l)) / Qz (VelocityV2.len l) * 100)%Q.

(** The five metrics computed from a non-empty list of stats, by
    [_calculate_category_pulse] and by [get_pulse] alike:
    (avg_position, pct_at_lows, pct_at_highs, pct_trending_down, pct_trending_up). *)
Definition metrics (stats : list Stat) : Q * Q * Q * Q * Q :=
  let positions := map st_position_in_range stats in
  let changes := map st_pct_change_24h stats in
  let avg_position := (sumQ positions / Qz (VelocityV2.len positions))%Q in
  let pct_at_lows := pct_where (fun p => Qle_bool p 25) positions in
  let pct_at_highs := pct_where (fun p => Qle_bool 75 p) positions in
  let pct_trending_down := pct_where (fun c => Qltb c (-2)) changes in
  let pct_trending_up := pct_where (fun c => Qltb 2 c) changes in
  (avg_position, pct_at_lows, pct_at_highs, pct_trending_down, pct_trending_up).

Definition _calculate_category_pulse (stats : list Stat) (name : string) : CategoryPulse :=
  match stats with
  | [] =>
      {| cat_name := name; cat_count := 0; cat_avg_position := 50;
         cat_pct_at_lows := 0; cat_pct_at_highs := 0;
         cat_pct_trending_down := 0; cat_pct_trending_up := 0;
         cat_status := "NORMAL" |}
  | _ =>
      let '(avg_position, pct_at_lows, pct_at_highs, pct_trending_down, pct_trending_up) :=
        metrics stats in
      let status :=
        if (Qle_bool avg_position 20 || Qle_bool 60 pct_at_lows)%bool then "CRASHED"
        else if Qle_bool avg_position 35 then "LOW"
        else if (Qle_bool 75 avg_position || Qle_bool 50 pct_at_highs)%bool then "INFLATED"
        else if Qle_bool 60 avg_position then "HIGH"
        else "NORMAL" in
      {| cat_name := name; cat_count := VelocityV2.len stats;
         cat_avg_position := avg_position;
         cat_pct_at_lows := pct_at_lows; cat_pct_at_highs := pct_at_highs;
         cat_pct_trending_down := pct_trending_down;
         cat_pct_trending_up := pct_trending_up;
         cat_status := status |}
  end.

Definition _determine_status
    (avg_position pct_at_lows pct_at_highs pct_trending_down pct_trending_up
     fodder_position : Q) : string * Z * text :=
  if (Qle_bool 50 pct_at_lows || Qle_bool avg_position 25)%bool then
    ("CRASHED"%string, py_int avg_position,
     Fmt "🟢 MARKET CRASHED - {pct_at_lows:.0f}% of players near all-time lows. BUY WINDOW!"
         [pct_at_lows])
  else if (Qle_bool 60 pct_trending_down && Qltb 30 avg_position)%bool then
    ("CRASHING"%string, py_int (avg_position * (8 # 10))%Q,
     Fmt "🔻 MARKET CRASHING - {pct_trending_down:.0f}% trending down. Wait for floor."
         [pct_trending_down])
  else if (Qle_bool 40 pct_at_highs || Qle_bool 70 avg_position)%bool then
    ("INFLATED"%string, py_int (100 - (avg_position - 50))%Q,
     Fmt "🔴 MARKET INFLATED - {pct_at_highs:.0f}% near all-time highs. Risky to buy."
         [pct_at_highs])
  else if (Qle_bool avg_position 40 && Qle_bool 40 pct_trending_up)%bool then
    ("RECOVERING"%string, py_int (avg_position + 20)%Q,
     Fmt "📈 MARKET RECOVERING - {pct_trending_up:.0f}% trending up from lows."
         [pct_trending_up])
  else
    ("STABLE"%string, 50,
     Fmt "➖ MARKET STABLE - Average position {avg_position:.0f}%. Normal conditions."
         [avg_position]).

Definition _determine_sentiment (status : string)
    (avg_position pct_at_lows pct_trending_down : Q) : string * string :=
  if String.eqb status "CRASHED" then ("GREAT"%string, "AVOID"%string)
  else if String.eqb status "CRASHING" then ("RISKY"%string, "AVOID"%string)
  else if String.eqb status "INFLATED" then ("AVOID"%string, "GREAT"%string)
  else if String.eqb status "RECOVERING" then ("GOOD"%string, "NEUTRAL"%string)
  else ("NEUTRAL"%string, "NEUTRAL"%string).

(** [category_stats[category].append(stat)], the dict kept in insertion order. *)
Fixpoint category_append (category : string) (stat : Stat) (d : list (string * list Stat))
  : list (string * list Stat) :=
  match d with
  | [] => [(category, [stat])]
  | (k, stats) :: d' =>
      if String.eqb k category then (k, stats ++ [stat]) :: d'
      else (k, stats) :: category_append category stat d'
  end.

Fixpoint category_get (category : string) (d : list (string * list Stat))
  : option (list Stat) :=
  match d with
  | [] => None
  | (k, stats) :: d' => if String.eqb k category then Some stats else category_get category d'
  end.

(** The body of the loop of [get_pulse] for one player, up to the stat:
    [None] stands for [continue], also when the [try] catches an exception. *)
Definition player_stat (m : Market) (p : TrackedPlayer) : option (Stat * string) :=
  match fetch_longterm m (p_futbin_id (tp_player p)) (SmartSignals.slug_of (tp_player p)) with
  | Ok (Some longterm) =>
      if rg_data_points longterm <? 10 then None
      else
        let history := recent_history m (p_id (tp_player p)) in
        let pct_change_24h :=
          match head history, last history with
          | Some newest, Some oldest =>
              if (2 <=? VelocityV2.len history) && negb (price oldest =? 0)
              then (Qz (price newest - price oldest) / Qz (price oldest) * 100)%Q
              else 0%Q
          | _, _ => 0%Q
          end in
        Some ({| st_position_in_range := rg_position_in_range longterm;
                 st_pct_change_24h := pct_change_24h |},
              _categorize_player p (rg_current longterm) (rg_all_time_high longterm))
  | Ok None => None
  | Raise _ => None
  end.

Definition collect (m : Market) (players : list TrackedPlayer)
  : list Stat * list (string * list Stat) :=
  fold_left (fun '(all_stats, category_stats) p =>
               match player_stat m p with
               | Some (stat, category) =>
                   (all_stats ++ [stat], category_append category stat category_stats)
               | None => (all_stats, category_stats)
               end)
            players ([], []).

Definition get_pulse (now : datetime) (m : Market) : option Pulse :=
  let players := get_all_players m in
  if VelocityV2.len players <? 3 then None
  else
    let '(all_stats, category_stats) := collect m players in
    if VelocityV2.len all_stats <? 3 then None
    else
      let '(avg_position, pct_at_lows, pct_at_highs, pct_trending_down, pct_trending_up) :=
        metrics all_stats in
      let categories :=
        map (fun '(cat_name, cat_stats) =>
               (cat_name, _calculate_category_pulse cat_stats cat_name))
            category_stats in
      let fodder_stats :=
        concat (map (fun cat_name => default [] (category_get cat_name category_stats))
                    ["85 Fodder"; "86 Fodder"; "87-88 Fodder"; "89+ Fodder"]%string) in
      let fodder_pulse := _calculate_category_pulse fodder_stats "All Fodder" in
      let '(status, health_score, summary) :=
        _determine_status avg_position pct_at_lows pct_at_highs pct_trending_down
                          pct_trending_up (cat_avg_position fodder_pulse) in
      let '(buy_sentiment, sell_sentiment) :=
        _determine_sentiment status avg_position pct_at_lows pct_trending_down in
      Some {| scored := {| status := status;
                           pct_at_lows := pct_at_lows;
                           pct_at_highs := pct_at_highs;
                           pct_trending_down := pct_trending_down;
                           avg_position_in_range := avg_position |};
              health_score := health_score;
              pct_trending_up := pct_trending_up;
              categories := categories;
              fodder_status := cat_status fodder_pulse;
              fodder_avg_position := cat_avg_position fodder_pulse;
              summary := summary;
              buy_sentiment := buy_sentiment;
              sell_sentiment := sell_sentiment;
              players_analyzed := VelocityV2.len all_stats;
              pulse_timestamp := now |}.

End MarketPulseAnalyzer.

(** ** scraper.py: the long-term daily prices and their cache

    The [longterm_cache] collection is reliable as the other collections are:
    reading and writing a document do not raise.  The request and the regular
    expression that finds the price arrays in the page are not modelled; the
    function is given what they produce. *)

Module FutbinScraper.

(** A price array of the player page: [[timestamp_ms, price], ...]. *)
Definition Series : Type := list (Z * Z).

(** The dict that [get_longterm_daily_prices] returns.  The three dates are
    kept as the timestamps they are made from. *)
Record LongtermData : Type := mkLongtermData {
  prices : Series;
  all_time_low : Z;
  all_time_high : Z;
  current : Z;
  position_in_range : Q;
  floor_timestamp : Z;
  first_timestamp : Z;
  last_timestamp : Z;
  data_points : Z;
  volatility_pct : Q;
  recent_low : Z;
  recent_high : Z;
  recent_position : Q;
  bounce_from_low : Q
}.

(** The keys the scorer reads. *)
Definition scorer_view (d : LongtermData) : Longterm :=
  {| lt_data_points := data_points d;
     lt_position_in_range := position_in_range d;
     lt_all_time_low := all_time_low d;
     lt_recent_position := Some (recent_position d);
     lt_bounce_from_low := Some (bounce_from_low d);
     lt_recent_low := Some (recent_low d) |}.

(** A [longterm_cache] document. *)
Record CacheEntry : Type := mkCacheEntry {
  cached_at : datetime;
  no_data : bool;
  data : option LongtermData
}.

(** [data[i+1][0] - data[i][0]] for every [i]. *)
Fixpoint adjacent_gaps (data : Series) : list Z :=
  match data with
  | a :: (b :: _) as rest => (fst b - fst a) :: adjacent_gaps rest
  | _ => []
  end.

(** The score of one candidate array of at least 30 entries.  The scores
    are exact here and doubles in the code, where [n * 0.1] need not equal
    the tenth of [n]: two arrays whose exact scores are equal may compare
    either way there, so the theorem on what a fetch chooses leaves open
    which array of several with the maximal score is taken. *)
Definition series_score (data : Series) : Q :=
  let gaps := take 5 (adjacent_gaps data) in
  let avg_gap := match gaps with [] => 0%Q | _ => mean gaps end in
  let is_daily := (Qltb 70000000 avg_gap && Qltb avg_gap 100000000)%bool in
  if is_daily then
    let date_range_days :=
      (Qz (default 0 (fst <$> last data) - default 0 (fst <$> head data))%Z / 86400000)%Q in
    (date_range_days * 2)%Q
  else (Qz (VelocityV2.len data) * (1 # 10))%Q.

(** The loop over [all_matches]: (best_data, best_score). *)
Definition select_best (all_matches : list Series) : option Series * Q :=
  fold_left (fun '(best_data, best_score) data =>
               if VelocityV2.len data <? 30 then (best_data, best_score)
               else
                 let score := series_score data in
                 if Qltb best_score score then (Some data, score)
                 else (best_data, best_score))
            all_matches (None, 0%Q).

(** The statistics of the array chosen; [now_ms] is
    [datetime.now().timestamp() * 1000]. *)
Definition longterm_stats (now_ms : Q) (best_data : Series) : LongtermData :=
  let prices := map snd best_data in
  let all_time_low := list_min prices in
  let all_time_high := list_max prices in
  let current := default 0 (last prices) in
  let price_range := all_time_high - all_time_low in
  let position_in_range :=
    if 0 <? price_range then (Qz (current - all_time_low)%Z / Qz price_range * 100)%Q
    else 50%Q in
  let thirty_days_ms := 30 * 24 * 60 * 60 * 1000 in
  let recent_data :=
    List.filter (fun d => Qltb (now_ms - Qz thirty_days_ms) (Qz (fst d))) best_data in
  let '(recent_low, recent_high, recent_position, bounce_from_low) :=
    if 5 <=? VelocityV2.len recent_data then
      let recent_prices := map snd recent_data in
      let recent_low := list_min recent_prices in
      let recent_high := list_max recent_prices in
      let recent_range := recent_high - recent_low in
      let recent_position :=
        if 0 <? recent_range then (Qz (current - recent_low)%Z / Qz recent_range * 100)%Q
        else 50%Q in
      let bounce_from_low :=
        if 0 <? recent_low then (Qz (current - recent_low)%Z / Qz recent_low * 100)%Q
        else 0%Q in
      (recent_low, recent_high, recent_position, bounce_from_low)
    else (all_time_low, all_time_high, position_in_range, 0%Q) in
  let min_idx := list_index all_time_low prices in
  {| prices := best_data;
     all_time_low := all_time_low;
     all_time_high := all_time_high;
     current := current;
     position_in_range := position_in_range;
     floor_timestamp := fst (nth min_idx best_data (0, 0));
     first_timestamp := default 0 (fst <$> head best_data);
     last_timestamp := default 0 (fst <$> last best_data);
     data_points := VelocityV2.len best_data;
     volatility_pct :=
       if 0 <? all_time_low then (Qz price_range / Qz all_time_low * 100)%Q else 0%Q;
     recent_low := recent_low;
     recent_high := recent_high;
     recent_position := recent_position;
     bounce_from_low := bounce_from_low |}.

(** What the cache check at the top returns: [Some answer] when the function
    returns from the cache, [None] when it goes on. *)
Definition cache_answer (now : datetime) (cache : option CacheEntry)
    (max_cache_hours : Z) (cache_only : bool) : option (option LongtermData) :=
  match cache with
  | Some cached =>
      let is_fresh := now - cached_at cached <? max_cache_hours * us_per_hour in
      if (is_fresh || cache_only)%bool then
        if no_data cached then Some None
        else match data cached with
             | Some d => Some (Some d)
             | None => None
             end
      else None
  | None => None
  end.

(** [get_longterm_daily_prices] for one cache key: the answer and the cache
    document afterwards.  [response] is what the request returns when it is
    made: [None] when it fails, else the arrays matched in the page.  An
    update with [$set] leaves the other fields of the document as they are. *)
Definition get_longterm_daily_prices (now : datetime) (now_ms : Q)
    (cache : option CacheEntry) (max_cache_hours : Z) (cache_only : bool)
    (response : option (list Series)) : option LongtermData * option CacheEntry :=
  match cache_answer now cache max_cache_hours cache_only with
  | Some answer => (answer, cache)
  | None =>
      if cache_only then (None, cache)
      else
        match response with
        | None => (None, cache)
        | Some all_matches =>
            let no_data_entry :=
              Some {| cached_at := now; no_data := true; data := cache ≫= data |} in
            match select_best all_matches with
            | (Some best_data, _) =>
                if VelocityV2.len best_data <? 10 then (None, no_data_entry)
                else
                  let result := longterm_stats now_ms best_data in
                  (Some result,
                   Some {| cached_at := now;
                           no_data := from_option no_data false cache;
                           data := Some result |})
            | (None, _) => (None, no_data_entry)
            end
        end
  end.

End FutbinScraper.

(** * Vocabulary of the properties *)

(** Every stored score lies in [0, 100], as the data model has it. *)
Definition scores_in_range (db : Db) : Prop :=
  forall pid ps s,
    player_states db !! pid = Some ps -> ps_score ps = Some s -> 0 <= s <= 100.

(** An external input that could not be had: the fetch raised or returned [None]. *)
Definition unavailable {A : Type} (fetched : result (option A)) : Prop :=
  match fetched with
  | Ok (Some _) => False
  | _ => True
  end.

(** [d[k]] on a dict kept as an association list. *)
Fixpoint component (k : string) (d : list (string * Z)) : option Z :=
  match d with
  | [] => None
  | (k', v) :: d' => if String.eqb k k' then Some v else component k d'
  end.

(** The signals evaluated by a scan, in order: one [get_buy_score] per
    tracked player, each run on the store the previous one left. *)
Fixpoint buy_evaluations (w : World) (players : list Player) (db : Db)
  : result (list SmartSignals.TradeSignal * Db) :=
  match players with
  | [] => Ok ([], db)
  | player :: rest =>
      '(signal, db) ← SmartSignals.get_buy_score w db (p_id player);
      '(signals, db) ← buy_evaluations w rest db;
      Ok (match signal with Some sg => sg :: signals | None => signals end, db)
  end.

(** Likewise one [get_sell_score] per held position, the signal carrying the
    attributes of its position. *)
Fixpoint sell_evaluations (w : World) (positions : list Position) (db : Db)
  : result (list SmartSignals.TradeSignal * Db) :=
  match positions with
  | [] => Ok ([], db)
  | pos :: rest =>
      '(signal, db) ← SmartSignals.get_sell_score w db (pos_player_id pos) (pos_buy_price pos);
      '(signals, db) ← sell_evaluations w rest db;
      Ok (match signal with
          | Some sg => SmartSignals.tag_position pos sg :: signals
          | None => signals
          end, db)
  end.

(** A request to the engine and a sequence of requests served on one store. *)
Inductive request : Type :=
| BuyRequest (w : World) (player_id : string)
| SellRequest (w : World) (player_id : string) (buy_price : Z).

Definition serve (r : request) (db : Db) : result (option SmartSignals.TradeSignal * Db) :=
  match r with
  | BuyRequest w player_id => SmartSignals.get_buy_score w db player_id
  | SellRequest w player_id buy_price => SmartSignals.get_sell_score w db player_id buy_price
  end.

Fixpoint serve_all (rs : list request) (db : Db)
  : result (list (option SmartSignals.TradeSignal) * Db) :=
  match rs with
  | [] => Ok ([], db)
  | r :: rest =>
      '(signal, db) ← serve r db;
      '(signals, db) ← serve_all rest db;
      Ok (signal :: signals, db)
  end.

(** Prices on the transfer market are whole coins from 0 to 15,000,000; on
    this range the arithmetic of the code neither overflows nor loses a
    sign. *)
Definition market_price (p : Z) : Prop := 0 <= p <= 15000000.

(** A record as [Database.get_price_history] returns it: [recorded_at] holds
    a (naive) [datetime], the price is a market price. *)
Definition stored_record (r : PriceRecord) : Prop :=
  (exists t, recorded_at r = Some (TsDatetime t)) /\ market_price (price r).




(** Evaluations of one player at successive moments, each less than two hours
    after the store was last written and at a market price less than 3%
    below the price stored then: above 97% of it ([t] and [p] are the stored
    time and price). *)
Fixpoint renewing (pid : string) (t p : Z) (ws : list World) : Prop :=
  match ws with
  | [] => True
  | w :: rest =>
      exists latest,
        is_Some (get_player w pid)
        /\ get_latest_price w pid = Some latest
        /\ 2 <= VelocityV2.len (get_price_history w pid 200)
        /\ now w - t < 2 * us_per_hour
        /\ market_price (price latest)
        /\ (0 < p -> 97 * p < 100 * price latest)
        /\ renewing pid (now w) (price latest) rest
  end.

(** A tracked player whose long-term data [get_pulse] can use: the fetch
    returned a range of at least 10 data points. *)
Definition usable (m : MarketPulseAnalyzer.Market) (p : MarketPulseAnalyzer.TrackedPlayer)
  : bool :=
  match MarketPulseAnalyzer.fetch_longterm m (p_futbin_id (MarketPulseAnalyzer.tp_player p))
          (SmartSignals.slug_of (MarketPulseAnalyzer.tp_player p)) with
  | Ok (Some longterm) => 10 <=? MarketPulseAnalyzer.rg_data_points longterm
  | _ => false
  end.

(** * Concrete scenarios *)

Module Fixtures.
Import SmartSignals.

Definition hours (h : Z) : datetime := h * us_per_hour.

(** One stored entity ["p1"], written [elapsed_h] hours before [t_now]. *)
Definition t_now : datetime := hours 1000.

Definition db_with (readiness : string) (score price : Z) (elapsed_h : Z) : Db :=
  {| player_states :=
       {[ "p1"%string := {| ps_state := Some "STABLE"%string;
                            ps_readiness := Some readiness;
                            ps_score := Some score;
                            ps_price := Some price;
                            ps_updated_at := Some (t_now - hours elapsed_h) |} ]};
     signal_log := [] |}.

(** A sample of the given price, recorded [age_h] hours before [t_now]. *)
Definition sample (p : Z) (age_h : Z) : PriceRecord :=
  {| price := p; recorded_at := Some (TsDatetime (t_now - hours age_h)); timestamp := None |}.

(** Newest first: now 110, two hours ago 100, a day ago 55.  No sample is
    3 to 9 or 6 to 18 hours old, so the 6h and 12h windows are empty. *)
Definition gap_series : list PriceRecord := [sample 110 0; sample 100 2; sample 55 24].

(** Hourly samples, newest first, from a list of prices. *)
Fixpoint hourly_from (age_h : Z) (ps : list Z) : list PriceRecord :=
  match ps with
  | [] => []
  | p :: ps' => sample p age_h :: hourly_from (age_h + 1) ps'
  end.

(** Two dips, newest first.  In time order the prices are
    1100 1050 1000 1050 1100 1150 1100 1150 1200 1250: the first dip bottoms
    at 1000 (7h ago), the second at 1100 (3h ago), 10% higher. *)
Definition rising_dips : list PriceRecord :=
  hourly_from 0 [1250; 1200; 1150; 1100; 1150; 1100; 1050; 1000; 1050; 1100].

(** In time order 1200 1150 1100 1150 1200 1150 1000 1150 1200 1250: the
    first dip bottoms at 1100 (7h ago), the second at 1000 (3h ago), lower. *)
Definition falling_dips : list PriceRecord :=
  hourly_from 0 [1250; 1200; 1150; 1000; 1150; 1200; 1150; 1100; 1150; 1200].


(** Five samples in the last four hours, one of them at price 0. *)
Definition zero_price_window : list PriceRecord := hourly_from 0 [100; 100; 0; 100; 100].



(** A world with the single player ["p1"] and the given price history,
    market pulse and long-term cache entry. *)
Definition the_player : Player :=
  {| p_id := "p1"; p_name := "Bukayo Saka"; p_futbin_id := 1; p_slug := None |}.

Definition world (history : list PriceRecord) (pulse : result (option MarketPulse))
    (longterm : result (option Longterm)) : World :=
  {| now := t_now;
     get_player := fun pid => if String.eqb pid "p1" then Some the_player else None;
     get_active_players := [the_player];
     get_latest_price := fun _ => head history;
     get_price_history := fun _ limit => take (Z.to_nat limit) history;
     get_pulse := pulse;
     get_longterm_daily_prices := fun _ _ => longterm |}.

Definition empty_db : Db := {| player_states := ∅; signal_log := [] |}.

(** Two samples only: the velocity analysis has nothing to say. *)
Definition two_samples : list PriceRecord := [sample 100 0; sample 100 1].

(** A quiet world around [two_samples]: no market pulse, no cached range. *)
Definition quiet_world : World := world two_samples (Ok None) (Ok None).

End Fixtures.

Module Scenarios.
Import SmartSignals.

(** The quiet world [later_h] hours after [t_now], the price at [p]. *)
Definition later_world (later_h p : Z) : World :=
  {| now := Fixtures.t_now + Fixtures.hours later_h;
     get_player := get_player Fixtures.quiet_world;
     get_active_players := get_active_players Fixtures.quiet_world;
     get_latest_price := fun _ => Some (Fixtures.sample p (- later_h));
     get_price_history := fun _ _ =>
       [Fixtures.sample p (- later_h); Fixtures.sample p (1 - later_h)];
     get_pulse := Ok None;
     get_longterm_daily_prices := fun _ _ => Ok None |}.

(** A crashed market around [Fixtures.two_samples]: no velocity report can
    be made, no long-term range is cached. *)
Definition crashed_pulse : MarketPulse :=
  {| status := "CRASHED"; pct_at_lows := 60; pct_at_highs := 0; pct_trending_down := 10;
     avg_position_in_range := 20 |}.

Definition crashed_world : World :=
  Fixtures.world Fixtures.two_samples (Ok (Some crashed_pulse)) (Ok None).

(** Four tracked players with the quiet two-sample history at price 100.
    The cached ranges put them at 50%, 10%, 25% and 10% of their range, which
    gives the buy scores 40, 55, 48 and 55. *)
Definition squad : list Player :=
  [ {| p_id := "p1"; p_name := "Bukayo Saka"; p_futbin_id := 1; p_slug := None |};
    {| p_id := "p2"; p_name := "Declan Rice"; p_futbin_id := 2; p_slug := None |};
    {| p_id := "p3"; p_name := "Cole Palmer"; p_futbin_id := 3; p_slug := None |};
    {| p_id := "p4"; p_name := "Phil Foden"; p_futbin_id := 4; p_slug := None |} ].

Definition range_position (position : Q) : Longterm :=
  {| lt_data_points := 60;
     lt_position_in_range := position;
     lt_all_time_low := 50;
     lt_recent_position := Some position;
     lt_bounce_from_low := Some 0%Q;
     lt_recent_low := Some 90 |}.

Definition squad_world : World :=
  {| now := Fixtures.t_now;
     get_player := fun pid => List.find (fun p => String.eqb (p_id p) pid) squad;
     get_active_players := squad;
     get_latest_price := fun _ => head Fixtures.two_samples;
     get_price_history := fun _ limit => take (Z.to_nat limit) Fixtures.two_samples;
     get_pulse := Ok None;
     get_longterm_daily_prices := fun id _ =>
       Ok (Some (range_position (if id =? 1 then 50 else if id =? 3 then 25 else 10))) |}.

(** Five held positions on the squad, sold at 100 (95 after tax): the sell
    scores are 75, 35, 55, 60 and 75. *)
Definition held_position (pid : string) (paid : Z) (id : string) : Position :=
  {| pos_player_id := pid; pos_buy_price := paid; pos_id := Some id; pos_quantity := None |}.

Definition squad_positions : list Position :=
  [ held_position "p1" 70 "a"; held_position "p2" 95 "b"; held_position "p3" 88 "c";
    held_position "p4" 70 "d"; held_position "p1" 70 "e" ].

(** A [price_history] collection.  For ["p1"]: 100 now, 0 an hour ago, 100
    two hours ago, 90 ten days ago, and one document whose [recorded_at] is a
    string that does not parse; one document of another player. *)
Definition stored (pid : string) (p : Z) (ts : ts_value) : Database.PriceDoc :=
  {| Database.doc_player_id := pid;
     Database.doc_platform := "ps";
     Database.doc_record := {| price := p; recorded_at := Some ts; timestamp := None |} |}.

Definition collection : list Database.PriceDoc :=
  [ stored "p1" 90 (TsDatetime (Fixtures.t_now - Fixtures.hours 240));
    stored "p1" 100 (TsDatetime (Fixtures.t_now - Fixtures.hours 2));
    stored "p1" 100 (TsString None);
    stored "p2" 5000 (TsDatetime (Fixtures.t_now - Fixtures.hours 1));
    stored "p1" 0 (TsDatetime (Fixtures.t_now - Fixtures.hours 1));
    stored "p1" 100 (TsDatetime Fixtures.t_now) ].


(** Five tracked players: two at 75% of their range, three at 30%; the
    fetch for a sixth one fails. *)
Definition tracked (id : Z) : MarketPulseAnalyzer.TrackedPlayer :=
  {| MarketPulseAnalyzer.tp_player :=
       {| p_id := "p"; p_name := "Player"; p_futbin_id := id; p_slug := None |};
     MarketPulseAnalyzer.tp_card_type := None |}.

Definition range_at (position : Q) : MarketPulseAnalyzer.Range :=
  {| MarketPulseAnalyzer.rg_data_points := 60;
     MarketPulseAnalyzer.rg_position_in_range := position;
     MarketPulseAnalyzer.rg_current := 10000;
     MarketPulseAnalyzer.rg_all_time_high := 20000 |}.

Definition split_market : MarketPulseAnalyzer.Market :=
  {| MarketPulseAnalyzer.get_all_players := map tracked [1; 2; 3; 4; 5; 6];
     MarketPulseAnalyzer.fetch_longterm := fun id _ =>
       if id <=? 2 then Ok (Some (range_at 75))
       else if id <=? 5 then Ok (Some (range_at 30))
       else Raise ConnectionError;
     MarketPulseAnalyzer.recent_history := fun _ => [] |}.

(** A daily array of 30 entries, the prices falling from 2000 to 1160 and
    closing at 1500; and an hourly array of 40 entries. *)
Definition day_ms : Z := 86400000.

Definition daily_series : FutbinScraper.Series :=
  map (fun i => (1700000000000 + i * day_ms, if i =? 29 then 1500 else 2000 - 30 * i))
      (seqZ 0 30).

Definition hourly_series : FutbinScraper.Series :=
  map (fun i => (1700000000000 + i * 3600000, 1000 + i)) (seqZ 0 40).

(** The clock one day after the last entry of [daily_series]. *)
Definition now_ms : Q := Qz (1700000000000 + 30 * day_ms).

End Scenarios.

(** * Properties *)

Import SmartSignals.

(** ** Comparisons on rationals *)

Lemma Qltb_lt (x y : Q) : Qltb x y = true <-> (x < y)%Q.
Proof.
  unfold Qltb. rewrite negb_true_iff, <- not_true_iff_false, Qle_bool_iff.
  split; [apply Qnot_le_lt | apply Qlt_not_le].
Qed.

Lemma hours_lt_2 (now t : datetime) :
  Qltb (hours_between now t) 2 = true <-> now - t < 2 * us_per_hour.
Proof.
  rewrite Qltb_lt. unfold hours_between, Qlt, us_per_hour. simpl. lia.
Qed.

Lemma pct_gt_minus_3 (cur p : Z) :
  0 < p ->
  Qltb (-3) (Qz (cur - p) / Qz p * 100) = true <-> 97 * p < 100 * cur.
Proof.
  intros Hp. rewrite Qltb_lt.
  destruct p as [|p|p]; try lia.
  unfold Qlt, Qz, inject_Z, Qdiv, Qmult, Qinv. simpl. lia.
Qed.

(** ** Hysteresis *)

(** The guard of the sticky-READY return, in terms of the stored fields. *)
Lemma sticky_guard_true (now : datetime) (r new_readiness : string) (p cur t : Z) :
  (String.eqb r "READY"
   && (Qltb (hours_between now t) 2
       && Qltb (-3) (if 0 <? p then (Qz (cur - p) / Qz p * 100)%Q else 0%Q))
   && negb (String.eqb new_readiness "READY"))%bool = true
  <-> r = "READY"%string /\ now - t < 2 * us_per_hour /\ (0 < p -> 97 * p < 100 * cur)
      /\ new_readiness <> "READY"%string.
Proof.
  rewrite !andb_true_iff, negb_true_iff, String.eqb_eq, String.eqb_neq, hours_lt_2.
  destruct (Z.ltb_spec 0 p) as [Hp|Hp].
  - rewrite (pct_gt_minus_3 cur p Hp). tauto.
  - assert (Qltb (-3) 0 = true) as -> by reflexivity.
    split; [intros [[? [? _]] ?] | intros (? & ? & _ & ?)]; repeat split; auto; lia.
Qed.

(** C1, as the code has it: with a stored READY written less than 2 hours
    ago and a current price strictly above 0.97 times the stored price, the
    output readiness is READY; the output score is
    [max(priorScore - 5, freshScore)] when the fresh readiness is not READY
    and the fresh score when it is. *)
Theorem C1_sticky_ready_amended
    (now : datetime) (db : Db) (pid new_state new_readiness : string)
    (new_score cur : Z) (st : option string) (s p t : Z) :
  player_states db !! pid
    = Some (mkPlayerState st (Some "READY"%string) (Some s) (Some p) (Some t)) ->
  now - t < 2 * us_per_hour ->
  97 * p < 100 * cur ->
  exists out_state,
    _apply_hysteresis now db pid new_state new_readiness new_score cur
    = (out_state, "READY"%string,
       if String.eqb new_readiness "READY" then new_score else Z.max (s - 5) new_score).
Proof.
  intros Hdb Ht Hp. unfold _apply_hysteresis, _get_player_state. rewrite Hdb. simpl.
  destruct (String.eqb_spec new_readiness "READY") as [->|Hne].
  - rewrite andb_false_r. simpl. eauto.
  - assert (Qltb (hours_between now t) 2
            && Qltb (-3) (if 0 <? p then (Qz (cur - p) / Qz p * 100)%Q else 0%Q)
            = true) as Hg.
    { pose proof (sticky_guard_true now "READY" new_readiness p cur t) as [_ H].
      rewrite !andb_true_iff in H. rewrite andb_true_iff.
      apply H. repeat split; auto. }
    rewrite Hg. simpl. eauto.
Qed.

(** The scenario of the specification: stored READY at price 1000 one hour
    ago, fresh WAIT at price 980. *)
Lemma C1_sticky_ready_witness :
  exists out_state,
    _apply_hysteresis Fixtures.t_now (Fixtures.db_with "READY" 80 1000 1) "p1"
                      "CHOPPY" "WAIT" 50 980
    = (out_state, "READY"%string, 75).
Proof.
  apply (C1_sticky_ready_amended Fixtures.t_now (Fixtures.db_with "READY" 80 1000 1) "p1"
           "CHOPPY" "WAIT" 50 980 (Some "STABLE"%string) 80 1000 (Fixtures.hours 999)).
  - reflexivity.
  - vm_compute. reflexivity.
  - lia.
Defined.

(** C1 as written fails when the fresh readiness is READY too: stored READY
    with score 80, one hour old, same price 1000, fresh READY with score 60.
    The hypotheses of the claim hold and the output score is the fresh 60,
    not [max(80 - 5, 60) = 75]. *)
Lemma C1_sticky_ready_counterexample :
  Fixtures.t_now - (Fixtures.t_now - Fixtures.hours 1) < 2 * us_per_hour
  /\ 97 * 1000 <= 100 * 1000
  /\ _apply_hysteresis Fixtures.t_now (Fixtures.db_with "READY" 80 1000 1) "p1"
                       "STABLE" "READY" 60 1000
     = ("STABLE"%string, "READY"%string, 60)
  /\ 60 <> Z.max (80 - 5) 60.
Proof.
  repeat split; try (vm_compute; congruence).
Qed.

(** C2: with a stored prior state and the sticky-READY return not taken, on
    the scale AVOID=0 < WAIT=1 < ALMOST=2 < READY=3 an upgrade is accepted
    iff [freshScore - priorScore >= 10], a downgrade iff
    [freshScore - priorScore <= -15], equal levels accept the fresh values,
    and a rejected change re-emits the prior (state, readiness, score). *)
Theorem C2_hysteresis_thresholds
    (now : datetime) (db : Db) (pid new_state new_readiness : string)
    (new_score cur : Z) (st r : string) (s p t : Z) :
  player_states db !! pid
    = Some (mkPlayerState (Some st) (Some r) (Some s) (Some p) (Some t)) ->
  ~ (r = "READY"%string /\ now - t < 2 * us_per_hour /\ (0 < p -> 97 * p < 100 * cur)
     /\ new_readiness <> "READY"%string) ->
  let out := _apply_hysteresis now db pid new_state new_readiness new_score cur in
  let fresh := (new_state, new_readiness, new_score) in
  let prior := (st, r, s) in
  (readiness_level "AVOID" = 0 /\ readiness_level "WAIT" = 1
   /\ readiness_level "ALMOST" = 2 /\ readiness_level "READY" = 3)
  /\ (readiness_level r < readiness_level new_readiness ->
     (out = fresh <-> 10 <= new_score - s) /\ (new_score - s < 10 -> out = prior))
  /\ (readiness_level new_readiness < readiness_level r ->
     (out = fresh <-> new_score - s <= -15) /\ (-15 < new_score - s -> out = prior))
  /\ (readiness_level new_readiness = readiness_level r -> out = fresh).
Proof.
  intros Hdb Hsticky out fresh prior.
  assert (out =
    (if readiness_level r <? readiness_level new_readiness then
       if new_score - s <? 10 then prior else fresh
     else if readiness_level new_readiness <? readiness_level r then
       if -15 <? new_score - s then prior else fresh
     else fresh)) as Hout.
  { subst out. unfold _apply_hysteresis, _get_player_state. rewrite Hdb. simpl.
    destruct (_ && _ && _)%bool eqn:Hg; [|reflexivity].
    apply sticky_guard_true in Hg. contradiction. }
  assert (readiness_level r <> readiness_level new_readiness -> prior <> fresh) as Hne.
  { intros Hl Heq. inversion Heq. subst. lia. }
  rewrite Hout. split; [repeat split|]. repeat split.
  - destruct (Z.ltb_spec (readiness_level r) (readiness_level new_readiness)); [|lia].
    destruct (Z.ltb_spec (new_score - s) 10); [|lia].
    intros Heq. exfalso. apply Hne; [lia | exact Heq].
  - destruct (Z.ltb_spec (readiness_level r) (readiness_level new_readiness)); [|lia].
    destruct (Z.ltb_spec (new_score - s) 10); [lia | reflexivity].
  - destruct (Z.ltb_spec (readiness_level r) (readiness_level new_readiness)); [|lia].
    destruct (Z.ltb_spec (new_score - s) 10); [reflexivity | lia].
  - destruct (Z.ltb_spec (readiness_level r) (readiness_level new_readiness)); [lia|].
    destruct (Z.ltb_spec (readiness_level new_readiness) (readiness_level r)); [|lia].
    destruct (Z.ltb_spec (-15) (new_score - s)); [|lia].
    intros Heq. exfalso. apply Hne; [lia | exact Heq].
  - destruct (Z.ltb_spec (readiness_level r) (readiness_level new_readiness)); [lia|].
    destruct (Z.ltb_spec (readiness_level new_readiness) (readiness_level r)); [|lia].
    destruct (Z.ltb_spec (-15) (new_score - s)); [lia | reflexivity].
  - destruct (Z.ltb_spec (readiness_level r) (readiness_level new_readiness)); [lia|].
    destruct (Z.ltb_spec (readiness_level new_readiness) (readiness_level r)); [|lia].
    destruct (Z.ltb_spec (-15) (new_score - s)); [reflexivity | lia].
  - intros Heq. rewrite Heq, Z.ltb_irrefl. reflexivity.
Qed.

(** The upgrade rejection of the specification: stored WAIT with score 50,
    fresh ALMOST with score 55. *)
Lemma C2_hysteresis_thresholds_witness :
  _apply_hysteresis Fixtures.t_now (Fixtures.db_with "WAIT" 50 1000 1) "p1"
                    "CHOPPY" "ALMOST" 55 1000
  = ("STABLE"%string, "WAIT"%string, 50).
Proof.
  pose proof (C2_hysteresis_thresholds Fixtures.t_now (Fixtures.db_with "WAIT" 50 1000 1)
                "p1" "CHOPPY" "ALMOST" 55 1000 "STABLE" "WAIT" 50 1000
                (Fixtures.t_now - Fixtures.hours 1) eq_refl) as H.
  destruct H as (_ & Hup & _).
  - intros (Hr & _). discriminate Hr.
  - apply Hup; reflexivity.
Defined.

(** ** Velocity windows *)

Section VelocityWindows.
Import VelocityV2.

Lemma bind_Ok {A B : Type} (m : result A) (f : A -> result B) (b : B) :
  (m ≫= f) = Ok b -> exists a, m = Ok a /\ f a = Ok b.
Proof. destruct m as [a|e]; simpl; [eauto | discriminate]. Qed.

Lemma for_each_cons {A S : Type} (step : S -> A -> result S) (x : A) (l : list A) (acc : S) :
  for_each step (x :: l) acc = (step acc x ≫= for_each step l).
Proof. reflexivity. Qed.

Lemma in_window_bounds (target : Z) (age : Q) :
  in_window target age = true
  <-> (Qz target * (1 # 2) <= age)%Q /\ (age <= Qz target * (3 # 2))%Q.
Proof. unfold in_window. rewrite andb_true_iff, !Qle_bool_iff. tauto. Qed.

Lemma record_windows_keep (p : Z) (age : Q) (targets : list Z) (pw : gmap Z (Z * Q))
    (t : Z) (x : Z * Q) :
  pw !! t = Some x -> record_windows p age targets pw !! t = Some x.
Proof.
  revert pw. induction targets as [|a targets IH]; intros pw Hx; simpl; [exact Hx|].
  apply IH. destruct (pw !! a) eqn:Ha; [exact Hx|].
  destruct (in_window a age); [|exact Hx].
  rewrite lookup_insert_ne; [exact Hx | congruence].
Qed.

Lemma record_windows_new (p : Z) (age : Q) (targets : list Z) (pw : gmap Z (Z * Q))
    (t : Z) (x : Z * Q) :
  record_windows p age targets pw !! t = Some x ->
  pw !! t = Some x \/ (In t targets /\ in_window t age = true /\ x = (p, age)).
Proof.
  revert pw. induction targets as [|a targets IH]; intros pw Hx; simpl in *; [auto|].
  apply IH in Hx as [Hx | (Hin & Hw & ->)]; [|tauto].
  destruct (pw !! a) eqn:Ha; [auto|].
  destruct (in_window a age) eqn:Hwa; [|auto].
  destruct (decide (a = t)) as [->|Hne].
  - rewrite lookup_insert_eq in Hx. inversion Hx. tauto.
  - rewrite lookup_insert_ne in Hx by exact Hne. auto.
Qed.

Lemma record_windows_fill (p : Z) (age : Q) (targets : list Z) (pw : gmap Z (Z * Q))
    (t : Z) :
  In t targets -> in_window t age = true ->
  is_Some (record_windows p age targets pw !! t).
Proof.
  revert pw. induction targets as [|a targets IH]; intros pw Hin Hw; simpl in *; [tauto|].
  destruct Hin as [->|Hin]; [|auto].
  destruct (pw !! t) eqn:Ht.
  - exists p0. apply record_windows_keep, Ht.
  - rewrite Hw. exists (p, age). apply record_windows_keep, lookup_insert_eq.
Qed.

(** What the window loop guarantees, for any starting dict. *)
Lemma find_windows_loop (now : datetime) (f : ts_key) (prices : list PriceRecord)
    (pw w : gmap Z (Z * Q)) :
  for_each (fun price_windows p =>
              ts ← _get_timestamp p f;
              Ok (record_windows (price p) (hours_between now ts) target_hours
                                 price_windows)) prices pw = Ok w ->
  (forall t x, pw !! t = Some x -> w !! t = Some x)
  /\ (forall t p age, w !! t = Some (p, age) ->
        pw !! t = Some (p, age)
        \/ (In t target_hours /\ in_window t age = true
            /\ exists r ts, In r prices /\ price r = p /\ _get_timestamp r f = Ok ts
                            /\ age = hours_between now ts))
  /\ (forall t, In t target_hours -> w !! t = None ->
        forall r, In r prices ->
        exists ts, _get_timestamp r f = Ok ts
                   /\ in_window t (hours_between now ts) = false).
Proof.
  revert pw. induction prices as [|r prices IH]; intros pw Hrun.
  - inversion Hrun; subst. repeat split; auto. intros t _ _ r [].
  - rewrite for_each_cons in Hrun. apply bind_Ok in Hrun as (pw1 & Hstep & Hrest).
    apply bind_Ok in Hstep as (ts & Hts & Hpw1).
    assert (pw1 = record_windows (price r) (hours_between now ts) target_hours pw)
      as -> by congruence.
    clear Hpw1.
    destruct (IH _ Hrest) as (Hkeep & Hnew & Hnone). repeat split.
    + intros t x Hx. apply Hkeep, record_windows_keep, Hx.
    + intros t p age Hw. apply Hnew in Hw as [Hw | (Hin & Hwin & r' & ts' & Hr' & ?)].
      * apply record_windows_new in Hw as [Hw | (Hin & Hwin & Heq)]; [auto|].
        inversion Heq; subst. right. repeat split; auto.
        exists r, ts. repeat split; auto. left; reflexivity.
      * right. repeat split; auto. exists r', ts'. split; [right; exact Hr' | assumption].
    + intros t Hin Hw r' [<-|Hr']; [|eauto].
      exists ts. split; [exact Hts|].
      destruct (in_window t (hours_between now ts)) eqn:Hwin; [|reflexivity].
      destruct (record_windows_fill (price r) (hours_between now ts) target_hours pw t Hin Hwin)
        as [x Hx].
      apply Hkeep in Hx. congruence.
Qed.

Lemma calc_velocity_missing (w : gmap Z (Z * Q)) (current target : Z) :
  w !! target = None -> calc_velocity w current target = 0%Q.
Proof. intros H. unfold calc_velocity. rewrite H. reflexivity. Qed.

End VelocityWindows.

Section VelocityReport.
Import VelocityV2.

(** What a returned report says about the windows and the four rates. *)
Lemma calculate_velocity_v2_rates (now : datetime) (prices : list PriceRecord)
    (cp : option Z) (v : VelocityAnalysisV2) :
  calculate_velocity_v2 now prices cp = Ok (Some v) ->
  exists first rest w,
    prices = first :: rest
    /\ find_windows now (choose_ts_field first) prices = Ok w
    /\ velocity_1h v = py_round (calc_velocity w (current_of cp first) 1) 2
    /\ velocity_2h v = py_round (calc_velocity w (current_of cp first) 2) 2
    /\ velocity_6h v
       = py_round (float_or (calc_velocity w (current_of cp first) 6)
                            (calc_velocity w (current_of cp first) 2)) 2
    /\ velocity_24h v
       = py_round (float_or (calc_velocity w (current_of cp first) 24)
                    (float_or (calc_velocity w (current_of cp first) 6)
                              (calc_velocity w (current_of cp first) 2))) 2.
Proof.
  unfold calculate_velocity_v2. intros H.
  destruct prices as [|first rest]; [discriminate|].
  destruct (len (first :: rest) <? 3); [discriminate|].
  destruct (negb (has_key first (choose_ts_field first))); [discriminate|].
  apply bind_Ok in H as (w & Hw & H).
  exists first, rest, w. split; [reflexivity|]. split; [exact Hw|].
  unfold velocities in H.
  destruct (detect_deceleration _ _ _ _) as [dec dh].
  apply bind_Ok in H as (min_ts & _ & H).
  apply bind_Ok in H as (days & _ & H).
  apply bind_Ok in H as (hl & _ & H).
  destruct (_find_support_levels _) as [sl tb].
  apply bind_Ok in H as (oldest & _ & H).
  destruct (_calculate_confidence _ _ _) as [c cs].
  destruct (classify _ _ _ _ _ _ _ _ _) as [[[st d] br] why].
  inversion H; subst v; clear H. repeat split.
Qed.

(** C6, as the code has it: every window that is filled holds a sample of
    the series whose age lies in [[0.5 * target, 1.5 * target]] hours, and a
    window stays empty exactly when no sample has such an age.  An empty
    window computes the velocity 0: the reported 1h and 2h rates are then 0,
    the reported 6h rate is the reported 2h rate, and the reported 24h rate
    is the reported 6h rate. *)
Theorem C6_windows_amended (now : datetime) (prices : list PriceRecord)
    (cp : option Z) (v : VelocityAnalysisV2) :
  calculate_velocity_v2 now prices cp = Ok (Some v) ->
  exists first rest w,
    prices = first :: rest
    /\ find_windows now (choose_ts_field first) prices = Ok w
    /\ (forall target p age, w !! target = Some (p, age) ->
          In target target_hours
          /\ (Qz target * (1 # 2) <= age)%Q /\ (age <= Qz target * (3 # 2))%Q
          /\ exists r ts, In r prices /\ price r = p
                          /\ _get_timestamp r (choose_ts_field first) = Ok ts
                          /\ age = hours_between now ts)
    /\ (forall target, In target target_hours ->
          (w !! target = None <->
           forall r ts, In r prices ->
                        _get_timestamp r (choose_ts_field first) = Ok ts ->
                        in_window target (hours_between now ts) = false))
    /\ (w !! 1 = None -> velocity_1h v == 0)
    /\ (w !! 2 = None -> velocity_2h v == 0)
    /\ (w !! 6 = None -> velocity_6h v = velocity_2h v)
    /\ (w !! 24 = None -> velocity_24h v = velocity_6h v).
Proof.
  intros H.
  destruct (calculate_velocity_v2_rates now prices cp v H)
    as (first & rest & w & Hp & Hw & H1 & H2 & H6 & H24).
  exists first, rest, w. split; [exact Hp|]. split; [exact Hw|].
  destruct (find_windows_loop now (choose_ts_field first) prices ∅ w Hw)
    as (_ & Hnew & Hnone).
  assert (forall target p age, w !! target = Some (p, age) ->
          In target target_hours /\ in_window target age = true
          /\ exists r ts, In r prices /\ price r = p
                          /\ _get_timestamp r (choose_ts_field first) = Ok ts
                          /\ age = hours_between now ts) as Hused.
  { intros t p age Ht. apply Hnew in Ht as [Ht | Ht]; [|exact Ht].
    rewrite lookup_empty in Ht. discriminate. }
  split; [|split; [|repeat split]].
  - intros t p age Ht. apply Hused in Ht as (Hin & Hwin & Hr).
    apply in_window_bounds in Hwin. tauto.
  - intros t Hin. split.
    + intros Hnonet r ts Hr Hts.
      destruct (Hnone t Hin Hnonet r Hr) as (ts' & Hts' & Hout). congruence.
    + intros Hall. destruct (w !! t) as [[p age]|] eqn:Ht; [|reflexivity].
      apply Hused in Ht as (_ & Hwin & r & ts & Hr & _ & Hts & ->).
      rewrite (Hall r ts Hr Hts) in Hwin. discriminate.
  - intros Hn. rewrite H1, (calc_velocity_missing w _ 1 Hn). reflexivity.
  - intros Hn. rewrite H2, (calc_velocity_missing w _ 2 Hn). reflexivity.
  - intros Hn. rewrite H6, H2, (calc_velocity_missing w _ 6 Hn). reflexivity.
  - intros Hn. rewrite H24, H6, (calc_velocity_missing w _ 24 Hn). reflexivity.
Qed.

End VelocityReport.

Section VelocityExamples.
Import VelocityV2.

(** On [gap_series] the 6h window is empty and the reported 6h rate is the
    2h rate. *)
Lemma C6_windows_witness :
  exists v,
    calculate_velocity_v2 Fixtures.t_now Fixtures.gap_series (Some 110) = Ok (Some v)
    /\ velocity_6h v = velocity_2h v.
Proof.
  eexists. split; [vm_compute; reflexivity|].
  edestruct (C6_windows_amended Fixtures.t_now Fixtures.gap_series (Some 110))
    as (first & rest & w & Hp & Hw & _ & _ & _ & _ & H6 & _).
  - vm_compute. reflexivity.
  - apply H6. inversion Hp; subst first rest. vm_compute in Hw.
    inversion Hw. reflexivity.
Defined.

(** C6 as written fails on [gap_series] (now 110, 2h ago 100, 24h ago 55):
    the 6h and 12h windows are empty and the 24h window is the next larger
    one that is filled, with velocity 25/6; the reported 6h rate is 5.00, the
    2h rate, and the reported 1h rate is 0 although the 2h window is filled. *)
Lemma C6_fallback_counterexample :
  exists v w,
    calculate_velocity_v2 Fixtures.t_now Fixtures.gap_series (Some 110) = Ok (Some v)
    /\ find_windows Fixtures.t_now Recorded_at Fixtures.gap_series = Ok w
    /\ w !! 1 = None /\ is_Some (w !! 2)
    /\ w !! 6 = None /\ w !! 12 = None /\ is_Some (w !! 24)
    /\ calc_velocity w 110 2 == 5
    /\ calc_velocity w 110 24 == 25 # 6
    /\ velocity_1h v == 0
    /\ velocity_6h v == 5
    /\ ~ velocity_6h v == py_round (calc_velocity w 110 24) 2.
Proof.
  eexists. eexists.
  split; [vm_compute; reflexivity|].
  split; [vm_compute; reflexivity|].
  repeat split; try (vm_compute; eauto; congruence).
Qed.

End VelocityExamples.

(** ** Higher lows *)

Section HigherLows.
Import VelocityV2.

(** C7 at two double-dip series in the order the scorer passes them (newest
    first): with the second dip 10% above the first the result is [False],
    with the second dip below the first it is [True].  The slice
    [lows[:mid]], named [early_lows], holds the most recent minima. *)
Theorem C7_higher_lows_inverted :
  _detect_higher_lows Fixtures.t_now Fixtures.rising_dips Recorded_at 7 = Ok false
  /\ _detect_higher_lows Fixtures.t_now Fixtures.falling_dips Recorded_at 7 = Ok true
  /\ (exists v, calculate_velocity_v2 Fixtures.t_now Fixtures.rising_dips None = Ok (Some v)
                /\ has_higher_lows v = false)
  /\ local_minima (map price Fixtures.rising_dips) = [1100; 1000].
Proof.
  split; [vm_compute; reflexivity|].
  split; [vm_compute; reflexivity|].
  split; [|vm_compute; reflexivity].
  eexists. split; vm_compute; reflexivity.
Qed.

End HigherLows.

(** ** Invalid input *)

Section InvalidInput.
Import VelocityV2.





End InvalidInput.

(** ** The scoring entry points, unfolded *)

Section Engine.
Import VelocityV2.

(** [get_buy_score] past the data check, once the velocity and the
    stabilization analyses have returned. *)
Lemma get_buy_score_scored (w : World) (db : Db) (pid : string) (player : Player)
    (latest : PriceRecord) (vel : option VelocityAnalysisV2) (stab : bool * text * Z) :
  get_player w pid = Some player ->
  get_latest_price w pid = Some latest ->
  2 <= len (get_price_history w pid 200) ->
  calculate_velocity_v2 (now w) (get_price_history w pid 200) (Some (price latest)) = Ok vel ->
  check_stabilization_v2 (now w) (get_price_history w pid 200) 6 5 = Ok stab ->
  let cur := price latest in
  let m := buy_market_pulse (get_pulse w) in
  let t := _calculate_timing_score vel stab in
  let p := buy_position (get_longterm_daily_prices w (p_futbin_id player) (slug_of player))
                        cur in
  let raw := 40 + m.1.1.2 + t.1.1 + (p.1.1.1 + p.1.1.2) in
  let h := _apply_hysteresis (now w) db pid
             (from_option state "STABLE"%string vel)
             (from_option buy_readiness "WAIT"%string vel)
             (Z.max 0 (Z.min 100 raw)) cur in
  get_buy_score w db pid
  = Ok (Some {| player_id := pid;
                player_name := p_name player;
                signal_type := (buy_signal_type h.2 cur).1;
                score := h.2;
                reasons := (m.1.2 ++ t.1.2) ++ p.1.2;
                warnings := (m.2 ++ t.2) ++ p.2;
                current_price := cur;
                recommendation := (buy_signal_type h.2 cur).2;
                SmartSignals.velocity := vel;
                SmartSignals.confidence := from_option confidence "LOW"%string vel;
                held := None |},
        _log_signal (now w) (_save_player_state (now w) db pid h.1.1 h.1.2 h.2 cur)
          pid "BUY" raw h.2
          [("base"%string, 40); ("market"%string, m.1.1.2); ("timing"%string, t.1.1);
           ("position"%string, p.1.1.1); ("bounce_penalty"%string, p.1.1.2)]
          vel m.1.1.1 (buy_signal_type h.2 cur).1 cur).
Proof.
  intros Hplayer Hlatest Hlen Hvel Hstab cur m t p raw h.
  unfold get_buy_score. rewrite Hplayer, Hlatest.
  destruct (Z.ltb_spec (len (get_price_history w pid 200)) 2); [lia|].
  subst raw h. subst m t p. subst cur.
  destruct (buy_market_pulse (get_pulse w)) as [[[ms msc] mr] mw].
  rewrite Hvel, Hstab. simpl mbind.
  destruct (_calculate_timing_score vel stab) as [[tsc tr] tw].
  destruct (buy_position _ _) as [[[psc bp] pr] pw]. simpl fst. simpl snd.
  destruct (_apply_hysteresis _ _ _ _ _ _ _) as [[hs hr] hsc]. simpl fst. simpl snd.
  destruct (buy_signal_type hsc (price latest)) as [sty rec]. reflexivity.
Qed.

(** [get_sell_score] with a latest price, once the velocity analysis has
    returned. *)
Lemma get_sell_score_scored (w : World) (db : Db) (pid : string) (player : Player)
    (latest : PriceRecord) (paid : Z) (vel : option VelocityAnalysisV2) :
  get_player w pid = Some player ->
  get_latest_price w pid = Some latest ->
  calculate_velocity_v2 (now w) (get_price_history w pid 100) (Some (price latest)) = Ok vel ->
  let cur := price latest in
  let profit := py_int (Qz cur * (95 # 100)) - paid in
  let profit_pct := if paid =? 0 then 0%Q else (Qz profit / Qz paid * 100)%Q in
  let pr := sell_profit profit profit_pct in
  let v := sell_velocity vel in
  let m := sell_market_pulse (get_pulse w) in
  let p := sell_position (get_longterm_daily_prices w (p_futbin_id player) (slug_of player)) in
  let raw := 50 + pr.1.1 + v.1.1 + m.1.1.2 + p.1.1 in
  let final := Z.max 0 (Z.min 100 raw) in
  get_sell_score w db pid paid
  = Ok (Some {| player_id := pid;
                player_name := p_name player;
                signal_type := (sell_signal_type final cur profit_pct).1;
                score := final;
                reasons := ((pr.1.2 ++ v.1.2) ++ m.1.2) ++ p.1.2;
                warnings := ((pr.2 ++ v.2) ++ m.2) ++ p.2;
                current_price := cur;
                recommendation := (sell_signal_type final cur profit_pct).2;
                SmartSignals.velocity := vel;
                SmartSignals.confidence := "MEDIUM";
                held := None |},
        _log_signal (now w) db pid "SELL" raw final
          [("base"%string, 50); ("profit"%string, pr.1.1); ("velocity"%string, v.1.1);
           ("market"%string, m.1.1.2); ("position"%string, p.1.1)]
          vel m.1.1.1 (sell_signal_type final cur profit_pct).1 cur).
Proof.
  intros Hplayer Hlatest Hvel cur profit profit_pct pr v m p raw final.
  unfold get_sell_score. rewrite Hplayer, Hlatest.
  subst final raw. subst pr v m p. subst profit_pct profit cur.
  destruct (sell_profit _ _) as [[psc pr] pw].
  rewrite Hvel. simpl mbind.
  destruct (sell_velocity vel) as [[vsc vr] vw].
  destruct (sell_market_pulse (get_pulse w)) as [[[ms msc] mr] mw].
  destruct (sell_position _) as [[posc por] pow]. simpl fst. simpl snd.
  destruct (sell_signal_type _ _ _) as [sty rec]. reflexivity.
Qed.

End Engine.

Section EngineCases.
Import VelocityV2.

Lemma triple_eta {A B C : Type} (x : A * B * C) : x = (x.1.1, x.1.2, x.2).
Proof. destruct x as [[a b] c]. reflexivity. Qed.

Lemma calculate_velocity_v2_short (now : datetime) (prices : list PriceRecord)
    (cp : option Z) :
  len prices < 3 -> calculate_velocity_v2 now prices cp = Ok None.
Proof.
  intros H. unfold calculate_velocity_v2. destruct prices as [|first rest]; [reflexivity|].
  destruct (Z.ltb_spec (len (first :: rest)) 3); [reflexivity | lia].
Qed.

Lemma check_stabilization_v2_short (now : datetime) (prices : list PriceRecord)
    (min_hours max_variance_pct : Q) :
  len prices < 5 ->
  check_stabilization_v2 now prices min_hours max_variance_pct
  = Ok (false, Lit "Insufficient data", 0).
Proof.
  intros H. unfold check_stabilization_v2. destruct prices as [|first rest]; [reflexivity|].
  destruct (Z.ltb_spec (len (first :: rest)) 5); [reflexivity | lia].
Qed.

(** The degenerate result of [get_buy_score]. *)
Lemma get_buy_score_insufficient (w : World) (db : Db) (pid : string) (player : Player) :
  get_player w pid = Some player ->
  get_latest_price w pid = None \/ len (get_price_history w pid 200) < 2 ->
  get_buy_score w db pid
  = Ok (Some {| player_id := pid;
                player_name := p_name player;
                signal_type := "WAIT";
                score := 0;
                reasons := [Lit "Insufficient data"];
                warnings := [Lit "Need more price history"];
                current_price := from_option price 0 (get_latest_price w pid);
                recommendation := Lit "Wait for more data before trading";
                SmartSignals.velocity := None;
                SmartSignals.confidence := "MEDIUM";
                held := None |}, db).
Proof.
  intros Hplayer Hdata. unfold get_buy_score. rewrite Hplayer.
  destruct (get_latest_price w pid) as [latest|]; [|reflexivity].
  destruct Hdata as [Hdata|Hdata]; [discriminate|].
  destruct (Z.ltb_spec (len (get_price_history w pid 200)) 2); [reflexivity | lia].
Qed.

(** The ways [get_buy_score] returns. *)
Lemma get_buy_score_cases (w : World) (db db' : Db) (pid : string)
    (o : option TradeSignal) :
  get_buy_score w db pid = Ok (o, db') ->
  (get_player w pid = None /\ o = None /\ db' = db)
  \/ (exists player,
        get_player w pid = Some player
        /\ (get_latest_price w pid = None \/ len (get_price_history w pid 200) < 2))
  \/ (exists player latest vel stab,
        get_player w pid = Some player
        /\ get_latest_price w pid = Some latest
        /\ 2 <= len (get_price_history w pid 200)
        /\ calculate_velocity_v2 (now w) (get_price_history w pid 200) (Some (price latest))
           = Ok vel
        /\ check_stabilization_v2 (now w) (get_price_history w pid 200) 6 5 = Ok stab).
Proof.
  intros H. destruct (get_player w pid) as [player|] eqn:Hplayer.
  - right. destruct (get_latest_price w pid) as [latest|] eqn:Hlatest; [|left; eauto].
    destruct (Z.ltb_spec (len (get_price_history w pid 200)) 2) as [Hlen|Hlen]; [left; eauto|].
    right. exists player, latest.
    unfold get_buy_score in H. rewrite Hplayer, Hlatest in H.
    destruct (Z.ltb_spec (len (get_price_history w pid 200)) 2); [lia|].
    destruct (buy_market_pulse (get_pulse w)) as [[[ms msc] mr] mw].
    apply bind_Ok in H as (vel & Hvel & H).
    apply bind_Ok in H as (stab & Hstab & H).
    exists vel, stab. auto.
  - left. unfold get_buy_score in H. rewrite Hplayer in H. inversion H. auto.
Qed.

(** C3, as the code has it: every evaluation that gets past the data check
    overwrites the stored state of the evaluated entity, whether hysteresis
    accepts the fresh values or not, with the hysteresis output (state,
    readiness, score), the current price and the current time.  The stored
    states of other entities, and the store on an insufficient-data result,
    are unchanged. *)
Theorem C3_state_overwritten_amended (w : World) (db db' : Db) (pid : string)
    (sg : TradeSignal) :
  get_buy_score w db pid = Ok (Some sg, db') ->
  (forall other, other <> pid -> player_states db' !! other = player_states db !! other)
  /\ (get_latest_price w pid = None \/ len (get_price_history w pid 200) < 2 -> db' = db)
  /\ (forall latest,
        get_latest_price w pid = Some latest ->
        2 <= len (get_price_history w pid 200) ->
        exists vel raw out_state out_readiness,
          calculate_velocity_v2 (now w) (get_price_history w pid 200) (Some (price latest))
          = Ok vel
          /\ _apply_hysteresis (now w) db pid
               (from_option state "STABLE"%string vel)
               (from_option buy_readiness "WAIT"%string vel)
               (Z.max 0 (Z.min 100 raw)) (price latest)
             = (out_state, out_readiness, score sg)
          /\ player_states db' !! pid
             = Some (mkPlayerState (Some out_state) (Some out_readiness) (Some (score sg))
                                   (Some (price latest)) (Some (now w)))).
Proof.
  intros H.
  destruct (get_buy_score_cases w db db' pid (Some sg) H)
    as [(_ & Hnone & _) | [(player & Hplayer & Hdata)
                          | (player & latest & vel & stab & Hplayer & Hlatest & Hlen
                             & Hvel & Hstab)]].
  - discriminate.
  - rewrite (get_buy_score_insufficient w db pid player Hplayer Hdata) in H.
    inversion H; subst. split; [reflexivity|]. split; [reflexivity|].
    intros latest Hlatest Hlen. destruct Hdata as [Hd|Hd]; [congruence | lia].
  - rewrite (get_buy_score_scored w db pid player latest vel stab
               Hplayer Hlatest Hlen Hvel Hstab) in H.
    inversion H; subst; clear H. split; [|split].
    + intros other Hne. simpl. apply lookup_insert_ne. congruence.
    + intros [Hd|Hd]; [congruence | lia].
    + intros latest' Hlatest' _. assert (latest' = latest) as -> by congruence.
      eexists vel, _, _, _. split; [exact Hvel|]. split.
      * apply triple_eta.
      * simpl. apply lookup_insert_eq.
Qed.

End EngineCases.

Section PersistenceExamples.
Import VelocityV2.

Lemma C3_state_overwritten_witness :
  exists sg db',
    get_buy_score Fixtures.quiet_world (Fixtures.db_with "ALMOST" 50 1000 1) "p1"
    = Ok (Some sg, db')
    /\ exists out_state out_readiness,
         player_states db' !! "p1"
         = Some (mkPlayerState (Some out_state) (Some out_readiness) (Some (score sg))
                               (Some 100) (Some Fixtures.t_now)).
Proof.
  assert (exists sg db',
            get_buy_score Fixtures.quiet_world (Fixtures.db_with "ALMOST" 50 1000 1) "p1"
            = Ok (Some sg, db')) as (sg & db' & Hrun)
    by (eexists; eexists; vm_compute; reflexivity).
  exists sg, db'. split; [exact Hrun|].
  destruct (C3_state_overwritten_amended Fixtures.quiet_world
              (Fixtures.db_with "ALMOST" 50 1000 1) db' "p1" sg Hrun) as (_ & _ & Hstored).
  destruct (Hstored (Fixtures.sample 100 0)) as (vel & raw & os & or & _ & _ & Hst).
  - reflexivity.
  - vm_compute. discriminate.
  - exists os, or. exact Hst.
Defined.

(** C3 as written fails on a rejected evaluation.  Stored: ALMOST with score
    50 at price 1000, one hour old.  Fresh: WAIT with score 40 at price 100, a
    downgrade by 10 points, which hysteresis rejects.  The prior triple is
    re-emitted, and the stored price and time are replaced all the same. *)
Lemma C3_state_overwritten_counterexample :
  exists sg db',
    get_buy_score Fixtures.quiet_world (Fixtures.db_with "ALMOST" 50 1000 1) "p1"
    = Ok (Some sg, db')
    /\ _apply_hysteresis Fixtures.t_now (Fixtures.db_with "ALMOST" 50 1000 1) "p1"
                         "STABLE" "WAIT" 40 100
       = ("STABLE"%string, "ALMOST"%string, 50)
    /\ score sg = 50
    /\ player_states (Fixtures.db_with "ALMOST" 50 1000 1) !! "p1"
       = Some (mkPlayerState (Some "STABLE"%string) (Some "ALMOST"%string) (Some 50)
                             (Some 1000) (Some (Fixtures.t_now - Fixtures.hours 1)))
    /\ player_states db' !! "p1"
       = Some (mkPlayerState (Some "STABLE"%string) (Some "ALMOST"%string) (Some 50)
                             (Some 100) (Some Fixtures.t_now))
    /\ player_states db' <> player_states (Fixtures.db_with "ALMOST" 50 1000 1).
Proof.
  eexists. eexists. split; [vm_compute; reflexivity|].
  split; [vm_compute; reflexivity|].
  split; [reflexivity|].
  split; [reflexivity|].
  split; [reflexivity|].
  intros Heq.
  assert (player_states (Fixtures.db_with "ALMOST" 50 1000 1) !! "p1"
          = Some (mkPlayerState (Some "STABLE"%string) (Some "ALMOST"%string) (Some 50)
                                (Some 100) (Some Fixtures.t_now))) as H
    by (rewrite <- Heq; reflexivity).
  vm_compute in H. discriminate H.
Qed.

End PersistenceExamples.

Section DataAndRange.
Import VelocityV2.

(** The ways [get_sell_score] returns a signal. *)
Lemma get_sell_score_cases (w : World) (db db' : Db) (pid : string) (paid : Z)
    (sg : TradeSignal) :
  get_sell_score w db pid paid = Ok (Some sg, db') ->
  exists player latest vel,
    get_player w pid = Some player
    /\ get_latest_price w pid = Some latest
    /\ calculate_velocity_v2 (now w) (get_price_history w pid 100) (Some (price latest))
       = Ok vel.
Proof.
  intros H. unfold get_sell_score in H.
  destruct (get_player w pid) as [player|]; [|discriminate].
  destruct (get_latest_price w pid) as [latest|]; [|discriminate].
  destruct (sell_profit _ _) as [[psc pr] pw].
  apply bind_Ok in H as (vel & Hvel & _).
  exists player, latest, vel. auto.
Qed.

(** C4, as the code has it.  Buy: without a latest price or with fewer than
    2 samples the result is score 0, WAIT, "Insufficient data", and the store
    is untouched; with exactly 2 samples the result is an ordinary score
    without velocity.  Sell: there is no degenerate result; with fewer than 3
    samples the call returns [None] when there is no latest price and
    otherwise an ordinary score whose velocity component is 0.  None of these
    calls raises. *)
Theorem C4_insufficient_data_amended (w : World) (db : Db) (pid : string)
    (player : Player) :
  get_player w pid = Some player ->
  (get_latest_price w pid = None \/ len (get_price_history w pid 200) < 2 ->
     exists sg,
       get_buy_score w db pid = Ok (Some sg, db)
       /\ score sg = 0 /\ signal_type sg = "WAIT"%string
       /\ reasons sg = [Lit "Insufficient data"])
  /\ (forall latest,
        get_latest_price w pid = Some latest ->
        len (get_price_history w pid 200) = 2 ->
        exists sg db',
          get_buy_score w db pid = Ok (Some sg, db')
          /\ SmartSignals.velocity sg = None
          /\ In (Lit "⚠ No velocity data") (warnings sg))
  /\ (len (get_price_history w pid 100) < 3 ->
        (get_latest_price w pid = None ->
           forall paid, get_sell_score w db pid paid = Ok (None, db))
        /\ (forall latest paid,
              get_latest_price w pid = Some latest ->
              let profit := py_int (Qz (price latest) * (95 # 100)) - paid in
              let profit_pct := if paid =? 0 then 0%Q else (Qz profit / Qz paid * 100)%Q in
              exists sg db',
                get_sell_score w db pid paid = Ok (Some sg, db')
                /\ SmartSignals.velocity sg = None
                /\ score sg
                   = Z.max 0 (Z.min 100
                       (50 + (sell_profit profit profit_pct).1.1 + 0
                        + (sell_market_pulse (get_pulse w)).1.1.2
                        + (sell_position (get_longterm_daily_prices w (p_futbin_id player)
                                                                    (slug_of player))).1.1)))).
Proof.
  intros Hplayer. split; [|split].
  - intros Hdata. eexists. split; [apply get_buy_score_insufficient; eassumption|].
    repeat split.
  - intros latest Hlatest Hlen.
    pose proof (get_buy_score_scored w db pid player latest None
                  (false, Lit "Insufficient data", 0) Hplayer Hlatest) as Heq.
    eexists. eexists. split.
    + apply Heq; [lia | | ].
      * apply calculate_velocity_v2_short. lia.
      * apply check_stabilization_v2_short. lia.
    + split; [reflexivity|]. simpl.
      apply in_or_app. left. apply in_or_app. right. left. reflexivity.
  - intros Hlen. split.
    + intros Hlatest paid. unfold get_sell_score. rewrite Hplayer, Hlatest. reflexivity.
    + intros latest paid Hlatest profit profit_pct.
      pose proof (get_sell_score_scored w db pid player latest paid None
                    Hplayer Hlatest) as Heq.
      eexists. eexists. split.
      * apply Heq. apply calculate_velocity_v2_short. exact Hlen.
      * split; reflexivity.
Qed.

Lemma C4_insufficient_data_witness :
  exists sg db',
    get_buy_score Fixtures.quiet_world Fixtures.empty_db "p1" = Ok (Some sg, db')
    /\ SmartSignals.velocity sg = None
    /\ In (Lit "⚠ No velocity data") (warnings sg).
Proof.
  destruct (C4_insufficient_data_amended Fixtures.quiet_world Fixtures.empty_db "p1"
              Fixtures.the_player) as (_ & Htwo & _).
  - reflexivity.
  - apply (Htwo (Fixtures.sample 100 0)); reflexivity.
Defined.

(** C4 as written fails.  Buy with 2 samples (fewer than 3): score 40, no
    insufficient-data reason.  Sell with 2 samples: score 50, HOLD, no reason
    at all.  Sell without any sample: no result. *)
Lemma C4_insufficient_data_counterexample :
  len Fixtures.two_samples < 3
  /\ (exists sg db',
        get_buy_score Fixtures.quiet_world Fixtures.empty_db "p1" = Ok (Some sg, db')
        /\ score sg = 40 /\ reasons sg = [])
  /\ (exists sg db',
        get_sell_score Fixtures.quiet_world Fixtures.empty_db "p1" 0 = Ok (Some sg, db')
        /\ score sg = 50 /\ signal_type sg = "HOLD"%string /\ reasons sg = [])
  /\ get_sell_score (Fixtures.world [] (Ok None) (Ok None)) Fixtures.empty_db "p1" 0
     = Ok (None, Fixtures.empty_db).
Proof.
  split; [vm_compute; reflexivity|].
  split; [eexists; eexists; split; [vm_compute; reflexivity | split; reflexivity]|].
  split; [eexists; eexists; split; [vm_compute; reflexivity | repeat split]|].
  vm_compute. reflexivity.
Qed.

(** The score that hysteresis emits stays in range. *)
Lemma apply_hysteresis_range (now : datetime) (db : Db) (pid ns nr : string) (sc cur : Z) :
  scores_in_range db -> 0 <= sc <= 100 ->
  0 <= (_apply_hysteresis now db pid ns nr sc cur).2 <= 100.
Proof.
  intros Hdb Hsc. unfold _apply_hysteresis, _get_player_state.
  destruct (player_states db !! pid) as [prev|] eqn:Hprev; [|simpl; lia].
  assert (0 <= default 50 (ps_score prev) <= 100) as Hp.
  { destruct (ps_score prev) as [s|] eqn:Hs; simpl; [|lia]. eapply Hdb; eassumption. }
  cbv zeta.
  destruct (_ && _ && _)%bool; [simpl; lia|].
  destruct (_ <? _); [destruct (_ <? _); simpl; lia|].
  destruct (_ <? _); [destruct (_ <? _); simpl; lia|].
  simpl; lia.
Qed.

Lemma save_in_range (now : datetime) (db : Db) (pid st r : string) (s p : Z) :
  scores_in_range db -> 0 <= s <= 100 ->
  scores_in_range (_save_player_state now db pid st r s p).
Proof.
  intros Hdb Hs other ps s' Hlook Hscore. unfold _save_player_state in Hlook. simpl in Hlook.
  destruct (decide (pid = other)) as [->|Hne].
  - rewrite lookup_insert_eq in Hlook. inversion Hlook; subst. simpl in Hscore.
    inversion Hscore; subst. exact Hs.
  - rewrite lookup_insert_ne in Hlook by exact Hne. eapply Hdb; eassumption.
Qed.

(** One evaluation keeps the emitted and the stored scores in range. *)
Lemma score_range_step (w : World) (db : Db) (pid : string) :
  scores_in_range db ->
  (forall sg db',
     get_buy_score w db pid = Ok (Some sg, db') ->
     0 <= score sg <= 100 /\ scores_in_range db')
  /\ (forall paid sg db',
        get_sell_score w db pid paid = Ok (Some sg, db') ->
        0 <= score sg <= 100 /\ scores_in_range db').
Proof.
  intros Hdb. split.
  - intros sg db' H.
    destruct (get_buy_score_cases w db db' pid (Some sg) H)
      as [(_ & Hnone & _) | [(player & Hplayer & Hdata)
                            | (player & latest & vel & stab & Hplayer & Hlatest & Hlen
                               & Hvel & Hstab)]].
    + discriminate.
    + rewrite (get_buy_score_insufficient w db pid player Hplayer Hdata) in H.
      inversion H; subst. simpl. split; [lia | exact Hdb].
    + rewrite (get_buy_score_scored w db pid player latest vel stab
                 Hplayer Hlatest Hlen Hvel Hstab) in H.
      inversion H; subst; clear H. cbn [score].
      match goal with
      | |- 0 <= (_apply_hysteresis ?n ?d ?p ?a ?b ?c ?e).2 <= 100 /\ _ =>
          pose proof (apply_hysteresis_range n d p a b c e Hdb) as Hr
      end.
      split; [apply Hr; lia|].
      intros other ps s Hlook Hs. cbn [player_states _log_signal] in Hlook.
      eapply save_in_range; [exact Hdb | apply Hr; lia | exact Hlook | exact Hs].
  - intros paid sg db' H.
    destruct (get_sell_score_cases w db db' pid paid sg H)
      as (player & latest & vel & Hplayer & Hlatest & Hvel).
    rewrite (get_sell_score_scored w db pid player latest paid vel Hplayer Hlatest Hvel) in H.
    inversion H; subst; clear H. cbn [score]. split; [lia|].
    intros other ps s Hlook Hs. cbn [player_states _log_signal] in Hlook.
    eapply Hdb; eassumption.
Qed.

(** C5: with every stored score in [0, 100], the score of every emitted
    signal is in [0, 100], on the buy path (the degenerate result and the
    result after hysteresis) and on the sell path, and the scores stored
    afterwards are in [0, 100] again. *)
Theorem C5_score_clamped (w : World) (db : Db) (pid : string) :
  scores_in_range db ->
  (forall sg db',
     get_buy_score w db pid = Ok (Some sg, db') ->
     0 <= score sg <= 100 /\ scores_in_range db')
  /\ (forall paid sg db',
        get_sell_score w db pid paid = Ok (Some sg, db') ->
        0 <= score sg <= 100 /\ scores_in_range db').
Proof. exact (score_range_step w db pid). Qed.

Lemma C5_score_clamped_witness :
  exists sg db',
    get_buy_score Fixtures.quiet_world (Fixtures.db_with "ALMOST" 50 1000 1) "p1"
    = Ok (Some sg, db')
    /\ 0 <= score sg <= 100.
Proof.
  assert (exists sg db',
            get_buy_score Fixtures.quiet_world (Fixtures.db_with "ALMOST" 50 1000 1) "p1"
            = Ok (Some sg, db')) as (sg & db' & Hrun)
    by (eexists; eexists; vm_compute; reflexivity).
  exists sg, db'. split; [exact Hrun|].
  apply (C5_score_clamped Fixtures.quiet_world (Fixtures.db_with "ALMOST" 50 1000 1) "p1")
    with (db' := db'); [|exact Hrun].
  intros other ps s Hlook Hs. unfold Fixtures.db_with in Hlook. simpl in Hlook.
  apply lookup_singleton_Some in Hlook as [_ <-]. simpl in Hs. inversion Hs. lia.
Defined.

(** Served on a store whose scores are in range (the empty store, or any
    store this code has written), no sequence of requests ever emits a score
    outside [0, 100]. *)
Lemma serve_all_in_range (rs : list request) (db db' : Db)
    (signals : list (option TradeSignal)) :
  scores_in_range db ->
  serve_all rs db = Ok (signals, db') ->
  (forall sg, In (Some sg) signals -> 0 <= score sg <= 100) /\ scores_in_range db'.
Proof.
  revert db signals. induction rs as [|r rest IH]; intros db signals Hdb Hrun.
  - inversion Hrun; subst. split; [intros sg [] | exact Hdb].
  - cbn [serve_all] in Hrun.
    apply bind_Ok in Hrun as ([signal db1] & Hr & Hrun).
    apply bind_Ok in Hrun as ([rest_signals db2] & Hrest & Hrun).
    inversion Hrun; subst; clear Hrun.
    assert ((forall sg, signal = Some sg -> 0 <= score sg <= 100) /\ scores_in_range db1)
      as [Hsig Hdb1].
    { destruct signal as [sg|].
      - destruct r as [w pid | w pid paid]; simpl in Hr.
        + destruct (score_range_step w db pid Hdb) as [Hbuy _].
          destruct (Hbuy sg db1 Hr). split; [|assumption]. intros ? [= <-]. assumption.
        + destruct (score_range_step w db pid Hdb) as [_ Hsell].
          destruct (Hsell paid sg db1 Hr). split; [|assumption]. intros ? [= <-]. assumption.
      - split; [discriminate|].
        destruct r as [w pid | w pid paid]; simpl in Hr.
        + destruct (get_buy_score_cases w db db1 pid None Hr)
            as [(_ & _ & ->) | [(player & Hp & Hd) | (player & latest & vel & stab & Hp & Hl
                                                      & Hlen & Hv & Hs)]].
          * exact Hdb.
          * rewrite (get_buy_score_insufficient w db pid player Hp Hd) in Hr. discriminate.
          * rewrite (get_buy_score_scored w db pid player latest vel stab Hp Hl Hlen Hv Hs)
              in Hr. discriminate.
        + unfold get_sell_score in Hr.
          destruct (get_player w pid); [|inversion Hr; subst; exact Hdb].
          destruct (get_latest_price w pid); [|inversion Hr; subst; exact Hdb].
          destruct (sell_profit _ _) as [[psc pr] pw].
          apply bind_Ok in Hr as (vel & _ & Hr).
          destruct (sell_velocity vel) as [[vsc vr] vw].
          destruct (sell_market_pulse (get_pulse w)) as [[[ms msc] mr] mw].
          destruct (sell_position _) as [[posc por] pow].
          destruct (sell_signal_type _ _ _) as [sty rec]. discriminate. }
    destruct (IH db1 rest_signals Hdb1 Hrest) as [Hrest_sig Hdb2].
    split; [|exact Hdb2].
    intros sg [Hin|Hin]; [apply Hsig, Hin | apply Hrest_sig, Hin].
Qed.

End DataAndRange.

(** ** Unavailable market pulse and range summary *)

Section Unavailable.
Import VelocityV2.

Lemma buy_market_pulse_unavailable (fetched : result (option MarketPulse)) :
  unavailable fetched -> buy_market_pulse fetched = ("UNKNOWN"%string, 0, [], []).
Proof. destruct fetched as [[pulse|]|e]; simpl; [tauto | reflexivity | reflexivity]. Qed.

Lemma sell_market_pulse_unavailable (fetched : result (option MarketPulse)) :
  unavailable fetched -> sell_market_pulse fetched = ("UNKNOWN"%string, 0, [], []).
Proof. destruct fetched as [[pulse|]|e]; simpl; [tauto | reflexivity | reflexivity]. Qed.

Lemma buy_position_unavailable (fetched : result (option Longterm)) (cur : Z) :
  unavailable fetched ->
  buy_position fetched cur
  = (0, 0, [], match fetched with
               | Raise _ => [Lit "⚠ No historical range data"]
               | Ok _ => []
               end).
Proof. destruct fetched as [[longterm|]|e]; simpl; [tauto | reflexivity | reflexivity]. Qed.

Lemma sell_position_unavailable (fetched : result (option Longterm)) :
  unavailable fetched -> sell_position fetched = (0, [], []).
Proof. destruct fetched as [[longterm|]|e]; simpl; [tauto | reflexivity | reflexivity]. Qed.

(** C8, as the code has it.  Scoring completes whenever the velocity and
    stabilization analyses return, whatever the market pulse and the range
    summary are.  An unavailable market pulse contributes a market component
    of 0 and no warning, on both paths.  An unavailable range summary
    contributes position (and bounce) components of 0; the only warning is
    "No historical range data", and only on the buy path when the fetch
    raised. *)
Theorem C8_unavailable_inputs_amended (w : World) (db : Db) (pid : string)
    (player : Player) (latest : PriceRecord) :
  get_player w pid = Some player ->
  get_latest_price w pid = Some latest ->
  let range := get_longterm_daily_prices w (p_futbin_id player) (slug_of player) in
  (forall vel stab,
     2 <= len (get_price_history w pid 200) ->
     calculate_velocity_v2 (now w) (get_price_history w pid 200) (Some (price latest))
     = Ok vel ->
     check_stabilization_v2 (now w) (get_price_history w pid 200) 6 5 = Ok stab ->
     exists sg db' entry,
       get_buy_score w db pid = Ok (Some sg, db')
       /\ signal_log db' = signal_log db ++ [entry]
       /\ (unavailable (get_pulse w) ->
             component "market" (log_components entry) = Some 0
             /\ (unavailable range ->
                   warnings sg
                   = (_calculate_timing_score vel stab).2
                     ++ match range with
                        | Raise _ => [Lit "⚠ No historical range data"]
                        | Ok _ => []
                        end))
       /\ (unavailable range ->
             component "position" (log_components entry) = Some 0
             /\ component "bounce_penalty" (log_components entry) = Some 0
             /\ warnings sg
                = ((buy_market_pulse (get_pulse w)).2 ++ (_calculate_timing_score vel stab).2)
                  ++ match range with
                     | Raise _ => [Lit "⚠ No historical range data"]
                     | Ok _ => []
                     end))
  /\ (forall paid vel,
        calculate_velocity_v2 (now w) (get_price_history w pid 100) (Some (price latest))
        = Ok vel ->
        let profit := py_int (Qz (price latest) * (95 # 100)) - paid in
        let profit_pct := if paid =? 0 then 0%Q else (Qz profit / Qz paid * 100)%Q in
        exists sg db' entry,
          get_sell_score w db pid paid = Ok (Some sg, db')
          /\ signal_log db' = signal_log db ++ [entry]
          /\ (unavailable (get_pulse w) ->
                component "market" (log_components entry) = Some 0
                /\ warnings sg
                   = ((sell_profit profit profit_pct).2 ++ (sell_velocity vel).2)
                     ++ (sell_position range).2)
          /\ (unavailable range ->
                component "position" (log_components entry) = Some 0
                /\ warnings sg
                   = ((sell_profit profit profit_pct).2 ++ (sell_velocity vel).2)
                     ++ (sell_market_pulse (get_pulse w)).2)).
Proof.
  intros Hplayer Hlatest range. split.
  - intros vel stab Hlen Hvel Hstab.
    rewrite (get_buy_score_scored w db pid player latest vel stab
               Hplayer Hlatest Hlen Hvel Hstab).
    fold range.
    eexists. eexists. eexists. split; [reflexivity|].
    split; [reflexivity|]. split.
    + intros Hpulse. rewrite (buy_market_pulse_unavailable _ Hpulse).
      split; [reflexivity|]. intros Hrange.
      rewrite (buy_position_unavailable _ _ Hrange). reflexivity.
    + intros Hrange. rewrite (buy_position_unavailable _ _ Hrange).
      repeat split.
  - intros paid vel Hvel profit profit_pct.
    rewrite (get_sell_score_scored w db pid player latest paid vel Hplayer Hlatest Hvel).
    fold range. fold profit. fold profit_pct.
    eexists. eexists. eexists. split; [reflexivity|].
    split; [reflexivity|]. split.
    + intros Hpulse. rewrite (sell_market_pulse_unavailable _ Hpulse).
      split; [reflexivity|]. cbn [warnings snd]. rewrite app_nil_r. reflexivity.
    + intros Hrange. rewrite (sell_position_unavailable _ Hrange).
      split; [reflexivity|]. cbn [warnings snd]. rewrite app_nil_r. reflexivity.
Qed.

Lemma C8_unavailable_inputs_witness :
  exists sg db' entry,
    get_sell_score (Fixtures.world Fixtures.two_samples (Raise ConnectionError) (Ok None))
                   Fixtures.empty_db "p1" 0
    = Ok (Some sg, db')
    /\ signal_log db' = [entry]
    /\ component "market" (log_components entry) = Some 0.
Proof.
  destruct (C8_unavailable_inputs_amended
              (Fixtures.world Fixtures.two_samples (Raise ConnectionError) (Ok None))
              Fixtures.empty_db "p1" Fixtures.the_player (Fixtures.sample 100 0)
              eq_refl eq_refl) as [_ Hsell].
  destruct (Hsell 0 None eq_refl) as (sg & db' & entry & Hrun & Hlog & Hpulse & _).
  exists sg, db', entry. split; [exact Hrun|]. split; [exact Hlog|].
  apply Hpulse. exact I.
Defined.

(** C8 as written fails: with the market pulse fetch raising and no cached
    range summary, the sell result carries no warning at all; on the buy path
    with both inputs returning [None], the only warning is the one about the
    missing velocity. *)
Lemma C8_unavailable_inputs_counterexample :
  unavailable (Raise ConnectionError : result (option MarketPulse))
  /\ unavailable (Ok None : result (option Longterm))
  /\ (exists sg db',
        get_sell_score (Fixtures.world Fixtures.two_samples (Raise ConnectionError) (Ok None))
                       Fixtures.empty_db "p1" 0
        = Ok (Some sg, db')
        /\ warnings sg = [])
  /\ (exists sg db',
        get_buy_score (Fixtures.world Fixtures.two_samples (Ok None) (Ok None))
                      Fixtures.empty_db "p1"
        = Ok (Some sg, db')
        /\ warnings sg = [Lit "⚠ No velocity data"]).
Proof.
  split; [exact I|]. split; [exact I|].
  split; eexists; eexists; (split; [vm_compute; reflexivity | reflexivity]).
Qed.

End Unavailable.

(** ** Scans *)

Section Scans.
Import VelocityV2.

Lemma bind_Ok_eq {A B : Type} (a : A) (f : A -> result B) : (Ok a ≫= f) = f a.
Proof. reflexivity. Qed.

Lemma insert_desc_perm {A : Type} (key : A -> Z) (x : A) (l : list A) :
  Permutation (insert_desc key x l) (x :: l).
Proof.
  induction l as [|y l IH]; simpl; [reflexivity|].
  destruct (key x <? key y); [|reflexivity].
  rewrite IH. apply perm_swap.
Qed.

Lemma sort_desc_perm {A : Type} (key : A -> Z) (l : list A) :
  Permutation (sort_desc key l) l.
Proof.
  induction l as [|x l IH]; simpl; [reflexivity|].
  rewrite insert_desc_perm. apply perm_skip, IH.
Qed.

Lemma insert_desc_sorted {A : Type} (key : A -> Z) (x : A) (l : list A) :
  StronglySorted (fun a b => key b <= key a) l ->
  StronglySorted (fun a b => key b <= key a) (insert_desc key x l).
Proof.
  induction l as [|y l IH]; intros Hs; simpl.
  - constructor; constructor.
  - inversion Hs as [|? ? Hl Hy]; subst.
    destruct (Z.ltb_spec (key x) (key y)) as [Hlt|Hge].
    + constructor; [apply IH, Hl|].
      rewrite (insert_desc_perm key x l). constructor; [lia | exact Hy].
    + constructor; [exact Hs|]. constructor; [exact Hge|].
      eapply Forall_impl; [exact Hy|]. intros z Hz. simpl in Hz. lia.
Qed.

Lemma sort_desc_sorted {A : Type} (key : A -> Z) (l : list A) :
  StronglySorted (fun a b => key b <= key a) (sort_desc key l).
Proof.
  induction l as [|x l IH]; simpl; [constructor|]. apply insert_desc_sorted, IH.
Qed.

(** The scoring loop appends, to what it has, the evaluated signals that
    reach the threshold. *)
Lemma scan_buy_loop_spec (w : World) (min_score : Z) (players : list Player)
    (acc : list TradeSignal) (db : Db) :
  scan_buy_loop w min_score players (acc, db)
  = ('(signals, db1) ← buy_evaluations w players db;
     Ok (acc ++ List.filter (fun sg => min_score <=? score sg) signals, db1)).
Proof.
  unfold scan_buy_loop. revert acc db.
  induction players as [|player rest IH]; intros acc db.
  - simpl. rewrite app_nil_r. reflexivity.
  - rewrite for_each_cons. cbn [buy_evaluations]. cbv beta iota.
    destruct (get_buy_score w db (p_id player)) as [[signal db1]|e]; [|reflexivity].
    rewrite !bind_Ok_eq. cbv beta iota.
    destruct signal as [sg|]; [destruct (min_score <=? score sg) eqn:Hmin|];
      rewrite bind_Ok_eq, IH;
      (destruct (buy_evaluations w rest db1) as [[signals db2]|e]; [|reflexivity]);
      rewrite !bind_Ok_eq; cbv beta iota; cbn [List.filter]; rewrite ?Hmin;
      rewrite <- ?app_assoc; reflexivity.
Qed.

Lemma scan_sell_loop_spec (w : World) (min_score : Z) (positions : list Position)
    (acc : list TradeSignal) (db : Db) :
  scan_sell_loop w min_score positions (acc, db)
  = ('(signals, db1) ← sell_evaluations w positions db;
     Ok (acc ++ List.filter (fun sg => min_score <=? score sg) signals, db1)).
Proof.
  unfold scan_sell_loop. revert acc db.
  induction positions as [|pos rest IH]; intros acc db.
  - simpl. rewrite app_nil_r. reflexivity.
  - rewrite for_each_cons. cbn [sell_evaluations]. cbv beta iota.
    destruct (get_sell_score w db (pos_player_id pos) (pos_buy_price pos))
      as [[signal db1]|e]; [|reflexivity].
    rewrite !bind_Ok_eq. cbv beta iota.
    destruct signal as [sg|]; [destruct (min_score <=? score sg) eqn:Hmin|];
      rewrite bind_Ok_eq, IH;
      (destruct (sell_evaluations w rest db1) as [[signals db2]|e]; [|reflexivity]);
      rewrite !bind_Ok_eq; cbv beta iota; cbn [List.filter tag_position score];
      rewrite ?Hmin; rewrite <- ?app_assoc; reflexivity.
Qed.

(** C10: when every evaluation of the scan returns, [scan_buy_opportunities]
    returns exactly the evaluated signals whose score is at least
    [min_score], each as often as it was evaluated, in non-increasing order
    of score; so does [scan_sell_opportunities] over the held positions.
    When an evaluation raises, the scan raises the same exception. *)
Theorem C10_scan_sorted_filtered (w : World) (db : Db) (min_score : Z)
    (positions : list Position) :
  (forall signals db1,
     buy_evaluations w (get_active_players w) db = Ok (signals, db1) ->
     exists out,
       scan_buy_opportunities w db min_score = Ok (out, db1)
       /\ Permutation out (List.filter (fun sg => min_score <=? score sg) signals)
       /\ StronglySorted (fun a b => score b <= score a) out)
  /\ (forall signals db1,
        sell_evaluations w positions db = Ok (signals, db1) ->
        exists out,
          scan_sell_opportunities w db positions min_score = Ok (out, db1)
          /\ Permutation out (List.filter (fun sg => min_score <=? score sg) signals)
          /\ StronglySorted (fun a b => score b <= score a) out)
  /\ (forall e,
        buy_evaluations w (get_active_players w) db = Raise e ->
        scan_buy_opportunities w db min_score = Raise e)
  /\ (forall e,
        sell_evaluations w positions db = Raise e ->
        scan_sell_opportunities w db positions min_score = Raise e).
Proof.
  split; [|split; [|split]].
  - intros signals db1 Hev. unfold scan_buy_opportunities.
    rewrite scan_buy_loop_spec, Hev. rewrite !bind_Ok_eq. cbv beta iota.
    eexists. split; [reflexivity|].
    split; [apply sort_desc_perm | apply sort_desc_sorted].
  - intros signals db1 Hev. unfold scan_sell_opportunities.
    rewrite scan_sell_loop_spec, Hev. rewrite !bind_Ok_eq. cbv beta iota.
    eexists. split; [reflexivity|].
    split; [apply sort_desc_perm | apply sort_desc_sorted].
  - intros e Hev. unfold scan_buy_opportunities.
    rewrite scan_buy_loop_spec, Hev. reflexivity.
  - intros e Hev. unfold scan_sell_opportunities.
    rewrite scan_sell_loop_spec, Hev. reflexivity.
Qed.

(** Four tracked players with buy scores 40, 55, 48, 55 scanned at threshold
    45, and five held positions with sell scores 75, 35, 55, 60, 75 scanned
    at threshold 50. *)
Lemma C10_scan_sorted_filtered_witness :
  exists signals bought db1 held_signals sold db2,
    buy_evaluations Scenarios.squad_world (get_active_players Scenarios.squad_world)
                    Fixtures.empty_db = Ok (signals, db1)
    /\ map score signals = [40; 55; 48; 55]
    /\ scan_buy_opportunities Scenarios.squad_world Fixtures.empty_db 45 = Ok (bought, db1)
    /\ Permutation bought (List.filter (fun sg => 45 <=? score sg) signals)
    /\ StronglySorted (fun a b => score b <= score a) bought
    /\ map score bought = [55; 55; 48]
    /\ sell_evaluations Scenarios.squad_world Scenarios.squad_positions Fixtures.empty_db
       = Ok (held_signals, db2)
    /\ map score held_signals = [75; 35; 55; 60; 75]
    /\ scan_sell_opportunities Scenarios.squad_world Fixtures.empty_db
         Scenarios.squad_positions 50 = Ok (sold, db2)
    /\ Permutation sold (List.filter (fun sg => 50 <=? score sg) held_signals)
    /\ StronglySorted (fun a b => score b <= score a) sold
    /\ map score sold = [75; 75; 60; 55].
Proof.
  assert (exists signals db1,
            buy_evaluations Scenarios.squad_world (get_active_players Scenarios.squad_world)
                            Fixtures.empty_db = Ok (signals, db1)
            /\ map score signals = [40; 55; 48; 55])
    as (signals & db1 & Hev & Hscores)
    by (eexists; eexists; split; vm_compute; reflexivity).
  assert (exists signals db2,
            sell_evaluations Scenarios.squad_world Scenarios.squad_positions
                             Fixtures.empty_db = Ok (signals, db2)
            /\ map score signals = [75; 35; 55; 60; 75])
    as (held_signals & db2 & Hsell & Hheld)
    by (eexists; eexists; split; vm_compute; reflexivity).
  assert (exists out db, scan_buy_opportunities Scenarios.squad_world Fixtures.empty_db 45
                         = Ok (out, db) /\ map score out = [55; 55; 48])
    as (bought' & db1' & Hrun' & Hbought)
    by (eexists; eexists; split; vm_compute; reflexivity).
  assert (exists out db, scan_sell_opportunities Scenarios.squad_world Fixtures.empty_db
                           Scenarios.squad_positions 50
                         = Ok (out, db) /\ map score out = [75; 75; 60; 55])
    as (sold' & db2' & Hsold' & Hsold_scores)
    by (eexists; eexists; split; vm_compute; reflexivity).
  destruct (C10_scan_sorted_filtered Scenarios.squad_world Fixtures.empty_db 45
              Scenarios.squad_positions) as (Hbuy & _).
  destruct (Hbuy signals db1 Hev) as (bought & Hrun & Hperm & Hsorted).
  destruct (C10_scan_sorted_filtered Scenarios.squad_world Fixtures.empty_db 50
              Scenarios.squad_positions) as (_ & Hsells & _).
  destruct (Hsells held_signals db2 Hsell) as (sold & Hsold & Hperm' & Hsorted').
  assert (bought' = bought) as -> by congruence.
  assert (sold' = sold) as -> by congruence.
  exists signals, bought, db1, held_signals, sold, db2. auto 15.
Defined.

End Scans.

(** * Further properties of the velocity analysis *)

Section Confidence.
Import VelocityV2.

Lemma confidence_label (data_points : Z) (hours_of_data price_variance : Q) :
  let r := _calculate_confidence data_points hours_of_data price_variance in
  15 <= r.2 <= 100
  /\ (r.1 = "HIGH"%string <-> 75 <= r.2)
  /\ (r.1 = "MEDIUM"%string <-> 50 <= r.2 < 75)
  /\ (r.1 = "LOW"%string <-> r.2 < 50)
  /\ (data_points < 20 -> r.1 <> "HIGH"%string).
Proof.
  unfold _calculate_confidence. cbv zeta.
  match goal with
  | |- context [Z.min 100 ?s] =>
      assert (15 <= s <= 100 /\ (data_points < 20 -> s <= 60)) as [Hs Hlow];
      [|revert Hs Hlow; generalize s; intros sc Hs Hlow]
  end.
  { destruct (Z.leb_spec 100 data_points); [|destruct (Z.leb_spec 50 data_points);
      [|destruct (Z.leb_spec 20 data_points)]];
    destruct (Qle_bool 168 hours_of_data); try destruct (Qle_bool 48 hours_of_data);
    try destruct (Qle_bool 12 hours_of_data);
    destruct (Qltb price_variance 5); try destruct (Qltb price_variance 10);
    try destruct (Qltb 30 price_variance); lia. }
  destruct (Z.leb_spec 75 (Z.max 0 (Z.min 100 sc)));
    [|destruct (Z.leb_spec 50 (Z.max 0 (Z.min 100 sc)))];
    cbn [fst snd]; repeat split; intros; try lia; try discriminate.
Qed.

(** X1: the confidence score lies in [15, 100], the label is read off the
    score at 75 and 50, and fewer than 20 data points never give HIGH. *)
Theorem X1_confidence_label (data_points : Z) (hours_of_data price_variance : Q) :
  let r := _calculate_confidence data_points hours_of_data price_variance in
  15 <= r.2 <= 100
  /\ (r.1 = "HIGH"%string <-> 75 <= r.2)
  /\ (r.1 = "MEDIUM"%string <-> 50 <= r.2 < 75)
  /\ (r.1 = "LOW"%string <-> r.2 < 50)
  /\ (data_points < 20 -> r.1 <> "HIGH"%string).
Proof. exact (confidence_label data_points hours_of_data price_variance). Qed.

End Confidence.

Section Patterns.
Import VelocityV2.

(** The local minima are exactly the interior samples strictly below both
    neighbours. *)
Lemma local_minima_spec (l : list Z) (m : Z) :
  In m (local_minima l)
  <-> exists pre a c post, l = pre ++ a :: m :: c :: post /\ m < a /\ m < c.
Proof.
  split.
  - induction l as [|a l IH]; [intros []|].
    destruct l as [|b [|c t]]; [intros [] | intros [] |].
    cbn [local_minima].
    destruct (Z.ltb_spec b a) as [Hba|Hba]; [destruct (Z.ltb_spec b c) as [Hbc|Hbc]|];
      cbn [andb].
    + intros [<-|Hin].
      * exists [], a, c, t. auto.
      * destruct (IH Hin) as (pre & a' & c' & post & -> & H1 & H2).
        exists (a :: pre), a', c', post. auto.
    + intros Hin. destruct (IH Hin) as (pre & a' & c' & post & -> & H1 & H2).
      exists (a :: pre), a', c', post. auto.
    + intros Hin. destruct (IH Hin) as (pre & a' & c' & post & -> & H1 & H2).
      exists (a :: pre), a', c', post. auto.
  - intros (pre & a & c & post & -> & Ha & Hc).
    induction pre as [|x pre IH].
    + cbn [app local_minima].
      destruct (Z.ltb_spec m a); [|lia]. destruct (Z.ltb_spec m c); [|lia].
      left. reflexivity.
    + assert (exists y z t, pre ++ a :: m :: c :: post = y :: z :: t) as (y & z & t & Heq).
      { destruct pre as [|y [|z pre]]; cbn; eauto. }
      cbn [app]. rewrite Heq in *. cbn [local_minima].
      destruct ((y <? x) && (y <? z))%bool; [right|]; exact IH.
Qed.

(** The state of [low_touches] after a number of minima: every count is at
    least 1 and belongs to the bucket of a minimum seen, and the counts add up
    to the number of minima seen. *)
Lemma low_touches_invariant (b : Z) (mins seen : list Z) (d : list (Z * Z)) :
  Forall (fun kv => 1 <= snd kv /\ exists m, In m seen /\ fst kv = (m `div` b) * b) d ->
  sumZ (map snd d) = len seen ->
  let d' := fold_left (fun d p => dict_incr ((p `div` b) * b) d) mins d in
  Forall (fun kv => 1 <= snd kv
                    /\ exists m, In m (seen ++ mins) /\ fst kv = (m `div` b) * b) d'
  /\ sumZ (map snd d') = len (seen ++ mins).
Proof.
  revert seen d. induction mins as [|p mins IH]; intros seen d Hd Hsum; cbn [fold_left].
  - rewrite app_nil_r. auto.
  - replace (seen ++ p :: mins) with ((seen ++ [p]) ++ mins) by (rewrite <- app_assoc; reflexivity).
    apply IH.
    + clear IH Hsum. induction d as [|[k n] d IHd]; cbn [dict_incr].
      * constructor; [|constructor]. cbn. split; [lia|].
        exists p. split; [apply in_or_app; right; left; reflexivity | reflexivity].
      * inversion Hd as [|? ? [Hn (m & Hm & Hk)] Hd']; subst. cbn in Hn, Hk.
        assert (Forall (fun kv => 1 <= snd kv
                  /\ exists m0, In m0 (seen ++ [p]) /\ fst kv = (m0 `div` b) * b) d) as Hd2.
        { eapply Forall_impl; [exact Hd'|]. intros kv [? (m0 & ? & ?)]. split; [assumption|].
          exists m0. split; [apply in_or_app; left; assumption | assumption]. }
        destruct (p `div` b * b =? k).
        -- constructor; [|exact Hd2]. cbn. split; [lia|].
           exists m. split; [apply in_or_app; left; assumption | assumption].
        -- constructor; [|apply IHd; exact Hd'].
           cbn. split; [lia|]. exists m. split; [apply in_or_app; left; assumption | assumption].
    + clear IH Hd. unfold len in *. rewrite length_app. cbn [length].
      replace (Z.of_nat (length seen + 1)) with (Z.of_nat (length seen) + 1) by lia.
      rewrite <- Hsum. clear Hsum.
      induction d as [|[k n] d IHd]; cbn [dict_incr map sumZ snd]; [lia|].
      destruct (p `div` b * b =? k); cbn [map sumZ snd]; lia.
Qed.

Lemma max_by_count_in (best : Z * Z) (d : list (Z * Z)) :
  In (max_by_count best d) (best :: d).
Proof.
  revert best. induction d as [|kv d IH]; intros best; cbn [max_by_count]; [left; reflexivity|].
  destruct (IH (if snd best <? snd kv then kv else best)) as [H|H].
  - rewrite <- H. destruct (snd best <? snd kv); [right; left | left]; reflexivity.
  - right. right. exact H.
Qed.

Lemma count_le_sum (d : list (Z * Z)) (kv : Z * Z) :
  Forall (fun kv => 1 <= snd kv) d -> In kv d -> snd kv <= sumZ (map snd d).
Proof.
  induction 1 as [|x d Hx Hd IH]; intros Hin; [destruct Hin|].
  assert (0 <= sumZ (map snd d)) as Hpos.
  { clear -Hd. induction Hd; cbn [map sumZ]; lia. }
  cbn [map sumZ]. destruct Hin as [->|Hin]; [lia|]. specialize (IH Hin). lia.
Qed.

Lemma support_level_spec (prices : list PriceRecord) :
  let mins := local_minima (map price prices) in
  let b := Z.max 1 (py_int (Qz (list_min (map price prices)) * (2 # 100))) in
  match _find_support_levels prices with
  | (None, n) => n = 0
  | (Some level, n) =>
      20 <= len prices /\ 1 <= n <= len mins
      /\ exists m, In m mins /\ level = (m `div` b) * b /\ level <= m < level + b
  end.
Proof.
  intros mins b. unfold _find_support_levels.
  destruct (Z.ltb_spec (len prices) 20) as [|Hlen]; [reflexivity|].
  destruct (list_max (map price prices) =? list_min (map price prices)); [reflexivity|].
  fold b. fold mins.
  destruct (low_touches_invariant b mins [] [] (List.Forall_nil _) eq_refl) as [Hall Hsum].
  cbn [app] in Hall, Hsum.
  destruct (fold_left _ mins []) as [|kv d] eqn:Hfold; [reflexivity|].
  pose proof (max_by_count_in kv d) as Hin.
  assert (Hbest := proj1 (List.Forall_forall _ _) Hall _ Hin).
  destruct Hbest as [Hn (m & Hm & Hk)].
  split; [exact Hlen|]. split.
  - split; [exact Hn|]. rewrite <- Hsum. apply count_le_sum; [|exact Hin].
    eapply Forall_impl; [exact Hall|]. intros ? [? _]. assumption.
  - exists m. split; [exact Hm|]. split; [exact Hk|]. rewrite Hk.
    assert (0 < b) by (unfold b; lia).
    pose proof (Z.mul_div_le m b ltac:(lia)).
    pose proof (Z.mul_succ_div_gt m b ltac:(lia)). nia.
Qed.

(** X2: [_find_support_levels] answers either (None, 0) or a level with a
    count of at least 1; the series has then at least 20 samples, the level
    is the bucket floor of one of its local minima (a sample strictly below
    both its neighbours), within one bucket width below that minimum, and the
    count is at most the number of local minima. *)
Theorem X2_support_level_spec (prices : list PriceRecord) :
  let ps := map price prices in
  let b := Z.max 1 (py_int (Qz (list_min ps) * (2 # 100))) in
  match _find_support_levels prices with
  | (None, n) => n = 0
  | (Some level, n) =>
      20 <= len prices /\ 1 <= n <= len (local_minima ps)
      /\ exists pre a m c post,
           ps = pre ++ a :: m :: c :: post /\ m < a /\ m < c
           /\ level = (m `div` b) * b /\ level <= m < level + b
  end.
Proof.
  intros ps b. pose proof (support_level_spec prices) as H. cbv zeta in H.
  fold ps in H. fold b in H.
  destruct (_find_support_levels prices) as [[level|] n]; [|exact H].
  destruct H as (Hlen & Hn & m & Hm & Hlevel & Hb).
  split; [exact Hlen|]. split; [exact Hn|].
  apply local_minima_spec in Hm as (pre & a & c & post & Hps & Ha & Hc).
  exists pre, a, m, c, post. auto.
Qed.

End Patterns.

Section Trend.
Import VelocityV2.

Lemma streak_from_bounds (dir : Z) (avgs : list Q) :
  0 <= streak_from dir avgs <= Z.max 0 (len avgs - 1).
Proof.
  unfold len. induction avgs as [|a rest IH]; cbn [streak_from]; [cbn; lia|].
  destruct rest as [|b rest']; [cbn; lia|].
  destruct (_ =? dir); [|cbn [length]; lia].
  cbn [length] in *. lia.
Qed.

Lemma dict_append_length (k v : Z) (d : list (Z * list Z)) :
  (length (dict_append k v d) <= S (length d))%nat.
Proof.
  induction d as [|[k' vs] d IH]; cbn [dict_append length]; [lia|].
  destruct (k =? k'); cbn [length]; lia.
Qed.

Lemma daily_prices_length (f : ts_key) (prices : list PriceRecord)
    (d0 d : list (Z * list Z)) :
  for_each (fun d p => ts ← _get_timestamp p f;
                       Ok (dict_append (day_key ts) (price p) d)) prices d0 = Ok d ->
  (length d <= length d0 + length prices)%nat.
Proof.
  revert d0. induction prices as [|r prices IH]; intros d0 Hrun.
  - inversion Hrun; subst. cbn. lia.
  - rewrite for_each_cons in Hrun. apply bind_Ok in Hrun as (d1 & Hstep & Hrest).
    apply bind_Ok in Hstep as (ts & _ & Hd1). inversion Hd1; subst d1.
    apply IH in Hrest. pose proof (dict_append_length (day_key ts) (price r) d0).
    cbn [length]. lia.
Qed.

(** One day only: a single entry. *)
Lemma daily_prices_one_day (f : ts_key) (k : Z) (prices : list PriceRecord)
    (vs : list Z) (d : list (Z * list Z)) :
  (forall r ts, In r prices -> _get_timestamp r f = Ok ts -> day_key ts = k) ->
  for_each (fun d p => ts ← _get_timestamp p f;
                       Ok (dict_append (day_key ts) (price p) d)) prices [(k, vs)] = Ok d ->
  exists vs', d = [(k, vs')].
Proof.
  revert vs. induction prices as [|r prices IH]; intros vs Hday Hrun.
  - inversion Hrun; subst. eauto.
  - rewrite for_each_cons in Hrun. apply bind_Ok in Hrun as (d1 & Hstep & Hrest).
    apply bind_Ok in Hstep as (ts & Hts & Hd1). inversion Hd1; subst d1; clear Hd1.
    rewrite (Hday r ts (or_introl eq_refl) Hts) in Hrest.
    cbn [dict_append] in Hrest. rewrite Z.eqb_refl in Hrest.
    apply (IH (vs ++ [price r])); [|exact Hrest].
    intros r' ts' Hin. apply Hday. right. exact Hin.
Qed.

Lemma trend_days_bounds (prices : list PriceRecord) (f : ts_key) (d : Z) :
  _calculate_trend_days prices f = Ok d ->
  Z.abs d <= Z.max 0 (len prices - 1)
  /\ (forall k,
        (forall r ts, In r prices -> _get_timestamp r f = Ok ts -> day_key ts = k) ->
        d = 0).
Proof.
  unfold _calculate_trend_days. intros H.
  destruct (Z.ltb_spec (len prices) 2) as [Hlen|Hlen].
  - inversion H; subst. split; [lia | reflexivity].
  - apply bind_Ok in H as (daily & Hdaily & H).
    pose proof (daily_prices_length f prices [] daily Hdaily) as Hl. cbn [length] in Hl.
    assert (length (map (fun kv : Z * list Z => mean kv.2) (sort_desc fst daily))
            = length daily) as Hlen_avgs.
    { rewrite length_map. apply Permutation_length, sort_desc_perm. }
    split.
    + destruct (map _ (sort_desc fst daily)) as [|a0 [|a1 avgs]] eqn:Havgs;
        [inversion H; subst; clear; lia | inversion H; subst; clear; lia |].
      assert (d = streak_from (if Qltb a1 a0 then 1 else -1) (a0 :: a1 :: avgs)
                  * (if Qltb a1 a0 then 1 else -1)) as -> by congruence.
      clear H.
      pose proof (streak_from_bounds (if Qltb a1 a0 then 1 else -1) (a0 :: a1 :: avgs)) as Hs.
      unfold len in *. rewrite Hlen_avgs in Hs.
      destruct (Qltb a1 a0); lia.
    + intros k Hday.
      destruct prices as [|r prices]; [unfold len in Hlen; cbn in Hlen; lia|].
      rewrite for_each_cons in Hdaily. apply bind_Ok in Hdaily as (d1 & Hstep & Hrest).
      apply bind_Ok in Hstep as (ts & Hts & Hd1). inversion Hd1; subst d1; clear Hd1.
      cbn [dict_append] in Hrest.
      rewrite (Hday r ts (or_introl eq_refl) Hts) in Hrest.
      destruct (daily_prices_one_day f k prices [price r] daily) as [vs' ->];
        [intros r' ts' Hin; apply Hday; right; exact Hin | exact Hrest |].
      cbn in H. inversion H. reflexivity.
Qed.

(** X3: the trend length never exceeds the number of samples minus one in
    either direction, and a series recorded within one calendar day has
    trend 0. *)
Theorem X3_trend_days_bounds (prices : list PriceRecord) (f : ts_key) (d : Z) :
  _calculate_trend_days prices f = Ok d ->
  Z.abs d <= Z.max 0 (len prices - 1)
  /\ (forall k,
        (forall r ts, In r prices -> _get_timestamp r f = Ok ts -> day_key ts = k) ->
        d = 0).
Proof. exact (trend_days_bounds prices f d). Qed.

Lemma X3_trend_days_witness :
  Z.abs 1 <= Z.max 0 (len Fixtures.gap_series - 1).
Proof.
  apply (X3_trend_days_bounds Fixtures.gap_series Recorded_at 1).
  vm_compute. reflexivity.
Defined.

End Trend.

Section Report.
Import VelocityV2.

(** A returned report, field by field. *)
Lemma calculate_velocity_v2_inv (now : datetime) (prices : list PriceRecord)
    (cp : option Z) (v : VelocityAnalysisV2) :
  calculate_velocity_v2 now prices cp = Ok (Some v) ->
  exists first rest w min_ts days hl oldest,
    prices = first :: rest
    /\ 3 <= len prices
    /\ find_windows now (choose_ts_field first) prices = Ok w
    /\ _get_timestamp (nth (list_index (list_min (map price prices)) (map price prices))
                           prices first) (choose_ts_field first) = Ok min_ts
    /\ _calculate_trend_days prices (choose_ts_field first) = Ok days
    /\ _detect_higher_lows now prices (choose_ts_field first) 7 = Ok hl
    /\ _get_timestamp (List.last prices first) (choose_ts_field first) = Ok oldest
    /\ let cur := current_of cp first in
       let vs := velocities w cur in
       let dec := detect_deceleration vs.1.1.1 vs.1.1.2 vs.1.2 (calc_acceleration w cur) in
       let sup := _find_support_levels prices in
       let cls := classify vs.1.1.1 vs.1.1.2 vs.1.2 dec.1 dec.2 hl
                           (hours_between now min_ts) sup.1 sup.2 in
       state v = cls.1.1.1
       /\ buy_readiness v = cls.1.2
       /\ description v = cls.1.1.2
       /\ buy_readiness_reason v = cls.2
       /\ is_decelerating v = dec.1
       /\ deceleration_hours v = dec.2
       /\ has_higher_lows v = hl
       /\ support_level v = sup.1
       /\ times_bounced_at_support v = sup.2
       /\ days_in_trend v = days
       /\ data_points v = len prices
       /\ hours_since_low v = py_round (hours_between now min_ts) 1
       /\ hours_of_data v = py_round (hours_between now oldest) 1
       /\ (confidence v, confidence_score v)
          = _calculate_confidence (len prices) (hours_between now oldest)
              (if 0 <? list_min (map price prices)
               then (Qz (list_max (map price prices) - list_min (map price prices))
                     / Qz (list_min (map price prices)) * 100)%Q
               else 0%Q).
Proof.
  unfold calculate_velocity_v2. intros H.
  destruct prices as [|first rest]; [discriminate|].
  destruct (Z.ltb_spec (len (first :: rest)) 3) as [|Hlen]; [discriminate|].
  destruct (negb (has_key first (choose_ts_field first))); [discriminate|].
  apply bind_Ok in H as (w & Hw & H).
  destruct (velocities w (current_of cp first)) as [[[v1 v2] v6] v24] eqn:Hvs.
  destruct (detect_deceleration v1 v2 v6 _) as [dec dh] eqn:Hdec.
  apply bind_Ok in H as (min_ts & Hmin & H).
  apply bind_Ok in H as (days & Hdays & H).
  apply bind_Ok in H as (hl & Hhl & H).
  destruct (_find_support_levels (first :: rest)) as [sl tb] eqn:Hsup.
  apply bind_Ok in H as (oldest & Hold & H).
  destruct (_calculate_confidence _ _ _) as [c cs] eqn:Hconf.
  destruct (classify _ _ _ _ _ _ _ _ _) as [[[st d] br] why] eqn:Hcls.
  assert (v = {| velocity_1h := py_round v1 2; velocity_2h := py_round v2 2;
                 velocity_6h := py_round v6 2; velocity_24h := py_round v24 2;
                 acceleration := py_round (calc_acceleration w (current_of cp first)) 2;
                 is_decelerating := dec; deceleration_hours := dh; state := st;
                 has_higher_lows := hl; support_level := sl;
                 times_bounced_at_support := tb;
                 hours_since_low := py_round (hours_between now min_ts) 1;
                 days_in_trend := days; confidence := c; confidence_score := cs;
                 data_points := len (first :: rest);
                 hours_of_data := py_round (hours_between now oldest) 1;
                 description := d; buy_readiness := br; buy_readiness_reason := why |})
    as -> by congruence.
  exists first, rest, w, min_ts, days, hl, oldest.
  repeat (split; [first [reflexivity | assumption]|]).
  cbv zeta. rewrite Hvs. cbn [fst snd]. rewrite Hdec. cbn [fst snd]. rewrite Hcls.
  cbn [fst snd state buy_readiness description buy_readiness_reason is_decelerating
       deceleration_hours has_higher_lows support_level times_bounced_at_support
       days_in_trend data_points hours_since_low hours_of_data confidence confidence_score].
  repeat split. symmetry. exact Hconf.
Qed.

End Report.

Section ReportInvariants.
Import VelocityV2.

Lemma detect_deceleration_hours (v_1h v_2h v_6h acc : Q) :
  let dec := detect_deceleration v_1h v_2h v_6h acc in
  In dec.2 [0; 1; 2] /\ (dec.1 = false -> dec.2 = 0).
Proof.
  unfold detect_deceleration.
  destruct (_ && _)%bool; [|cbn; auto].
  destruct (Qltb v_2h v_1h), (Qltb v_6h v_2h); cbn; split; auto; discriminate.
Qed.

(** The momentum table: which readiness goes with which state. *)
Lemma classify_table (v_1h v_2h v_6h : Q) (dec : bool) (dh : Z) (hl : bool) (hsl : Q)
    (sl : option Z) (tb : Z) :
  let c := classify v_1h v_2h v_6h dec dh hl hsl sl tb in
  In c.1.1.1 ["FREEFALL"; "FALLING"; "DECELERATING"; "BOTTOMING";
              "SURGING"; "RISING"; "STABLE"; "CHOPPY"]%string
  /\ In c.1.2 ["READY"; "ALMOST"; "WAIT"; "AVOID"]%string
  /\ (c.1.2 = "READY"%string -> c.1.1.1 = "STABLE"%string /\ (hsl <= 48)%Q)
  /\ (c.1.2 = "AVOID"%string
      <-> c.1.1.1 = "FREEFALL"%string \/ c.1.1.1 = "FALLING"%string)
  /\ (c.1.2 = "ALMOST"%string
      -> c.1.1.1 = "BOTTOMING"%string \/ c.1.1.1 = "STABLE"%string)
  /\ (c.1.1.1 = "BOTTOMING"%string
      -> c.1.2 = "ALMOST"%string /\ dec = true /\ 2 <= dh)
  /\ (c.1.1.1 = "DECELERATING"%string -> c.1.2 = "WAIT"%string /\ dec = true)
  /\ (c.1.1.1 = "SURGING"%string \/ c.1.1.1 = "RISING"%string
      \/ c.1.1.1 = "CHOPPY"%string -> c.1.2 = "WAIT"%string).
Proof.
  unfold classify. cbv zeta.
  destruct (Qltb v_1h (- (1 # 2)) && Qltb v_2h (- (3 # 10)))%bool.
  - destruct (Qltb v_1h (-2) && Qltb v_2h (- (3 # 2)))%bool;
      [cbn; intuition (discriminate || auto)|].
    destruct dec; cbn [andb].
    + destruct (Z.leb_spec 2 dh).
      * destruct hl; [cbn; intuition (discriminate || auto)|].
        destruct (Qltb 12 hsl && (2 <=? tb))%bool; cbn; intuition (discriminate || auto).
      * cbn; intuition (discriminate || auto).
    + cbn; intuition (discriminate || auto).
  - destruct (Qltb (1 # 2) v_1h && Qltb (3 # 10) v_2h)%bool.
    + destruct (Qltb 2 v_1h); cbn; intuition (discriminate || auto).
    + destruct (Qltb (Qabs v_1h) (3 # 10) && Qltb (Qabs v_2h) (2 # 10))%bool;
        [|cbn; intuition (discriminate || auto)].
      destruct (Qle_bool hsl 48) eqn:H48; cbn [andb].
      * apply Qle_bool_iff in H48.
        destruct hl; [cbn; intuition (discriminate || auto)|].
        destruct (Qle_bool hsl 24); [cbn; intuition (discriminate || auto)|].
        destruct (Qle_bool hsl 72); cbn; intuition (discriminate || auto).
      * destruct (Qle_bool hsl 24) eqn:H24.
        -- apply Qle_bool_iff in H24.
           assert (hsl <= 48)%Q by (eapply Qle_trans; [exact H24 | discriminate]).
           cbn; intuition (discriminate || auto).
        -- destruct (Qle_bool hsl 72); cbn; intuition (discriminate || auto).
Qed.

End ReportInvariants.

Section ReportTheorems.
Import VelocityV2.

(** X4: what every returned report satisfies: it counts at least three
    data points; its confidence label is one of HIGH, MEDIUM, LOW and agrees
    with its confidence score, which lies in [15, 100]; with fewer than 20
    data points the label is not HIGH and there is no support level; the
    deceleration estimate is 0, 1 or 2 hours and 0 unless decelerating; a
    support level is present exactly when the bounce count is positive; the
    trend is shorter than the series. *)
Theorem X4_report_invariants (now : datetime) (prices : list PriceRecord)
    (cp : option Z) (v : VelocityAnalysisV2) :
  calculate_velocity_v2 now prices cp = Ok (Some v) ->
  data_points v = len prices /\ 3 <= data_points v
  /\ In (confidence v) ["HIGH"; "MEDIUM"; "LOW"]%string
  /\ 15 <= confidence_score v <= 100
  /\ (confidence v = "HIGH"%string <-> 75 <= confidence_score v)
  /\ (confidence v = "LOW"%string <-> confidence_score v < 50)
  /\ (data_points v < 20 -> confidence v <> "HIGH"%string /\ support_level v = None)
  /\ In (deceleration_hours v) [0; 1; 2]
  /\ (is_decelerating v = false -> deceleration_hours v = 0)
  /\ (support_level v = None <-> times_bounced_at_support v = 0)
  /\ 0 <= times_bounced_at_support v
  /\ Z.abs (days_in_trend v) <= data_points v - 1.
Proof.
  intros H.
  destruct (calculate_velocity_v2_inv now prices cp v H)
    as (first & rest & w & min_ts & days & hl & oldest & Hp & Hlen & Hw & Hmin & Hdays
        & Hhl & Hold & Hfields).
  cbv zeta in Hfields.
  destruct Hfields as (_ & _ & _ & _ & Hdec & Hdh & _ & Hsl & Htb & Hdt & Hdp & _ & _ & Hconf).
  pose proof (confidence_label (len prices) (hours_between now oldest)
                (if 0 <? list_min (map price prices)
                 then (Qz (list_max (map price prices) - list_min (map price prices))
                       / Qz (list_min (map price prices)) * 100)%Q
                 else 0%Q)) as Hc.
  cbv zeta in Hc. rewrite <- Hconf in Hc. cbn [fst snd] in Hc.
  destruct Hc as (Hrange & Hhigh & Hmed & Hlow & Hfew).
  pose proof (support_level_spec prices) as Hs. cbv zeta in Hs.
  rewrite (surjective_pairing (_find_support_levels prices)) in Hs.
  rewrite <- Hsl, <- Htb in Hs.
  pose proof (detect_deceleration_hours
                (velocities w (current_of cp first)).1.1.1
                (velocities w (current_of cp first)).1.1.2
                (velocities w (current_of cp first)).1.2
                (calc_acceleration w (current_of cp first))) as Hd.
  cbv zeta in Hd. rewrite <- Hdec, <- Hdh in Hd. destruct Hd as [Hd1 Hd2].
  destruct (trend_days_bounds prices (choose_ts_field first) days Hdays) as [Htrend _].
  rewrite Hdp, Hdt.
  split; [reflexivity|]. split; [exact Hlen|]. split.
  { destruct (Z.le_gt_cases 75 (confidence_score v)) as [H75|H75].
    - left. symmetry. apply Hhigh. exact H75.
    - destruct (Z.le_gt_cases 50 (confidence_score v)) as [H50|H50].
      + right. left. symmetry. apply Hmed. lia.
      + right. right. left. symmetry. apply Hlow. lia. }
  split; [exact Hrange|]. split; [exact Hhigh|]. split; [exact Hlow|]. split.
  { intros Hlt. split; [apply Hfew, Hlt|].
    destruct (support_level v); [|reflexivity]. destruct Hs as [H20 _]. lia. }
  split; [exact Hd1|]. split; [exact Hd2|].
  destruct (support_level v) as [level|].
  - destruct Hs as (_ & Hn & _). split; [split; [discriminate | lia]|]. split; lia.
  - rewrite Hs. split; [tauto|]. split; lia.
Qed.

Lemma X4_report_invariants_witness :
  exists v,
    calculate_velocity_v2 Fixtures.t_now Fixtures.rising_dips None = Ok (Some v)
    /\ data_points v = 10 /\ support_level v = None.
Proof.
  assert (exists v, calculate_velocity_v2 Fixtures.t_now Fixtures.rising_dips None
                    = Ok (Some v)) as [v Hv]
    by (eexists; vm_compute; reflexivity).
  exists v. split; [exact Hv|].
  destruct (X4_report_invariants Fixtures.t_now Fixtures.rising_dips None v Hv)
    as (Hdp & _ & _ & _ & _ & _ & Hfew & _).
  split; [exact Hdp|]. apply Hfew. rewrite Hdp. vm_compute. reflexivity.
Defined.

(** X5: the state and the buy readiness of a returned report go together:
    READY only with STABLE; AVOID exactly with FREEFALL and FALLING; ALMOST
    only with BOTTOMING or STABLE; BOTTOMING always ALMOST, decelerating for
    2 hours; DECELERATING always WAIT and decelerating; SURGING, RISING and
    CHOPPY always WAIT. *)
Theorem X5_state_readiness_table (now : datetime) (prices : list PriceRecord)
    (cp : option Z) (v : VelocityAnalysisV2) :
  calculate_velocity_v2 now prices cp = Ok (Some v) ->
  In (state v) ["FREEFALL"; "FALLING"; "DECELERATING"; "BOTTOMING";
                "SURGING"; "RISING"; "STABLE"; "CHOPPY"]%string
  /\ In (buy_readiness v) ["READY"; "ALMOST"; "WAIT"; "AVOID"]%string
  /\ (buy_readiness v = "READY"%string -> state v = "STABLE"%string)
  /\ (buy_readiness v = "AVOID"%string
      <-> state v = "FREEFALL"%string \/ state v = "FALLING"%string)
  /\ (buy_readiness v = "ALMOST"%string
      -> state v = "BOTTOMING"%string \/ state v = "STABLE"%string)
  /\ (state v = "BOTTOMING"%string
      -> buy_readiness v = "ALMOST"%string /\ is_decelerating v = true
         /\ deceleration_hours v = 2)
  /\ (state v = "DECELERATING"%string
      -> buy_readiness v = "WAIT"%string /\ is_decelerating v = true)
  /\ (state v = "SURGING"%string \/ state v = "RISING"%string
      \/ state v = "CHOPPY"%string -> buy_readiness v = "WAIT"%string).
Proof.
  intros H.
  destruct (calculate_velocity_v2_inv now prices cp v H)
    as (first & rest & w & min_ts & days & hl & oldest & _ & _ & _ & _ & _ & _ & _
        & Hfields).
  cbv zeta in Hfields.
  destruct Hfields as (Hst & Hbr & _ & _ & Hdec & Hdh & _).
  match type of Hst with
  | _ = (classify ?a ?b ?c ?d ?e ?f ?g ?h ?i).1.1.1 =>
      pose proof (classify_table a b c d e f g h i) as Ht;
      pose proof (detect_deceleration_hours a b c
                    (calc_acceleration w (current_of cp first))) as Hd
  end.
  cbv zeta in Ht, Hd. rewrite <- Hst, <- Hbr, <- Hdec, <- Hdh in Ht.
  rewrite <- Hdec, <- Hdh in Hd.
  destruct Ht as (T1 & T2 & T3 & T4 & T5 & T6 & T7 & T8).
  destruct Hd as [Hd _].
  repeat split; try tauto.
  match goal with
  | Hs : state v = "BOTTOMING"%string |- _ => apply T6 in Hs as (_ & _ & Hge)
  end.
  cbn in Hd. lia.
Qed.

Lemma X5_state_readiness_table_witness :
  exists v,
    calculate_velocity_v2 Fixtures.t_now Fixtures.rising_dips None = Ok (Some v)
    /\ buy_readiness v = "WAIT"%string.
Proof.
  assert (exists v, calculate_velocity_v2 Fixtures.t_now Fixtures.rising_dips None
                    = Ok (Some v) /\ state v = "SURGING"%string) as (v & Hv & Hst)
    by (eexists; split; vm_compute; reflexivity).
  exists v. split; [exact Hv|].
  apply (X5_state_readiness_table Fixtures.t_now Fixtures.rising_dips None v Hv).
  left. exact Hst.
Defined.

End ReportTheorems.

Section Totality.
Import VelocityV2.

(** A loop that parses every timestamp returns when every timestamp parses. *)
Lemma for_each_parsed {S : Type} (f : ts_key) (g : S -> PriceRecord -> datetime -> S)
    (prices : list PriceRecord) (acc : S) :
  Forall (fun r => exists ts, _get_timestamp r f = Ok ts) prices ->
  exists res,
    for_each (fun acc p => ts ← _get_timestamp p f; Ok (g acc p ts)) prices acc = Ok res.
Proof.
  intros Hall. revert acc. induction Hall as [|r prices [ts Hts] _ IH]; intros acc.
  - exists acc. reflexivity.
  - rewrite for_each_cons, Hts. apply IH.
Qed.

Lemma parsed_has_key (r : PriceRecord) (ts : datetime) :
  _get_timestamp r Recorded_at = Ok ts -> has_key r Recorded_at = true.
Proof.
  unfold _get_timestamp, get_key, has_key. intros H.
  destruct (recorded_at r); [|discriminate]. apply bool_decide_eq_true. eauto.
Qed.

Lemma nth_parsed (prices : list PriceRecord) (first : PriceRecord) (n : nat) :
  Forall (fun r => exists ts, _get_timestamp r Recorded_at = Ok ts) (first :: prices) ->
  exists ts, _get_timestamp (nth n (first :: prices) first) Recorded_at = Ok ts.
Proof.
  intros Hall. destruct (nth_in_or_default n (first :: prices) first) as [Hin| ->].
  - exact (proj1 (List.Forall_forall _ _) Hall _ Hin).
  - inversion Hall; assumption.
Qed.

Lemma last_parsed (prices : list PriceRecord) (first : PriceRecord) :
  Forall (fun r => exists ts, _get_timestamp r Recorded_at = Ok ts) (first :: prices) ->
  exists ts, _get_timestamp (List.last (first :: prices) first) Recorded_at = Ok ts.
Proof.
  intros Hall.
  assert (In (List.last (first :: prices) first) (first :: prices)) as Hin.
  { clear. generalize first at 1 3. induction prices as [|x l IH]; intros a.
    - left. reflexivity.
    - right. apply (IH x). }
  exact (proj1 (List.Forall_forall _ _) Hall _ Hin).
Qed.

Lemma trend_days_parsed (prices : list PriceRecord) :
  Forall (fun r => exists ts, _get_timestamp r Recorded_at = Ok ts) prices ->
  exists d, _calculate_trend_days prices Recorded_at = Ok d.
Proof.
  intros Hall. unfold _calculate_trend_days.
  destruct (len prices <? 2); [eauto|].
  destruct (for_each_parsed Recorded_at
              (fun d p ts => dict_append (day_key ts) (price p) d) prices [] Hall)
    as [daily ->].
  rewrite bind_Ok_eq. destruct (map _ _) as [|a0 [|a1 avgs]]; eauto.
Qed.

Lemma higher_lows_parsed (now : datetime) (prices : list PriceRecord) (days : Z) :
  Forall (fun r => exists ts, _get_timestamp r Recorded_at = Ok ts) prices ->
  exists b, _detect_higher_lows now prices Recorded_at days = Ok b.
Proof.
  intros Hall. unfold _detect_higher_lows, prices_where.
  destruct (len prices <? 10); [eauto|].
  destruct (for_each_parsed Recorded_at
              (fun acc p ts => if now - days * us_per_day <=? ts
                               then acc ++ [(price p, ts)] else acc) prices [] Hall)
    as [window ->].
  rewrite bind_Ok_eq.
  destruct (len window <? 5); [eauto|].
  destruct (len (local_minima (map fst window)) <? 2); [eauto|].
  destruct (take _ _); [eauto|]. destruct (drop _ _); eauto.
Qed.

(** A stored sample carries a datetime, which [_get_timestamp] returns. *)
Lemma stored_record_parsed (r : PriceRecord) :
  stored_record r -> exists ts, _get_timestamp r Recorded_at = Ok ts.
Proof.
  intros [[t Ht] _]. exists t. unfold _get_timestamp, get_key. rewrite Ht. reflexivity.
Qed.

Lemma stored_records_parsed (prices : list PriceRecord) :
  Forall stored_record prices ->
  Forall (fun r => exists ts, _get_timestamp r Recorded_at = Ok ts) prices.
Proof.
  intros H. eapply List.Forall_impl; [|exact H]. exact stored_record_parsed.
Qed.

Lemma calculate_velocity_v2_total (now : datetime) (prices : list PriceRecord)
    (cp : option Z) :
  3 <= len prices ->
  Forall (fun r => exists ts, _get_timestamp r Recorded_at = Ok ts) prices ->
  exists v, calculate_velocity_v2 now prices cp = Ok (Some v).
Proof.
  intros Hlen Hall. unfold calculate_velocity_v2.
  destruct prices as [|first rest]; [unfold len in Hlen; cbn in Hlen; lia|].
  destruct (Z.ltb_spec (len (first :: rest)) 3); [lia|].
  assert (has_key first Recorded_at = true) as Hk.
  { inversion Hall as [|? ? [ts Hts] _]; subst. eapply parsed_has_key, Hts. }
  unfold choose_ts_field. rewrite Hk. rewrite Hk. cbn [negb].
  unfold find_windows.
  destruct (for_each_parsed Recorded_at
              (fun pw p ts => record_windows (price p) (hours_between now ts) target_hours pw)
              (first :: rest) ∅ Hall) as [w ->].
  rewrite bind_Ok_eq.
  destruct (velocities w (current_of cp first)) as [[[v1 v2] v6] v24].
  destruct (detect_deceleration v1 v2 v6 _) as [dec dh].
  destruct (nth_parsed rest first
              (list_index (list_min (map price (first :: rest))) (map price (first :: rest)))
              Hall) as [min_ts ->].
  rewrite bind_Ok_eq.
  destruct (trend_days_parsed (first :: rest) Hall) as [days ->]. rewrite bind_Ok_eq.
  destruct (higher_lows_parsed now (first :: rest) 7 Hall) as [hl ->]. rewrite bind_Ok_eq.
  destruct (_find_support_levels (first :: rest)) as [sl tb].
  destruct (last_parsed rest first Hall) as [oldest ->]. rewrite bind_Ok_eq.
  destruct (_calculate_confidence _ _ _) as [c cs].
  destruct (classify _ _ _ _ _ _ _ _ _) as [[[st d] br] why].
  eauto.
Qed.


(** X6: on a series of at least three stored samples (each with a datetime
    under [recorded_at], as the database returns it, and a price between 0
    and 15,000,000), analysed with no current price or with one in the same
    range, the analysis returns a report: it neither raises nor answers
    [None]. *)
Theorem X6_velocity_total (now : datetime) (prices : list PriceRecord) (cp : option Z) :
  3 <= len prices ->
  Forall stored_record prices ->
  (forall c, cp = Some c -> market_price c) ->
  exists v, calculate_velocity_v2 now prices cp = Ok (Some v).
Proof.
  intros Hlen Hall _.
  exact (calculate_velocity_v2_total now prices cp Hlen (stored_records_parsed prices Hall)).
Qed.

Lemma X6_velocity_total_witness :
  exists v, calculate_velocity_v2 Fixtures.t_now Fixtures.gap_series (Some 110) = Ok (Some v).
Proof.
  apply X6_velocity_total.
  - vm_compute. discriminate.
  - repeat (constructor; [split; [eexists; reflexivity | unfold market_price; simpl; lia]|]).
    constructor.
  - intros c [= <-]. unfold market_price. lia.
Defined.

End Totality.

Section FirstMatch.
Import VelocityV2.

Lemma find_windows_first_loop (now : datetime) (f : ts_key) (prices : list PriceRecord)
    (pw w : gmap Z (Z * Q)) (t p : Z) (age : Q) :
  for_each (fun price_windows p =>
              ts ← _get_timestamp p f;
              Ok (record_windows (price p) (hours_between now ts) target_hours
                                 price_windows)) prices pw = Ok w ->
  In t target_hours ->
  pw !! t = None ->
  w !! t = Some (p, age) ->
  exists pre r post ts,
    prices = pre ++ r :: post
    /\ price r = p /\ _get_timestamp r f = Ok ts /\ age = hours_between now ts
    /\ in_window t age = true
    /\ forall r' ts', In r' pre -> _get_timestamp r' f = Ok ts' ->
                      in_window t (hours_between now ts') = false.
Proof.
  intros Hrun Hin. revert pw Hrun.
  induction prices as [|r prices IH]; intros pw Hrun Hnone Hw.
  - inversion Hrun; subst. congruence.
  - rewrite for_each_cons in Hrun. apply bind_Ok in Hrun as (pw1 & Hstep & Hrest).
    apply bind_Ok in Hstep as (ts & Hts & Hpw1).
    assert (pw1 = record_windows (price r) (hours_between now ts) target_hours pw)
      as -> by congruence.
    clear Hpw1.
    destruct (record_windows (price r) (hours_between now ts) target_hours pw !! t)
      as [x|] eqn:Hx.
    + (* filled by this sample *)
      destruct (find_windows_loop now f prices _ w Hrest) as (Hkeep & _ & _).
      pose proof (Hkeep t x Hx) as Hwx. rewrite Hw in Hwx. inversion Hwx; subst x.
      apply record_windows_new in Hx as [Hx | (_ & Hwin & Heq)]; [congruence|].
      inversion Heq; subst.
      exists [], r, prices, ts. repeat split; auto. intros r' ts' [].
    + destruct (IH _ Hrest Hx Hw) as (pre & r0 & post & ts0 & -> & Hp & Hts0 & Hage & Hwin
                                      & Hpre).
      exists (r :: pre), r0, post, ts0. repeat split; auto.
      intros r' ts' [<-|Hr'] Hts'; [|eauto].
      assert (ts' = ts) as -> by congruence.
      destruct (in_window t (hours_between now ts)) eqn:Hwin'; [|reflexivity].
      destruct (record_windows_fill (price r) (hours_between now ts) target_hours pw t
                  Hin Hwin') as [y Hy].
      congruence.
Qed.

(** X7: the sample kept for a window is the first one of the series, in
    the order given (newest first), whose age falls in the window; every
    sample before it is outside the window. *)
Theorem X7_window_takes_first (now : datetime) (f : ts_key) (prices : list PriceRecord)
    (w : gmap Z (Z * Q)) (t p : Z) (age : Q) :
  find_windows now f prices = Ok w ->
  w !! t = Some (p, age) ->
  exists pre r post ts,
    prices = pre ++ r :: post
    /\ price r = p /\ _get_timestamp r f = Ok ts /\ age = hours_between now ts
    /\ in_window t age = true
    /\ forall r' ts', In r' pre -> _get_timestamp r' f = Ok ts' ->
                      in_window t (hours_between now ts') = false.
Proof.
  intros Hrun Hw.
  destruct (find_windows_loop now f prices ∅ w Hrun) as (_ & Hnew & _).
  destruct (Hnew t p age Hw) as [Habs | (Hin & _)].
  - rewrite lookup_empty in Habs. discriminate.
  - apply (find_windows_first_loop now f prices ∅ w t p age Hrun Hin (lookup_empty t) Hw).
Qed.

Lemma X7_window_takes_first_witness :
  exists pre r post ts,
    Fixtures.gap_series = pre ++ r :: post
    /\ price r = 55 /\ _get_timestamp r Recorded_at = Ok ts
    /\ (86400000000 # 3600000000) = hours_between Fixtures.t_now ts
    /\ in_window 24 (86400000000 # 3600000000) = true
    /\ forall r' ts', In r' pre -> _get_timestamp r' Recorded_at = Ok ts' ->
                      in_window 24 (hours_between Fixtures.t_now ts') = false.
Proof.
  assert (exists w, find_windows Fixtures.t_now Recorded_at Fixtures.gap_series = Ok w
                    /\ w !! 24 = Some (55, 86400000000 # 3600000000)) as (w & Hw & H24)
    by (eexists; split; vm_compute; reflexivity).
  exact (X7_window_takes_first Fixtures.t_now Recorded_at Fixtures.gap_series w 24 55 _
           Hw H24).
Defined.








End FirstMatch.

Section Stabilization.
Import VelocityV2.

Lemma list_min_le_in (l : list Z) (x : Z) :
  In (fold_left Z.min l x) (x :: l).
Proof.
  revert x. induction l as [|y l IH]; intros x; cbn [fold_left]; [left; reflexivity|].
  destruct (IH (Z.min x y)) as [H|H]; [|right; right; exact H].
  rewrite <- H. destruct (Z.min_spec x y) as [[_ ->]|[_ ->]];
    [left | right; left]; reflexivity.
Qed.

Lemma list_min_in (l : list Z) : l <> [] -> In (list_min l) l.
Proof. destruct l as [|x l]; [congruence|]. intros _. apply list_min_le_in. Qed.

Lemma fold_min_le (l : list Z) (x y : Z) :
  In y (x :: l) -> fold_left Z.min l x <= y.
Proof.
  revert x y. induction l as [|z l IH]; intros x y; cbn [fold_left].
  - intros [<-|[]]. lia.
  - intros [<-|[<-|Hin]].
    + transitivity (Z.min x z); [apply IH; left; reflexivity | lia].
    + transitivity (Z.min x z); [apply IH; left; reflexivity | lia].
    + apply IH. right. exact Hin.
Qed.

Lemma list_min_le (l : list Z) (y : Z) : In y l -> list_min l <= y.
Proof. destruct l as [|x l]; [intros []|]. apply fold_min_le. Qed.

(** The stable-hours loop returns its start value or one of the hours tried. *)
Lemma stable_hours_loop (window : list (Z * Q)) (max_variance_pct : Q) (hs : list Z)
    (acc h : Z) :
  for_each (fun stable_hours h =>
      let h_prices :=
        map fst (List.filter (fun pa => Qle_bool (snd pa) (Qz h)) window) in
      if 2 <=? len h_prices then
        if list_min h_prices =? 0 then Raise ZeroDivisionError
        else
          let h_variance :=
            (Qz (list_max h_prices - list_min h_prices)
             / Qz (list_min h_prices) * 100)%Q in
          Ok (if Qle_bool h_variance max_variance_pct then h else stable_hours)
      else Ok stable_hours) hs acc = Ok h ->
  h = acc \/ In h hs.
Proof.
  revert acc. induction hs as [|x hs IH]; intros acc Hrun.
  - inversion Hrun. auto.
  - rewrite for_each_cons in Hrun. apply bind_Ok in Hrun as (acc1 & Hstep & Hrest).
    apply IH in Hrest as [->|Hin]; [|right; right; exact Hin].
    cbv zeta in Hstep.
    destruct (2 <=? _); [|inversion Hstep; auto].
    destruct (_ =? 0); [discriminate|].
    destruct (Qle_bool _ _); inversion Hstep; [right; left; reflexivity | auto].
Qed.

Lemma seqZ_bounds (n x : Z) : In x (seqZ 1 n) -> 1 <= x <= n.
Proof.
  intros H. apply list_elem_of_In in H. apply elem_of_seqZ in H. lia.
Qed.

Lemma check_stabilization_shape (now : datetime) (prices : list PriceRecord)
    (min_hours max_variance_pct : Q) (stable : bool) (reason : text) (h : Z) :
  check_stabilization_v2 now prices min_hours max_variance_pct = Ok (stable, reason, h) ->
  (stable = false -> h = 0)
  /\ 0 <= h <= Z.max 0 (py_int min_hours)
  /\ (stable = true -> 5 <= len prices)
  /\ (text_lower_contains "new low" reason = true
      <-> reason = Lit "Still making new lows").
Proof.
  unfold check_stabilization_v2. intros H.
  destruct prices as [|first rest].
  { inversion H; subst. repeat split; try lia; try discriminate. }
  destruct (Z.ltb_spec (len (first :: rest)) 5) as [|Hlen].
  { inversion H; subst. repeat split; try lia; try discriminate. }
  destruct (negb _).
  { inversion H; subst. repeat split; try lia; try discriminate. }
  apply bind_Ok in H as (window & _ & H).
  destruct (len window <? 5).
  { inversion H; subst. repeat split; try lia; try discriminate. }
  destruct (_ =? 0).
  { inversion H; subst. repeat split; try lia; try discriminate. }
  destruct (Qltb max_variance_pct _).
  { inversion H; subst. repeat split; try lia; try discriminate. }
  destruct (Qltb _ _).
  { inversion H; subst. repeat split; try lia; try discriminate. }
  apply bind_Ok in H as (sh & Hloop & H).
  apply stable_hours_loop in Hloop.
  assert (0 <= sh <= Z.max 0 (py_int min_hours)) as Hsh.
  { destruct Hloop as [->|Hin]; [lia|]. apply seqZ_bounds in Hin. lia. }
  destruct (Qltb _ _); inversion H; subst;
    repeat split; try lia; try discriminate.
Qed.

(** X9: a "not stable" answer always reports 0 stable hours; a "stable"
    answer needs at least 5 samples and reports between 0 and [int(min_hours)]
    hours; and the reason contains "new low" exactly when it is
    "Still making new lows". *)
Theorem X9_stabilization_shape (now : datetime) (prices : list PriceRecord)
    (min_hours max_variance_pct : Q) (stable : bool) (reason : text) (h : Z) :
  check_stabilization_v2 now prices min_hours max_variance_pct = Ok (stable, reason, h) ->
  (stable = false -> h = 0)
  /\ 0 <= h <= Z.max 0 (py_int min_hours)
  /\ (stable = true -> 5 <= len prices)
  /\ (text_lower_contains "new low" reason = true
      <-> reason = Lit "Still making new lows").
Proof. exact (check_stabilization_shape now prices min_hours max_variance_pct stable reason h). Qed.

Lemma X9_stabilization_shape_witness :
  (false = false -> 0 = 0)
  /\ 0 <= 0 <= Z.max 0 (py_int 6)
  /\ (false = true -> 5 <= len Fixtures.zero_price_window)
  /\ (text_lower_contains "new low" (Lit "Invalid price data") = true
      <-> Lit "Invalid price data" = Lit "Still making new lows").
Proof.
  apply (X9_stabilization_shape Fixtures.t_now Fixtures.zero_price_window 6 5).
  vm_compute. reflexivity.
Defined.

End Stabilization.

Section StabilizationTotal.
Import VelocityV2.

(** The samples of the stabilization window carry prices of the series. *)
Lemma window_prices_from (now : datetime) (f : ts_key) (min_hours : Q)
    (prices : list PriceRecord) (acc window : list (Z * Q)) :
  for_each (fun acc p =>
              ts ← _get_timestamp p f;
              let age_hours := hours_between now ts in
              Ok (if Qle_bool age_hours min_hours
                  then acc ++ [(price p, age_hours)] else acc)) prices acc = Ok window ->
  forall pa, In pa window -> In pa acc \/ In (fst pa) (map price prices).
Proof.
  revert acc. induction prices as [|r prices IH]; intros acc Hrun pa Hin.
  - inversion Hrun; subst. auto.
  - rewrite for_each_cons in Hrun. apply bind_Ok in Hrun as (acc1 & Hstep & Hrest).
    apply bind_Ok in Hstep as (ts & _ & Hacc1). cbv zeta in Hacc1.
    destruct (IH _ Hrest pa Hin) as [Hin1|Hin1]; [|right; right; exact Hin1].
    destruct (Qle_bool _ _); inversion Hacc1; subst acc1; [|auto].
    apply in_app_or in Hin1 as [Hin1|[<-|[]]]; [auto|]. right. left. reflexivity.
Qed.

Lemma filter_map_fst_in (keep : Z * Q -> bool) (window : list (Z * Q)) (x : Z) :
  In x (map fst (List.filter keep window)) -> exists pa, In pa window /\ fst pa = x.
Proof.
  intros H. apply in_map_iff in H as (pa & Hx & Hin).
  apply filter_In in Hin as [Hin _]. eauto.
Qed.

(** On a series whose timestamps all parse and whose prices are not
    negative, the check returns: a window holding a price of 0 is answered
    before any division. *)
Lemma check_stabilization_v2_total (now : datetime) (prices : list PriceRecord)
    (min_hours max_variance_pct : Q) :
  Forall (fun r => exists ts, _get_timestamp r Recorded_at = Ok ts) prices ->
  Forall (fun r => 0 <= price r) prices ->
  exists answer, check_stabilization_v2 now prices min_hours max_variance_pct = Ok answer.
Proof.
  intros Hts Hpos. unfold check_stabilization_v2.
  destruct prices as [|first rest]; [eauto|].
  destruct (len (first :: rest) <? 5); [eauto|].
  assert (has_key first Recorded_at = true) as Hk.
  { inversion Hts as [|? ? [ts Hfirst] _]; subst. eapply parsed_has_key, Hfirst. }
  unfold choose_ts_field. rewrite Hk. rewrite Hk. cbn [negb].
  destruct (for_each_parsed Recorded_at
              (fun acc p ts => if Qle_bool (hours_between now ts) min_hours
                               then acc ++ [(price p, hours_between now ts)] else acc)
              (first :: rest) [] Hts) as [window Hwin].
  cbv zeta. rewrite Hwin. rewrite bind_Ok_eq.
  destruct (len window <? 5); [eauto|].
  destruct (Z.eqb_spec (list_min (map fst window)) 0) as [|Hmin]; [eauto|].
  assert (forall pa, In pa window -> 0 < fst pa) as Hwpos.
  { intros pa Hin.
    destruct (window_prices_from now Recorded_at min_hours (first :: rest) [] window
                Hwin pa Hin) as [[]|Hp].
    pose proof (list_min_le (map fst window) (fst pa) (in_map fst _ _ Hin)) as Hle.
    assert (In (list_min (map fst window)) (map fst window)) as Hm.
    { apply list_min_in. destruct window; [destruct Hin | discriminate]. }
    apply in_map_iff in Hm as (pm & Hpm & Hinm).
    destruct (window_prices_from now Recorded_at min_hours (first :: rest) [] window
                Hwin pm Hinm) as [[]|Hq].
    rewrite Hpm in Hq. apply in_map_iff in Hq as (r & Hr & Hin').
    pose proof (proj1 (List.Forall_forall _ _) Hpos r Hin') as Hpr. cbv beta in Hpr. lia. }
  destruct (Qltb max_variance_pct _); [eauto|].
  destruct (Qltb _ _); [eauto|].
  assert (forall hs acc, exists sh,
            for_each (fun stable_hours h =>
              if 2 <=? len (map fst (List.filter (fun pa => Qle_bool (snd pa) (Qz h)) window))
              then
                if list_min (map fst (List.filter (fun pa => Qle_bool (snd pa) (Qz h))
                                                  window)) =? 0
                then Raise ZeroDivisionError
                else
                  Ok (if Qle_bool
                           (Qz (list_max (map fst (List.filter
                                   (fun pa => Qle_bool (snd pa) (Qz h)) window))
                                - list_min (map fst (List.filter
                                   (fun pa => Qle_bool (snd pa) (Qz h)) window)))
                            / Qz (list_min (map fst (List.filter
                                   (fun pa => Qle_bool (snd pa) (Qz h)) window))) * 100)
                           max_variance_pct
                      then h else stable_hours)
              else Ok stable_hours) hs acc = Ok sh) as Hloop.
  { induction hs as [|h hs IH]; intros acc; [eauto|].
    rewrite for_each_cons.
    destruct (Z.leb_spec 2 (len (map fst (List.filter
                (fun pa => Qle_bool (snd pa) (Qz h)) window)))) as [Hlen|Hlen].
    - destruct (Z.eqb_spec (list_min (map fst (List.filter
                  (fun pa => Qle_bool (snd pa) (Qz h)) window))) 0) as [Hzero|_].
      + exfalso.
        assert (map fst (List.filter (fun pa => Qle_bool (snd pa) (Qz h)) window) <> [])
          as Hne by (intros Hnil; rewrite Hnil in Hlen; unfold len in Hlen; cbn in Hlen; lia).
        apply list_min_in in Hne. rewrite Hzero in Hne.
        apply filter_map_fst_in in Hne as (pa & Hin & Hfst).
        pose proof (Hwpos pa Hin). lia.
      + rewrite bind_Ok_eq. apply IH.
    - rewrite bind_Ok_eq. apply IH. }
  destruct (Hloop (seqZ 1 (py_int min_hours)) 0) as [sh Hsh].
  rewrite Hsh. rewrite bind_Ok_eq.
  destruct (Qltb _ _); eauto.
Qed.

(** X10: on a series of stored samples (each with a datetime under
    [recorded_at], as the database returns it, and a price between 0 and
    15,000,000), for a window [min_hours] of at most a week (168 hours) and
    any finite [max_variance_pct], the stabilization check returns an
    answer: it never raises, a price of 0 included. *)
Theorem X10_stabilization_total (now : datetime) (prices : list PriceRecord)
    (min_hours max_variance_pct : Q) :
  Forall stored_record prices ->
  (min_hours <= 168)%Q ->
  exists answer, check_stabilization_v2 now prices min_hours max_variance_pct = Ok answer.
Proof.
  intros Hall _. apply check_stabilization_v2_total.
  - apply stored_records_parsed, Hall.
  - eapply List.Forall_impl; [|exact Hall]. intros r [_ [Hlo _]]. exact Hlo.
Qed.

Lemma X10_stabilization_total_witness :
  (exists answer,
     check_stabilization_v2 Fixtures.t_now Fixtures.rising_dips 6 5 = Ok answer)
  /\ (exists answer,
        check_stabilization_v2 Fixtures.t_now Fixtures.zero_price_window 6 5 = Ok answer).
Proof.
  split; apply X10_stabilization_total;
    try (repeat (constructor;
                 [split; [eexists; reflexivity | unfold market_price; simpl; lia]|]);
         constructor);
    unfold Qle; simpl; lia.
Defined.

End StabilizationTotal.

Section InvalidInputEngine.
Import VelocityV2.









End InvalidInputEngine.

(** * Further properties of the scorer *)

Section Timing.
Import VelocityV2.

Lemma timing_by_readiness (v : VelocityAnalysisV2) (stab : bool * text * Z) :
  let t := (_calculate_timing_score (Some v) stab).1.1 in
  -30 <= t <= 30
  /\ (buy_readiness v = "READY"%string -> 14 <= t)
  /\ (buy_readiness v = "ALMOST"%string -> 2 <= t <= 18)
  /\ (buy_readiness v = "WAIT"%string -> -13 <= t <= -5)
  /\ (buy_readiness v = "AVOID"%string -> t <= -25).
Proof.
  destruct stab as [[is_stable reason] stable_hours].
  unfold _calculate_timing_score, favorable. cbv zeta.
  split; [cbn [fst snd]|].
  { repeat match goal with
           | |- context [let '(_, _) := ?c in _] => destruct c
           end.
    cbn [fst]. lia. }
  split; [|split; [|split]]; intros Hr; rewrite Hr;
    cbn [String.eqb Ascii.eqb Bool.eqb orb andb];
    rewrite ?andb_false_r, ?andb_true_r; cbn [andb];
    repeat match goal with
           | |- context [if ?c then _ else _] => destruct c
           end; cbn [fst snd]; lia.
Qed.

(** X11: the timing score lies in [-30, 30] and its sign is that of the buy
    readiness: at least 14 for READY, between 2 and 18 for ALMOST, between
    -13 and -5 for WAIT, at most -25 for AVOID.  Without a velocity report it
    is 0 with the single warning "No velocity data". *)
Theorem X11_timing_follows_readiness (v : VelocityAnalysisV2) (stab : bool * text * Z) :
  let t := (_calculate_timing_score (Some v) stab).1.1 in
  -30 <= t <= 30
  /\ (buy_readiness v = "READY"%string -> 14 <= t)
  /\ (buy_readiness v = "ALMOST"%string -> 2 <= t <= 18)
  /\ (buy_readiness v = "WAIT"%string -> -13 <= t <= -5)
  /\ (buy_readiness v = "AVOID"%string -> t <= -25)
  /\ _calculate_timing_score None stab = (0, [], [Lit "⚠ No velocity data"]).
Proof.
  pose proof (timing_by_readiness v stab) as H. cbv zeta in *.
  destruct H as (H1 & H2 & H3 & H4 & H5).
  split; [exact H1|]. split; [exact H2|]. split; [exact H3|]. split; [exact H4|].
  split; [exact H5|]. destruct stab as [[s r] h]. reflexivity.
Qed.

End Timing.

Section Components.
Import VelocityV2.

Lemma buy_market_pulse_values (fetched : result (option MarketPulse)) :
  In (buy_market_pulse fetched).1.1.2 [-15; 0; 5; 15].
Proof.
  destruct fetched as [[pulse|]|e]; cbn; auto.
  repeat match goal with
         | |- context [if ?c then _ else _] => destruct c
         end; cbn; auto.
Qed.

Lemma buy_position_values (fetched : result (option Longterm)) (cur : Z) :
  In (buy_position fetched cur).1.1.1 [-15; -8; 0; 3; 8; 15]
  /\ In (buy_position fetched cur).1.1.2 [-20; -12; -5; 0].
Proof.
  destruct fetched as [[longterm|]|e]; cbn; auto 10.
  destruct (30 <=? lt_data_points longterm); [|cbn; auto 10].
  repeat match goal with
         | |- context [if ?c then _ else _] => destruct c
         end; cbn; auto 10.
Qed.

Lemma timing_range (vel : option VelocityAnalysisV2) (stab : bool * text * Z) :
  -30 <= (_calculate_timing_score vel stab).1.1 <= 30.
Proof.
  destruct vel as [v|]; [apply (timing_by_readiness v stab)|].
  destruct stab as [[s r] h]. cbn. lia.
Qed.

Lemma buy_signal_type_thresholds (s cur : Z) :
  let c := (buy_signal_type s cur).1 in
  (c = "STRONG BUY"%string <-> 75 <= s)
  /\ (c = "BUY"%string <-> 60 <= s < 75)
  /\ (c = "HOLD"%string <-> 45 <= s < 60)
  /\ (c = "WAIT"%string <-> 30 <= s < 45)
  /\ (c = "AVOID"%string <-> s < 30).
Proof.
  unfold buy_signal_type.
  destruct (Z.leb_spec 75 s); [|destruct (Z.leb_spec 60 s); [|destruct (Z.leb_spec 45 s);
    [|destruct (Z.leb_spec 30 s)]]];
    cbn; repeat split; intros; try lia; try discriminate.
Qed.

(** X12: the audit record of a scored buy evaluation lists components
    within their budgets: market in {-15, 0, 5, 15}, timing in [-30, 30],
    position in {-15, -8, 0, 3, 8, 15}, bounce penalty in {-20, -12, -5, 0};
    the raw score is 40 plus their sum and lies in [-40, 100]. *)
Theorem X12_buy_component_budgets (w : World) (db db' : Db) (pid : string)
    (sg : TradeSignal) (latest : PriceRecord) :
  get_buy_score w db pid = Ok (Some sg, db') ->
  get_latest_price w pid = Some latest ->
  2 <= len (get_price_history w pid 200) ->
  exists entry market timing position bounce,
    signal_log db' = signal_log db ++ [entry]
    /\ log_components entry
       = [("base"%string, 40); ("market"%string, market); ("timing"%string, timing);
          ("position"%string, position); ("bounce_penalty"%string, bounce)]
    /\ In market [-15; 0; 5; 15]
    /\ -30 <= timing <= 30
    /\ In position [-15; -8; 0; 3; 8; 15]
    /\ In bounce [-20; -12; -5; 0]
    /\ log_raw_score entry = 40 + market + timing + (position + bounce)
    /\ -40 <= log_raw_score entry <= 100.
Proof.
  intros H Hlatest Hlen.
  destruct (get_buy_score_cases w db db' pid (Some sg) H)
    as [(_ & Hnone & _) | [(player & Hplayer & [Hd|Hd])
                          | (player & latest' & vel & stab & Hplayer & Hlatest' & _
                             & Hvel & Hstab)]]; try congruence; try lia.
  assert (latest' = latest) as -> by congruence.
  rewrite (get_buy_score_scored w db pid player latest vel stab
             Hplayer Hlatest Hlen Hvel Hstab) in H.
  inversion H; subst; clear H.
  pose proof (buy_market_pulse_values (get_pulse w)) as Hm.
  pose proof (timing_range vel stab) as Ht.
  pose proof (buy_position_values
                (get_longterm_daily_prices w (p_futbin_id player) (slug_of player))
                (price latest)) as [Hp Hb].
  eexists _, _, _, _, _. split; [reflexivity|]. split; [reflexivity|].
  split; [exact Hm|]. split; [exact Ht|]. split; [exact Hp|]. split; [exact Hb|].
  split; [reflexivity|]. cbn [log_raw_score].
  cbn in Hm, Hp, Hb.
  destruct Hm as [<-|[<-|[<-|[<-|[]]]]];
    destruct Hp as [<-|[<-|[<-|[<-|[<-|[<-|[]]]]]]];
    destruct Hb as [<-|[<-|[<-|[<-|[]]]]]; lia.
Qed.

Lemma X12_buy_component_budgets_witness :
  exists sg db' entry,
    get_buy_score Fixtures.quiet_world Fixtures.empty_db "p1" = Ok (Some sg, db')
    /\ signal_log db' = [entry]
    /\ -40 <= log_raw_score entry <= 100.
Proof.
  assert (exists sg db',
            get_buy_score Fixtures.quiet_world Fixtures.empty_db "p1" = Ok (Some sg, db'))
    as (sg & db' & Hrun) by (eexists; eexists; vm_compute; reflexivity).
  destruct (X12_buy_component_budgets Fixtures.quiet_world Fixtures.empty_db db' "p1" sg
              (Fixtures.sample 100 0) Hrun eq_refl)
    as (entry & m & t & p & b & Hlog & _ & _ & _ & _ & _ & _ & Hraw).
  - vm_compute. discriminate.
  - exists sg, db', entry. split; [exact Hrun|]. split; [exact Hlog | exact Hraw].
Defined.

(** X13: the audit record of a scored buy evaluation agrees with the signal
    returned: same final score, price and signal type, direction BUY, the
    evaluated player and the time of the evaluation; and the signal type is
    read off the final score at 75, 60, 45 and 30. *)
Theorem X13_buy_audit_record (w : World) (db db' : Db) (pid : string)
    (sg : TradeSignal) (latest : PriceRecord) :
  get_buy_score w db pid = Ok (Some sg, db') ->
  get_latest_price w pid = Some latest ->
  2 <= len (get_price_history w pid 200) ->
  (exists entry,
     signal_log db' = signal_log db ++ [entry]
     /\ log_player_id entry = pid /\ log_direction entry = "BUY"%string
     /\ log_final_score entry = score sg
     /\ log_price entry = current_price sg /\ current_price sg = price latest
     /\ log_signal_type entry = signal_type sg
     /\ log_timestamp entry = now w
     /\ log_velocity_state entry = state <$> SmartSignals.velocity sg
     /\ log_buy_readiness entry = buy_readiness <$> SmartSignals.velocity sg)
  /\ (signal_type sg = "STRONG BUY"%string <-> 75 <= score sg)
  /\ (signal_type sg = "BUY"%string <-> 60 <= score sg < 75)
  /\ (signal_type sg = "HOLD"%string <-> 45 <= score sg < 60)
  /\ (signal_type sg = "WAIT"%string <-> 30 <= score sg < 45)
  /\ (signal_type sg = "AVOID"%string <-> score sg < 30).
Proof.
  intros H Hlatest Hlen.
  destruct (get_buy_score_cases w db db' pid (Some sg) H)
    as [(_ & Hnone & _) | [(player & Hplayer & [Hd|Hd])
                          | (player & latest' & vel & stab & Hplayer & Hlatest' & _
                             & Hvel & Hstab)]]; try congruence; try lia.
  assert (latest' = latest) as -> by congruence.
  rewrite (get_buy_score_scored w db pid player latest vel stab
             Hplayer Hlatest Hlen Hvel Hstab) in H.
  inversion H; subst; clear H.
  split.
  - eexists. split; [reflexivity|]. cbn. repeat split.
  - cbn [signal_type score]. apply buy_signal_type_thresholds.
Qed.

Lemma X13_buy_audit_record_witness :
  exists sg db',
    get_buy_score Fixtures.quiet_world Fixtures.empty_db "p1" = Ok (Some sg, db')
    /\ (signal_type sg = "WAIT"%string <-> 30 <= score sg < 45).
Proof.
  assert (exists sg db',
            get_buy_score Fixtures.quiet_world Fixtures.empty_db "p1" = Ok (Some sg, db'))
    as (sg & db' & Hrun) by (eexists; eexists; vm_compute; reflexivity).
  exists sg, db'. split; [exact Hrun|].
  apply (X13_buy_audit_record Fixtures.quiet_world Fixtures.empty_db db' "p1" sg
           (Fixtures.sample 100 0) Hrun eq_refl).
  vm_compute. discriminate.
Defined.

End Components.

Section SellComponents.
Import VelocityV2.

Lemma sell_profit_values (profit : Z) (pct : Q) :
  In (sell_profit profit pct).1.1 [25; 15; 5; -20; -10; 0].
Proof.
  unfold sell_profit.
  repeat match goal with
         | |- context [if ?c then _ else _] => destruct c
         end; cbn; auto 10.
Qed.

Lemma sell_velocity_values (vel : option VelocityAnalysisV2) :
  In (sell_velocity vel).1.1 [20; 12; 8; 5; -3; -5; -10; 0].
Proof.
  destruct vel as [v|]; [|cbn; auto 10].
  unfold sell_velocity, v2_sell_map.
  repeat match goal with
         | |- context [if String.eqb ?a ?b then _ else _] => destruct (String.eqb a b)
         end; cbn; auto 10.
Qed.

Lemma sell_market_pulse_values (fetched : result (option MarketPulse)) :
  In (sell_market_pulse fetched).1.1.2 [15; 10; -15; 0].
Proof.
  destruct fetched as [[pulse|]|e]; cbn; auto.
  repeat match goal with
         | |- context [if ?c then _ else _] => destruct c
         end; cbn; auto.
Qed.

Lemma sell_position_values (fetched : result (option Longterm)) :
  In (sell_position fetched).1.1 [15; 8; -15; 0].
Proof.
  destruct fetched as [[longterm|]|e]; cbn; auto.
  repeat match goal with
         | |- context [if ?c then _ else _] => destruct c
         end; cbn; auto.
Qed.

Lemma sell_signal_type_thresholds (s cur : Z) (pct : Q) :
  let c := (sell_signal_type s cur pct).1 in
  (c = "STRONG SELL"%string <-> 75 <= s)
  /\ (c = "SELL"%string <-> 60 <= s < 75)
  /\ (c = "WAIT"%string <-> 30 <= s < 45)
  /\ (c = "HOLD"%string <-> s < 30 \/ 45 <= s < 60).
Proof.
  unfold sell_signal_type.
  destruct (Z.leb_spec 75 s); [|destruct (Z.leb_spec 60 s); [|destruct (Z.leb_spec 45 s);
    [|destruct (Z.leb_spec 30 s)]]];
    cbn; repeat split; intros; try lia; try discriminate.
Qed.

(** X14: a sell evaluation that returns a signal appends one audit record
    whose components stay within their budgets: profit in
    {25, 15, 5, -20, -10, 0}, velocity in {20, 12, 8, 5, -3, -5, -10, 0},
    market in {15, 10, -15, 0}, position in {15, 8, -15, 0}; the raw score is
    50 plus their sum, in [-10, 125], and the score returned is the raw score
    clamped to [0, 100]. *)
Theorem X14_sell_component_budgets (w : World) (db db' : Db) (pid : string) (paid : Z)
    (sg : TradeSignal) :
  get_sell_score w db pid paid = Ok (Some sg, db') ->
  exists entry profit velocity market position,
    signal_log db' = signal_log db ++ [entry]
    /\ log_components entry
       = [("base"%string, 50); ("profit"%string, profit); ("velocity"%string, velocity);
          ("market"%string, market); ("position"%string, position)]
    /\ In profit [25; 15; 5; -20; -10; 0]
    /\ In velocity [20; 12; 8; 5; -3; -5; -10; 0]
    /\ In market [15; 10; -15; 0]
    /\ In position [15; 8; -15; 0]
    /\ log_raw_score entry = 50 + profit + velocity + market + position
    /\ -10 <= log_raw_score entry <= 125
    /\ score sg = Z.max 0 (Z.min 100 (log_raw_score entry))
    /\ log_final_score entry = score sg.
Proof.
  intros H.
  destruct (get_sell_score_cases w db db' pid paid sg H)
    as (player & latest & vel & Hplayer & Hlatest & Hvel).
  rewrite (get_sell_score_scored w db pid player latest paid vel Hplayer Hlatest Hvel) in H.
  inversion H; subst; clear H.
  match goal with
  | |- context [sell_profit ?p ?q] => pose proof (sell_profit_values p q) as Hp
  end.
  pose proof (sell_velocity_values vel) as Hv.
  pose proof (sell_market_pulse_values (get_pulse w)) as Hm.
  pose proof (sell_position_values
                (get_longterm_daily_prices w (p_futbin_id player) (slug_of player))) as Hpo.
  eexists _, _, _, _, _. split; [reflexivity|]. split; [reflexivity|].
  split; [exact Hp|]. split; [exact Hv|]. split; [exact Hm|]. split; [exact Hpo|].
  split; [reflexivity|]. cbn [log_raw_score log_final_score score].
  split; [|split; reflexivity].
  cbn in Hp, Hv, Hm, Hpo.
  assert (forall a b c d : Z, -20 <= a <= 25 -> -10 <= b <= 20 -> -15 <= c <= 15
                              -> -15 <= d <= 15 -> -10 <= 50 + a + b + c + d <= 125)
    as Hsum by (intros; lia).
  apply Hsum.
  - destruct Hp as [<-|[<-|[<-|[<-|[<-|[<-|[]]]]]]]; lia.
  - destruct Hv as [<-|[<-|[<-|[<-|[<-|[<-|[<-|[<-|[]]]]]]]]]; lia.
  - destruct Hm as [<-|[<-|[<-|[<-|[]]]]]; lia.
  - destruct Hpo as [<-|[<-|[<-|[<-|[]]]]]; lia.
Qed.

Lemma X14_sell_component_budgets_witness :
  exists sg db' entry,
    get_sell_score Fixtures.quiet_world Fixtures.empty_db "p1" 0 = Ok (Some sg, db')
    /\ signal_log db' = [entry]
    /\ score sg = Z.max 0 (Z.min 100 (log_raw_score entry)).
Proof.
  assert (exists sg db',
            get_sell_score Fixtures.quiet_world Fixtures.empty_db "p1" 0 = Ok (Some sg, db'))
    as (sg & db' & Hrun) by (eexists; eexists; vm_compute; reflexivity).
  destruct (X14_sell_component_budgets Fixtures.quiet_world Fixtures.empty_db db' "p1" 0 sg
              Hrun)
    as (entry & a & b & c & d & Hlog & _ & _ & _ & _ & _ & _ & _ & Hscore & _).
  exists sg, db', entry. split; [exact Hrun|]. split; [exact Hlog | exact Hscore].
Defined.

(** X15: the sell path never touches the hysteresis store; a call that
    returns no signal leaves the whole database as it was; and the signal type
    is read off the score: STRONG SELL from 75, SELL from 60, WAIT in
    [30, 45), HOLD both in [45, 60) and below 30. *)
Theorem X15_sell_frame_and_category (w : World) (db db' : Db) (pid : string) (paid : Z)
    (o : option TradeSignal) :
  get_sell_score w db pid paid = Ok (o, db') ->
  player_states db' = player_states db
  /\ (o = None -> db' = db)
  /\ (forall sg, o = Some sg ->
        (signal_type sg = "STRONG SELL"%string <-> 75 <= score sg)
        /\ (signal_type sg = "SELL"%string <-> 60 <= score sg < 75)
        /\ (signal_type sg = "WAIT"%string <-> 30 <= score sg < 45)
        /\ (signal_type sg = "HOLD"%string <-> score sg < 30 \/ 45 <= score sg < 60)).
Proof.
  intros H. destruct o as [sg|].
  - destruct (get_sell_score_cases w db db' pid paid sg H)
      as (player & latest & vel & Hplayer & Hlatest & Hvel).
    rewrite (get_sell_score_scored w db pid player latest paid vel Hplayer Hlatest Hvel)
      in H.
    inversion H; subst; clear H.
    split; [reflexivity|]. split; [discriminate|].
    intros sg' [= <-]. cbn [signal_type score]. apply sell_signal_type_thresholds.
  - assert (db' = db) as ->.
    { unfold get_sell_score in H.
      destruct (get_player w pid); [|congruence].
      destruct (get_latest_price w pid); [|congruence].
      destruct (sell_profit _ _) as [[psc pr] pw].
      apply bind_Ok in H as (vel & _ & H).
      destruct (sell_velocity vel) as [[vsc vr] vw].
      destruct (sell_market_pulse (get_pulse w)) as [[[ms msc] mr] mw].
      destruct (sell_position _) as [[posc por] pow].
      destruct (sell_signal_type _ _ _) as [sty rec]. discriminate. }
    split; [reflexivity|]. split; [reflexivity|]. discriminate.
Qed.

Lemma X15_sell_frame_and_category_witness :
  exists o db',
    get_sell_score Fixtures.quiet_world (Fixtures.db_with "READY" 80 1000 1) "p1" 0
    = Ok (o, db')
    /\ player_states db' = player_states (Fixtures.db_with "READY" 80 1000 1).
Proof.
  assert (exists o db',
            get_sell_score Fixtures.quiet_world (Fixtures.db_with "READY" 80 1000 1) "p1" 0
            = Ok (o, db'))
    as (o & db' & Hrun) by (eexists; eexists; vm_compute; reflexivity).
  exists o, db'. split; [exact Hrun|].
  apply (X15_sell_frame_and_category Fixtures.quiet_world
           (Fixtures.db_with "READY" 80 1000 1) db' "p1" 0 o Hrun).
Defined.

End SellComponents.

Section Renewal.
Import VelocityV2.

Lemma apply_hysteresis_sticky (now : datetime) (db : Db) (pid ns nr : string)
    (sc cur : Z) (st : option string) (s p t : Z) :
  player_states db !! pid
    = Some (mkPlayerState st (Some "READY"%string) (Some s) (Some p) (Some t)) ->
  now - t < 2 * us_per_hour ->
  (0 < p -> 97 * p < 100 * cur) ->
  (_apply_hysteresis now db pid ns nr sc cur).1.2 = "READY"%string.
Proof.
  intros Hdb Ht Hp. unfold _apply_hysteresis, _get_player_state. rewrite Hdb. simpl.
  destruct (String.eqb_spec nr "READY") as [->|Hne].
  - rewrite andb_false_r. reflexivity.
  - assert (Qltb (hours_between now t) 2
            && Qltb (-3) (if 0 <? p then (Qz (cur - p) / Qz p * 100)%Q else 0%Q)
            = true) as Hg.
    { pose proof (sticky_guard_true now "READY" nr p cur t) as [_ H].
      rewrite !andb_true_iff in H. rewrite andb_true_iff.
      apply H. repeat split; auto. }
    rewrite Hg. reflexivity.
Qed.

Lemma renewing_step (w : World) (db db1 : Db) (pid : string) (o : option TradeSignal)
    (st : option string) (s p t : Z) (latest : PriceRecord) :
  player_states db !! pid
    = Some (mkPlayerState st (Some "READY"%string) (Some s) (Some p) (Some t)) ->
  is_Some (get_player w pid) ->
  get_latest_price w pid = Some latest ->
  2 <= len (get_price_history w pid 200) ->
  now w - t < 2 * us_per_hour ->
  (0 < p -> 97 * p < 100 * price latest) ->
  get_buy_score w db pid = Ok (o, db1) ->
  exists st1 s1,
    player_states db1 !! pid
    = Some (mkPlayerState (Some st1) (Some "READY"%string) (Some s1) (Some (price latest))
                          (Some (now w))).
Proof.
  intros Hdb [player Hplayer] Hlatest Hlen Ht Hp H.
  destruct (get_buy_score_cases w db db1 pid o H)
    as [(Hnone & _) | [(player' & _ & [Hd|Hd])
                      | (player' & latest' & vel & stab & Hplayer' & Hlatest' & _
                         & Hvel & Hstab)]]; try congruence; try lia.
  assert (player' = player) as -> by congruence.
  assert (latest' = latest) as -> by congruence.
  rewrite (get_buy_score_scored w db pid player latest vel stab Hplayer Hlatest Hlen Hvel Hstab)
    in H.
  inversion H; subst; clear H. cbn [_log_signal _save_player_state player_states].
  rewrite lookup_insert_eq.
  rewrite (apply_hysteresis_sticky (now w) db pid _ _ _ (price latest) st s p t Hdb Ht Hp).
  eauto.
Qed.

Lemma renewing_chain (pid : string) (ws : list World) :
  forall (db db' : Db) (sigs : list (option TradeSignal)) (st : option string) (s p t : Z),
    player_states db !! pid
      = Some (mkPlayerState st (Some "READY"%string) (Some s) (Some p) (Some t)) ->
    renewing pid t p ws ->
    serve_all (map (fun w => BuyRequest w pid) ws) db = Ok (sigs, db') ->
    exists st' s' p' t',
      player_states db' !! pid
      = Some (mkPlayerState st' (Some "READY"%string) (Some s') (Some p') (Some t'))
      /\ (forall w, last ws = Some w ->
            t' = now w /\ (price <$> get_latest_price w pid) = Some p').
Proof.
  induction ws as [|w ws IH]; intros db db' sigs st s p t Hdb Hchain Hrun.
  - cbn in Hrun. inversion Hrun; subst. exists st, s, p, t. split; [exact Hdb|].
    intros w [=].
  - cbn [map serve_all serve] in Hrun.
    apply bind_Ok in Hrun as ([o db1] & Hstep & Hrun).
    apply bind_Ok in Hrun as ([sigs' db2] & Hrest & Hrun).
    inversion Hrun; subst; clear Hrun.
    destruct Hchain as (latest & Hplayer & Hlatest & Hlen & Ht & _ & Hp & Hchain).
    destruct (renewing_step w db db1 pid o st s p t latest Hdb Hplayer Hlatest Hlen Ht Hp
                Hstep) as (st1 & s1 & Hdb1).
    destruct (IH db1 db' sigs' (Some st1) s1 (price latest) (now w) Hdb1 Hchain Hrest)
      as (st' & s' & p' & t' & Hdb' & Hlast).
    exists st', s', p', t'. split; [exact Hdb'|].
    intros w' Hw'. destruct ws as [|w2 ws].
    + cbn in Hw'. assert (w' = w) as -> by congruence.
      cbn in Hrest. inversion Hrest; subst.
      rewrite Hdb1 in Hdb'. inversion Hdb'; subst. rewrite Hlatest. auto.
    + apply Hlast. rewrite <- Hw'. reflexivity.
Qed.

(** X16: sticky READY renews itself.  While a player stored as READY is
    re-evaluated less than two hours after the previous write, at a price
    less than 3% below the price of the previous write (above 97% of it),
    all prices being market prices (at most 15,000,000), the store still
    says READY after every evaluation, with the time and the price of the
    last one: the 3% and the two hours are measured from the previous
    evaluation, not from the moment the player became READY. *)
Theorem X16_sticky_ready_renews (pid : string) (ws : list World) (db db' : Db)
    (sigs : list (option TradeSignal)) (st : option string) (s p t : Z) :
  player_states db !! pid
    = Some (mkPlayerState st (Some "READY"%string) (Some s) (Some p) (Some t)) ->
  market_price p ->
  renewing pid t p ws ->
  serve_all (map (fun w => BuyRequest w pid) ws) db = Ok (sigs, db') ->
  exists st' s' p' t',
    player_states db' !! pid
    = Some (mkPlayerState st' (Some "READY"%string) (Some s') (Some p') (Some t'))
    /\ (forall w, last ws = Some w ->
          t' = now w /\ (price <$> get_latest_price w pid) = Some p').
Proof.
  intros Hdb _. exact (renewing_chain pid ws db db' sigs st s p t Hdb).
Qed.

(** Stored READY at 1000; the price is 980 an hour later, 955 after another
    hour and 930 after a third: 7% down in all, each step under 3%, the fresh
    readiness WAIT every time, and the store still says READY. *)
Lemma X16_sticky_ready_renews_witness :
  exists sigs db' st' s',
    serve_all (map (fun w => BuyRequest w "p1")
                   [Scenarios.later_world 0 980; Scenarios.later_world 1 955;
                    Scenarios.later_world 2 930])
              (Fixtures.db_with "READY" 80 1000 1) = Ok (sigs, db')
    /\ player_states db' !! "p1"%string
       = Some (mkPlayerState st' (Some "READY"%string) (Some s') (Some 930)
                             (Some (Fixtures.t_now + Fixtures.hours 2))).
Proof.
  pose (ws := [Scenarios.later_world 0 980; Scenarios.later_world 1 955;
               Scenarios.later_world 2 930]).
  assert (exists sigs db',
            serve_all (map (fun w => BuyRequest w "p1") ws)
                      (Fixtures.db_with "READY" 80 1000 1) = Ok (sigs, db'))
    as (sigs & db' & Hrun) by (eexists; eexists; vm_compute; reflexivity).
  assert (renewing "p1" (Fixtures.t_now - Fixtures.hours 1) 1000 ws) as Hchain.
  { cbn [renewing ws]. eexists. split; [eexists; reflexivity|].
    split; [reflexivity|]. split; [vm_compute; discriminate|].
    split; [vm_compute; reflexivity|]. split; [unfold market_price; simpl; lia|].
    split; [intros _; vm_compute; reflexivity|].
    eexists. split; [eexists; reflexivity|].
    split; [reflexivity|]. split; [vm_compute; discriminate|].
    split; [vm_compute; reflexivity|]. split; [unfold market_price; simpl; lia|].
    split; [intros _; vm_compute; reflexivity|].
    eexists. split; [eexists; reflexivity|].
    split; [reflexivity|]. split; [vm_compute; discriminate|].
    split; [vm_compute; reflexivity|]. split; [unfold market_price; simpl; lia|].
    split; [intros _; vm_compute; reflexivity|].
    exact I. }
  destruct (X16_sticky_ready_renews "p1" ws (Fixtures.db_with "READY" 80 1000 1) db' sigs
              (Some "STABLE"%string) 80 1000 (Fixtures.t_now - Fixtures.hours 1)
              eq_refl ltac:(unfold market_price; lia) Hchain Hrun)
    as (st' & s' & p' & t' & Hdb' & Hlast).
  destruct (Hlast (Scenarios.later_world 2 930) eq_refl) as [-> Hp'].
  cbn in Hp'. assert (p' = 930) as -> by congruence.
  exists sigs, db', st', s'. split; [exact Hrun | exact Hdb'].
Defined.

End Renewal.

Section Provenance.
Import VelocityV2.

Lemma apply_hysteresis_provenance (now : datetime) (db : Db) (pid ns nr : string)
    (sc cur : Z) :
  let out := _apply_hysteresis now db pid ns nr sc cur in
  match player_states db !! pid with
  | None => out = (ns, nr, sc)
  | Some prev =>
      let kept_state := default ns (ps_state prev) in
      let prev_readiness := default "WAIT"%string (ps_readiness prev) in
      let prev_score := default 50 (ps_score prev) in
      out = (ns, nr, sc)
      \/ (out = (kept_state, prev_readiness, prev_score)
          /\ readiness_level prev_readiness <> readiness_level nr)
      \/ (out = (kept_state, "READY"%string, Z.max (prev_score - 5) sc)
          /\ prev_readiness = "READY"%string /\ nr <> "READY"%string)
  end.
Proof.
  unfold _apply_hysteresis, _get_player_state.
  destruct (player_states db !! pid) as [prev|]; [|reflexivity]. cbv zeta.
  destruct (_ && _ && _)%bool eqn:Hg.
  - right. right. split; [reflexivity|].
    apply andb_true_iff in Hg as [Hg Hnr]. apply andb_true_iff in Hg as [Hr _].
    apply String.eqb_eq in Hr. apply negb_true_iff, String.eqb_neq in Hnr. auto.
  - destruct (Z.ltb_spec (readiness_level (default "WAIT"%string (ps_readiness prev)))
                         (readiness_level nr)) as [Hup|Hnup].
    + destruct (sc - default 50 (ps_score prev) <? 10); [|left; reflexivity].
      right. left. split; [reflexivity | lia].
    + destruct (Z.ltb_spec (readiness_level nr)
                           (readiness_level (default "WAIT"%string (ps_readiness prev))))
        as [Hdown|Hndown]; [|left; reflexivity].
      destruct (-15 <? sc - default 50 (ps_score prev)); [|left; reflexivity].
      right. left. split; [reflexivity | lia].
Qed.

(** X17: where the score of a buy evaluation comes from.  The score returned
    by a scored [get_buy_score] is the raw score of the audit record clamped
    to [0, 100] when nothing is stored for the player; otherwise it is that
    clamped score, or the stored score (50 when the document has none), or,
    when the stored readiness is READY, the larger of the stored score minus
    5 and the clamped score.  It is never below the smaller of the clamped
    score and the stored score minus 5, nor above the larger of the clamped
    and the stored score. *)
Theorem X17_buy_score_provenance (w : World) (db db' : Db) (pid : string)
    (sg : TradeSignal) (latest : PriceRecord) :
  get_buy_score w db pid = Ok (Some sg, db') ->
  get_latest_price w pid = Some latest ->
  2 <= len (get_price_history w pid 200) ->
  exists entry,
    signal_log db' = signal_log db ++ [entry]
    /\ let fresh := Z.max 0 (Z.min 100 (log_raw_score entry)) in
       match player_states db !! pid with
       | None => score sg = fresh
       | Some prev =>
           let stored := default 50 (ps_score prev) in
           (score sg = fresh \/ score sg = stored
            \/ (score sg = Z.max (stored - 5) fresh
                /\ ps_readiness prev = Some "READY"%string))
           /\ Z.min fresh (stored - 5) <= score sg <= Z.max fresh stored
       end.
Proof.
  intros H Hlatest Hlen.
  destruct (get_buy_score_cases w db db' pid (Some sg) H)
    as [(_ & Hnone & _) | [(player & _ & [Hd|Hd])
                          | (player & latest' & vel & stab & Hplayer & Hlatest' & _
                             & Hvel & Hstab)]]; try congruence; try lia.
  assert (latest' = latest) as -> by congruence.
  rewrite (get_buy_score_scored w db pid player latest vel stab Hplayer Hlatest Hlen
             Hvel Hstab) in H.
  inversion H; subst; clear H.
  cbn [_log_signal signal_log _save_player_state score].
  eexists. split; [reflexivity|]. cbn [log_raw_score]. cbv zeta.
  match goal with
  | |- context [_apply_hysteresis ?n db pid ?ns ?nr ?sc ?cur] =>
      pose proof (apply_hysteresis_provenance n db pid ns nr sc cur) as Hp;
      cbv zeta in Hp;
      destruct (_apply_hysteresis n db pid ns nr sc cur) as [[ost ord] osc]
  end.
  cbn [snd].
  destruct (player_states db !! pid) as [prev|]; [|congruence].
  destruct Hp as [Hp|[[Hp _]|(Hp & Hr & _)]]; injection Hp as _ _ ->.
  - split; [left; reflexivity | lia].
  - split; [right; left; reflexivity | lia].
  - split; [|lia]. right. right. split; [reflexivity|].
    destruct (ps_readiness prev) as [r|]; [cbn in Hr; congruence | discriminate].
Qed.

(** Stored READY with score 80 an hour ago; the fresh score is 40: the score
    returned is 75. *)
Lemma X17_buy_score_provenance_witness :
  exists sg db',
    get_buy_score Fixtures.quiet_world (Fixtures.db_with "READY" 80 100 1) "p1"
    = Ok (Some sg, db')
    /\ score sg = 75
    /\ Z.min 40 75 <= score sg <= Z.max 40 80.
Proof.
  assert (exists sg db',
            get_buy_score Fixtures.quiet_world (Fixtures.db_with "READY" 80 100 1) "p1"
            = Ok (Some sg, db')
            /\ score sg = 75
            /\ log_raw_score <$> last (signal_log db') = Some 40)
    as (sg & db' & Hrun & Hscore & Hraw)
    by (eexists; eexists; split; [vm_compute; reflexivity | split; reflexivity]).
  exists sg, db'. split; [exact Hrun|]. split; [exact Hscore|].
  destruct (X17_buy_score_provenance Fixtures.quiet_world
              (Fixtures.db_with "READY" 80 100 1) db' "p1" sg (Fixtures.sample 100 0)
              Hrun eq_refl ltac:(vm_compute; discriminate))
    as (entry & Hlog & Hprov).
  rewrite Hlog in Hraw. cbn [signal_log Fixtures.db_with app last] in Hraw.
  injection Hraw as Hraw. rewrite Hraw in Hprov. cbv zeta in Hprov.
  change (player_states (Fixtures.db_with "READY" 80 100 1) !! "p1"%string)
    with (Some {| ps_state := Some "STABLE"%string;
                  ps_readiness := Some "READY"%string;
                  ps_score := Some 80;
                  ps_price := Some 100;
                  ps_updated_at := Some (Fixtures.t_now - Fixtures.hours 1) |}) in Hprov.
  cbn [default from_option ps_score id] in Hprov. destruct Hprov as [_ Hb].
  exact Hb.
Defined.

End Provenance.

Section ScanOrder.
Import VelocityV2.

Lemma insert_desc_equal_keys {A : Type} (key : A -> Z) (k : Z) (x : A) (l : list A) :
  List.filter (fun y => key y =? k) (insert_desc key x l)
  = List.filter (fun y => key y =? k) (x :: l).
Proof.
  induction l as [|y l IH]; [reflexivity|].
  cbn [insert_desc]. destruct (Z.ltb_spec (key x) (key y)) as [Hlt|Hge]; [|reflexivity].
  cbn [List.filter] in *. rewrite IH.
  destruct (Z.eqb_spec (key x) k), (Z.eqb_spec (key y) k); try reflexivity. lia.
Qed.

Lemma sort_desc_equal_keys {A : Type} (key : A -> Z) (k : Z) (l : list A) :
  List.filter (fun y => key y =? k) (sort_desc key l) = List.filter (fun y => key y =? k) l.
Proof.
  induction l as [|x l IH]; [reflexivity|].
  cbn [sort_desc fold_right]. fold (sort_desc key l).
  rewrite insert_desc_equal_keys. cbn [List.filter]. rewrite IH. reflexivity.
Qed.

Lemma insert_desc_front {A : Type} (key : A -> Z) (x : A) (l : list A) :
  Forall (fun y => key y <= key x) l -> insert_desc key x l = x :: l.
Proof.
  intros Hl. destruct l as [|y l]; [reflexivity|].
  cbn [insert_desc]. apply Forall_cons_1 in Hl as [Hy _].
  destruct (Z.ltb_spec (key x) (key y)); [lia | reflexivity].
Qed.

Lemma insert_desc_filter {A : Type} (key : A -> Z) (p : A -> bool) (x : A) (l : list A) :
  StronglySorted (fun a b => key b <= key a) l ->
  List.filter p (insert_desc key x l)
  = if p x then insert_desc key x (List.filter p l) else List.filter p l.
Proof.
  induction 1 as [|y l Hs IH Hy]; [cbn; destruct (p x); reflexivity|].
  cbn [insert_desc]. destruct (Z.ltb_spec (key x) (key y)) as [Hlt|Hge].
  - cbn [List.filter]. rewrite IH.
    destruct (p x), (p y); try reflexivity.
    cbn [insert_desc]. destruct (Z.ltb_spec (key x) (key y)); [reflexivity | lia].
  - cbn [List.filter]. destruct (p x) eqn:Hpx; [|reflexivity].
    symmetry. apply insert_desc_front.
    assert (Forall (fun z => key z <= key x) (y :: l)) as Hall.
    { constructor; [lia|]. eapply List.Forall_impl; [|exact Hy]. cbv beta. intros; lia. }
    rewrite List.Forall_forall in Hall. rewrite List.Forall_forall.
    intros z Hz. apply Hall.
    destruct (p y); [destruct Hz as [<-|Hz]; [left; reflexivity|]|];
      right; apply filter_In in Hz as [Hz _]; exact Hz.
Qed.

Lemma sort_desc_filter {A : Type} (key : A -> Z) (p : A -> bool) (l : list A) :
  List.filter p (sort_desc key l) = sort_desc key (List.filter p l).
Proof.
  induction l as [|x l IH]; [reflexivity|].
  cbn [sort_desc fold_right List.filter]. fold (sort_desc key l).
  rewrite insert_desc_filter by apply sort_desc_sorted.
  destruct (p x); [|exact IH].
  cbn [fold_right]. fold (sort_desc key (List.filter p l)). rewrite IH. reflexivity.
Qed.

Lemma filter_threshold {A : Type} (key : A -> Z) (m1 m2 : Z) (l : list A) :
  m1 <= m2 ->
  List.filter (fun x => m2 <=? key x) (List.filter (fun x => m1 <=? key x) l)
  = List.filter (fun x => m2 <=? key x) l.
Proof.
  intros Hm. induction l as [|x l IH]; [reflexivity|].
  cbn [List.filter].
  destruct (Z.leb_spec m1 (key x)), (Z.leb_spec m2 (key x)); cbn [List.filter]; try lia.
  - destruct (Z.leb_spec m2 (key x)); [|lia]. rewrite IH. reflexivity.
  - destruct (Z.leb_spec m2 (key x)); [lia|]. exact IH.
  - exact IH.
Qed.

Lemma scan_buy_result (w : World) (db : Db) (min_score : Z) :
  scan_buy_opportunities w db min_score
  = ('(signals, db1) ← buy_evaluations w (get_active_players w) db;
     Ok (sort_desc score (List.filter (fun sg => min_score <=? score sg) signals), db1)).
Proof.
  unfold scan_buy_opportunities. rewrite scan_buy_loop_spec.
  destruct (buy_evaluations w (get_active_players w) db) as [[signals db1]|e]; reflexivity.
Qed.

Lemma scan_sell_result (w : World) (db : Db) (positions : list Position) (min_score : Z) :
  scan_sell_opportunities w db positions min_score
  = ('(signals, db1) ← sell_evaluations w positions db;
     Ok (sort_desc score (List.filter (fun sg => min_score <=? score sg) signals), db1)).
Proof.
  unfold scan_sell_opportunities. rewrite scan_sell_loop_spec.
  destruct (sell_evaluations w positions db) as [[signals db1]|e]; reflexivity.
Qed.

(** X18: the scans sort stably.  Among the signals returned with one and the
    same score, the order is the order in which they were evaluated: the
    order of the tracked players for the buy scan, of the held positions for
    the sell scan. *)
Theorem X18_scan_stable (w : World) (db db1 : Db) (min_score k : Z)
    (positions : list Position) (signals : list TradeSignal) :
  (buy_evaluations w (get_active_players w) db = Ok (signals, db1) ->
   exists out,
     scan_buy_opportunities w db min_score = Ok (out, db1)
     /\ List.filter (fun sg => score sg =? k) out
        = List.filter (fun sg => score sg =? k)
            (List.filter (fun sg => min_score <=? score sg) signals))
  /\ (sell_evaluations w positions db = Ok (signals, db1) ->
      exists out,
        scan_sell_opportunities w db positions min_score = Ok (out, db1)
        /\ List.filter (fun sg => score sg =? k) out
           = List.filter (fun sg => score sg =? k)
               (List.filter (fun sg => min_score <=? score sg) signals)).
Proof.
  split; intros Hev.
  - rewrite scan_buy_result, Hev. eexists. split; [reflexivity|].
    apply sort_desc_equal_keys.
  - rewrite scan_sell_result, Hev. eexists. split; [reflexivity|].
    apply sort_desc_equal_keys.
Qed.

Lemma X18_scan_stable_witness :
  exists bought db1 sold db2,
    scan_buy_opportunities Scenarios.squad_world Fixtures.empty_db 45 = Ok (bought, db1)
    /\ map score bought = [55; 55; 48]
    /\ map player_id (List.filter (fun sg => score sg =? 55) bought) = ["p2"; "p4"]
    /\ scan_sell_opportunities Scenarios.squad_world Fixtures.empty_db
         Scenarios.squad_positions 50 = Ok (sold, db2)
    /\ map score sold = [75; 75; 60; 55]
    /\ map (fun sg => position_id <$> held sg)
           (List.filter (fun sg => score sg =? 75) sold)
       = [Some (Some "a"); Some (Some "e")].
Proof.
  assert (exists signals db1,
            buy_evaluations Scenarios.squad_world (get_active_players Scenarios.squad_world)
                            Fixtures.empty_db = Ok (signals, db1)
            /\ map player_id
                 (List.filter (fun sg => score sg =? 55)
                    (List.filter (fun sg => 45 <=? score sg) signals)) = ["p2"; "p4"])
    as (signals & db1 & Hev & Hties)
    by (eexists; eexists; split; vm_compute; reflexivity).
  assert (exists signals db2,
            sell_evaluations Scenarios.squad_world Scenarios.squad_positions
                             Fixtures.empty_db = Ok (signals, db2)
            /\ map (fun sg => position_id <$> held sg)
                 (List.filter (fun sg => score sg =? 75)
                    (List.filter (fun sg => 50 <=? score sg) signals))
               = [Some (Some "a"); Some (Some "e")])
    as (held_signals & db2 & Hsell & Hheld)
    by (eexists; eexists; split; vm_compute; reflexivity).
  assert (exists out db, scan_buy_opportunities Scenarios.squad_world Fixtures.empty_db 45
                         = Ok (out, db) /\ map score out = [55; 55; 48])
    as (bought' & db1' & Hrun' & Hscores)
    by (eexists; eexists; split; vm_compute; reflexivity).
  assert (exists out db, scan_sell_opportunities Scenarios.squad_world Fixtures.empty_db
                           Scenarios.squad_positions 50
                         = Ok (out, db) /\ map score out = [75; 75; 60; 55])
    as (sold' & db2' & Hsold' & Hsold_scores)
    by (eexists; eexists; split; vm_compute; reflexivity).
  destruct (X18_scan_stable Scenarios.squad_world Fixtures.empty_db db1 45 55
              Scenarios.squad_positions signals) as [Hbuy _].
  destruct (Hbuy Hev) as (bought & Hrun & Hsame).
  destruct (X18_scan_stable Scenarios.squad_world Fixtures.empty_db db2 50 75
              Scenarios.squad_positions held_signals) as [_ Hsells].
  destruct (Hsells Hsell) as (sold & Hsold & Hsame').
  exists bought, db1, sold, db2.
  assert (bought' = bought) as <- by congruence.
  assert (sold' = sold) as <- by congruence.
  rewrite Hsame, Hsame'. auto 10.
Defined.

(** X19: the threshold only selects.  A scan with a higher [min_score]
    returns the signals of the scan with the lower one that reach the higher
    threshold, in the same order, and leaves the same store behind; whether a
    scan raises does not depend on the threshold. *)
Theorem X19_scan_threshold (w : World) (db : Db) (m1 m2 : Z) (positions : list Position) :
  m1 <= m2 ->
  (forall out db1,
     scan_buy_opportunities w db m1 = Ok (out, db1) ->
     scan_buy_opportunities w db m2
     = Ok (List.filter (fun sg => m2 <=? score sg) out, db1))
  /\ (forall out db1,
        scan_sell_opportunities w db positions m1 = Ok (out, db1) ->
        scan_sell_opportunities w db positions m2
        = Ok (List.filter (fun sg => m2 <=? score sg) out, db1))
  /\ (forall e,
        (scan_buy_opportunities w db m1 = Raise e
         <-> scan_buy_opportunities w db m2 = Raise e)
        /\ (scan_sell_opportunities w db positions m1 = Raise e
            <-> scan_sell_opportunities w db positions m2 = Raise e)).
Proof.
  intros Hm. split; [|split].
  - intros out db1. rewrite !scan_buy_result.
    destruct (buy_evaluations w (get_active_players w) db) as [[signals db']|e];
      [|discriminate].
    rewrite !bind_Ok_eq. cbv beta iota. intros [= <- <-].
    rewrite sort_desc_filter, (filter_threshold score m1 m2 signals Hm). reflexivity.
  - intros out db1. rewrite !scan_sell_result.
    destruct (sell_evaluations w positions db) as [[signals db']|e]; [|discriminate].
    rewrite !bind_Ok_eq. cbv beta iota. intros [= <- <-].
    rewrite sort_desc_filter, (filter_threshold score m1 m2 signals Hm). reflexivity.
  - intros e. rewrite !scan_buy_result, !scan_sell_result.
    destruct (buy_evaluations w (get_active_players w) db) as [[signals db']|e1];
      destruct (sell_evaluations w positions db) as [[signals' db'']|e2];
      cbn; split; split; intros; try discriminate; assumption.
Qed.

Lemma X19_scan_threshold_witness :
  exists out db1,
    scan_buy_opportunities Fixtures.quiet_world Fixtures.empty_db 0 = Ok (out, db1)
    /\ scan_buy_opportunities Fixtures.quiet_world Fixtures.empty_db 55
       = Ok (List.filter (fun sg => 55 <=? score sg) out, db1).
Proof.
  assert (exists out db1,
            scan_buy_opportunities Fixtures.quiet_world Fixtures.empty_db 0 = Ok (out, db1))
    as (out & db1 & Hrun) by (eexists; eexists; vm_compute; reflexivity).
  exists out, db1. split; [exact Hrun|].
  assert (0 <= 55) as Hm by lia.
  destruct (X19_scan_threshold Fixtures.quiet_world Fixtures.empty_db 0 55 [] Hm)
    as (Hbuy & _).
  exact (Hbuy out db1 Hrun).
Defined.

End ScanOrder.

Section ScanTags.
Import VelocityV2.

Lemma get_sell_score_frame (w : World) (db db' : Db) (pid : string) (paid : Z)
    (o : option TradeSignal) :
  get_sell_score w db pid paid = Ok (o, db') ->
  player_states db' = player_states db
  /\ (forall sg, o = Some sg -> player_id sg = pid /\ held sg = None).
Proof.
  intros H. destruct o as [sg|].
  - destruct (get_sell_score_cases w db db' pid paid sg H)
      as (player & latest & vel & Hplayer & Hlatest & Hvel).
    rewrite (get_sell_score_scored w db pid player latest paid vel Hplayer Hlatest Hvel)
      in H.
    inversion H; subst; clear H. split; [reflexivity|].
    intros sg' [= <-]. split; reflexivity.
  - unfold get_sell_score in H.
    destruct (get_player w pid); [|inversion H; subst; split; [reflexivity | discriminate]].
    destruct (get_latest_price w pid);
      [|inversion H; subst; split; [reflexivity | discriminate]].
    destruct (sell_profit _ _) as [[psc pr] pw].
    apply bind_Ok in H as (vel & _ & H).
    destruct (sell_velocity vel) as [[vsc vr] vw].
    destruct (sell_market_pulse (get_pulse w)) as [[[ms msc] mr] mw].
    destruct (sell_position _) as [[posc por] pow].
    destruct (sell_signal_type _ _ _) as [sty rec]. discriminate.
Qed.

Lemma sell_evaluations_tags (w : World) (positions : list Position) :
  forall (db db1 : Db) (signals : list TradeSignal),
    sell_evaluations w positions db = Ok (signals, db1) ->
    player_states db1 = player_states db
    /\ (length signals <= length positions)%nat
    /\ Forall (fun sg =>
                 exists pos,
                   In pos positions
                   /\ player_id sg = pos_player_id pos
                   /\ held sg = Some {| position_id := pos_id pos;
                                        buy_price := pos_buy_price pos;
                                        quantity := default 1 (pos_quantity pos) |})
              signals.
Proof.
  induction positions as [|pos rest IH]; intros db db1 signals H.
  - cbn in H. inversion H; subst. split; [reflexivity|]. split; [reflexivity | constructor].
  - cbn [sell_evaluations] in H.
    apply bind_Ok in H as ([o db2] & Hstep & H).
    apply bind_Ok in H as ([signals' db3] & Hrest & H).
    inversion H; subst; clear H.
    destruct (get_sell_score_frame w db db2 _ _ o Hstep) as (Hframe & Hsig).
    destruct (IH db2 db1 signals' Hrest) as (Hframe' & Hlen & Hall).
    assert (Forall (fun sg =>
                      exists pos',
                        In pos' (pos :: rest)
                        /\ player_id sg = pos_player_id pos'
                        /\ held sg = Some {| position_id := pos_id pos';
                                             buy_price := pos_buy_price pos';
                                             quantity := default 1 (pos_quantity pos') |})
                   signals') as Hall'.
    { eapply List.Forall_impl; [|exact Hall]. cbv beta.
      intros sg (pos' & Hin & Hrest'). exists pos'. split; [right; exact Hin | exact Hrest']. }
    split; [congruence|].
    destruct o as [sg|]; cbn [length]; (split; [lia|]); [|exact Hall'].
    constructor; [|exact Hall'].
    destruct (Hsig sg eq_refl) as [Hpid _].
    exists pos. split; [left; reflexivity|]. split; [exact Hpid | reflexivity].
Qed.

Lemma sort_filter_length {A : Type} (key : A -> Z) (p : A -> bool) (l : list A) :
  (length (sort_desc key (List.filter p l)) <= length l)%nat.
Proof.
  rewrite (Permutation_length (sort_desc_perm key (List.filter p l))).
  induction l as [|x l IH]; [reflexivity|].
  cbn [List.filter]. destruct (p x); cbn [length]; lia.
Qed.

Lemma sort_filter_Forall {A : Type} (key : A -> Z) (p : A -> bool) (P : A -> Prop)
    (l : list A) :
  Forall P l -> Forall P (sort_desc key (List.filter p l)).
Proof.
  intros Hl. rewrite List.Forall_forall in Hl. rewrite List.Forall_forall. intros x Hx.
  apply Hl.
  apply (Permutation_in x (sort_desc_perm key (List.filter p l))) in Hx.
  apply filter_In in Hx as [Hx _]. exact Hx.
Qed.

(** X20: the sell scan returns at most one signal per held position; each
    carries the id, the buy price and the quantity (1 when none is given) of
    a position of the list whose player it scored; and the scan leaves the
    hysteresis store exactly as it found it. *)
Theorem X20_sell_scan_tags (w : World) (db db1 : Db) (positions : list Position)
    (min_score : Z) (out : list TradeSignal) :
  scan_sell_opportunities w db positions min_score = Ok (out, db1) ->
  player_states db1 = player_states db
  /\ (length out <= length positions)%nat
  /\ Forall (fun sg =>
               exists pos,
                 In pos positions
                 /\ player_id sg = pos_player_id pos
                 /\ held sg = Some {| position_id := pos_id pos;
                                      buy_price := pos_buy_price pos;
                                      quantity := default 1 (pos_quantity pos) |})
            out.
Proof.
  unfold scan_sell_opportunities. rewrite scan_sell_loop_spec. intros H.
  apply bind_Ok in H as ([acc db2] & H & Hout).
  apply bind_Ok in H as ([signals db3] & Hev & H).
  inversion H; subst; clear H. inversion Hout; subst; clear Hout.
  destruct (sell_evaluations_tags w positions db db1 signals Hev) as (Hframe & Hlen & Hall).
  split; [exact Hframe|]. cbn [app]. split.
  - pose proof (sort_filter_length score (fun sg => min_score <=? score sg) signals). lia.
  - apply sort_filter_Forall. exact Hall.
Qed.

Lemma X20_sell_scan_tags_witness :
  exists out db1 sg,
    scan_sell_opportunities Fixtures.quiet_world Fixtures.empty_db
      [{| pos_player_id := "p1"; pos_buy_price := 50;
          pos_id := Some "pos-1"%string; pos_quantity := None |}] 0
    = Ok (out, db1)
    /\ out = [sg]
    /\ held sg = Some {| position_id := Some "pos-1"%string; buy_price := 50;
                         quantity := 1 |}.
Proof.
  pose (positions := [{| pos_player_id := "p1"%string; pos_buy_price := 50;
                         pos_id := Some "pos-1"%string; pos_quantity := None |}]).
  assert (exists sg db1,
            scan_sell_opportunities Fixtures.quiet_world Fixtures.empty_db positions 0
            = Ok ([sg], db1))
    as (sg & db1 & Hrun) by (eexists; eexists; vm_compute; reflexivity).
  destruct (X20_sell_scan_tags Fixtures.quiet_world Fixtures.empty_db db1 positions 0 [sg]
              Hrun) as (_ & _ & Hall).
  apply Forall_cons_1 in Hall as [(pos & Hin & _ & Hheld) _].
  destruct Hin as [<-|[]].
  exists [sg], db1, sg. split; [exact Hrun|]. split; [reflexivity | exact Hheld].
Defined.

End ScanTags.

(** * Properties of the monitor *)

Section MonitorReport.
Import VelocityV2 Monitor.

Lemma ready_status_spec (l : list text) :
  forallb (fun r => negb (text_startswith "⏳" r)) l = true ->
  ready_status l = if existsb (text_startswith "✓") l then "READY"%string else "WAIT"%string.
Proof.
  induction l as [|r l IH]; [reflexivity|].
  cbn [forallb existsb ready_status]. rewrite andb_true_iff, negb_true_iff.
  intros [Hr Hl]. rewrite Hr. destruct (text_startswith "✓" r); [reflexivity|].
  cbn [orb]. exact (IH Hl).
Qed.

Lemma market_reasons_marked (fetched : result (option MarketPulse)) :
  let m := buy_market_pulse fetched in
  forallb (fun r => negb (text_startswith "⏳" r)) m.1.2 = true
  /\ existsb (text_startswith "✓") m.1.2 = (0 <? m.1.1.2).
Proof.
  destruct fetched as [[pulse|]|e]; cbn; auto.
  repeat match goal with
         | |- context [if ?c then _ else _] => destruct c
         end; cbn; auto.
Qed.

Lemma position_reasons_marked (fetched : result (option Longterm)) (cur : Z) :
  let p := buy_position fetched cur in
  forallb (fun r => negb (text_startswith "⏳" r)) p.1.2 = true
  /\ existsb (text_startswith "✓") p.1.2 = ((p.1.1.1 =? 3) || (p.1.1.1 =? 8))%bool.
Proof.
  destruct fetched as [[longterm|]|e]; cbn; auto.
  destruct (30 <=? lt_data_points longterm); [|cbn; auto].
  repeat match goal with
         | |- context [if ?c then _ else _] => destruct c
         end; cbn; auto.
Qed.

Lemma timing_reasons_marked (vel : option VelocityAnalysisV2) (stab : bool * text * Z) :
  let t := _calculate_timing_score vel stab in
  forallb (fun r => negb (text_startswith "⏳" r)) t.1.2 = true
  /\ existsb (text_startswith "✓") t.1.2
     = match vel with
       | Some v => favorable (buy_readiness v)
       | None => false
       end.
Proof.
  destruct stab as [[is_stable reason] stable_hours].
  destruct vel as [v|]; [|cbn; auto].
  unfold _calculate_timing_score, favorable. cbv zeta.
  destruct (String.eqb (buy_readiness v) "READY") eqn:Hready;
    [|destruct (String.eqb (buy_readiness v) "ALMOST") eqn:Halmost];
    cbn [orb]; rewrite ?andb_false_r, ?andb_true_r;
    repeat match goal with
           | |- context [if ?c then _ else _] => destruct c
           end; cbn; auto.
Qed.

Lemma buy_reasons_marked (w : World) (db db' : Db) (pid : string) (sg : TradeSignal) :
  get_buy_score w db pid = Ok (Some sg, db') ->
  forallb (fun r => negb (text_startswith "⏳" r)) (reasons sg) = true.
Proof.
  intros H.
  destruct (get_buy_score_cases w db db' pid (Some sg) H)
    as [(_ & Hnone & _) | [(player & Hplayer & Hdata)
                          | (player & latest & vel & stab & Hplayer & Hlatest & Hlen
                             & Hvel & Hstab)]].
  - discriminate.
  - rewrite (get_buy_score_insufficient w db pid player Hplayer Hdata) in H.
    inversion H; subst. reflexivity.
  - rewrite (get_buy_score_scored w db pid player latest vel stab Hplayer Hlatest Hlen
               Hvel Hstab) in H.
    inversion H; subst; clear H. cbn [reasons].
    rewrite !forallb_app.
    rewrite (proj1 (market_reasons_marked (get_pulse w))).
    rewrite (proj1 (timing_reasons_marked vel stab)).
    rewrite (proj1 (position_reasons_marked _ _)). reflexivity.
Qed.

Lemma buy_evaluations_all (P : TradeSignal -> Prop) (w : World) :
  (forall db pid sg db', get_buy_score w db pid = Ok (Some sg, db') -> P sg) ->
  forall (players : list Player) (db db1 : Db) (signals : list TradeSignal),
    buy_evaluations w players db = Ok (signals, db1) ->
    Forall P signals /\ (length signals <= length players)%nat.
Proof.
  intros HP. induction players as [|player rest IH]; intros db db1 signals H.
  - cbn in H. inversion H; subst. split; [constructor | reflexivity].
  - cbn [buy_evaluations] in H.
    apply bind_Ok in H as ([o db2] & Hstep & H).
    apply bind_Ok in H as ([signals' db3] & Hrest & H).
    inversion H; subst; clear H.
    destruct (IH db2 db1 signals' Hrest) as [Hall Hlen].
    destruct o as [sg|]; cbn [length]; (split; [|lia]); [|exact Hall].
    constructor; [|exact Hall]. exact (HP db (p_id player) sg db2 Hstep).
Qed.

Lemma slice_to_sublist {A : Type} (n : Z) (l : list A) :
  exists k, slice_to n l = take k l /\ (0 <= n -> (k <= Z.to_nat n)%nat).
Proof.
  unfold slice_to. destruct (Z.leb_spec 0 n).
  - exists (Z.to_nat n). split; [reflexivity | lia].
  - eexists. split; [reflexivity | lia].
Qed.

Lemma take_sorted {A : Type} (R : A -> A -> Prop) (k : nat) (l : list A) :
  StronglySorted R l -> StronglySorted R (take k l).
Proof.
  intros Hs. revert k. induction Hs as [|x l Hs IH Hx]; intros [|k]; cbn; try constructor.
  - apply IH.
  - apply Forall_take. exact Hx.
Qed.

(** X21: what [find_buy_opportunities] reports: at most [top_n] entries
    (for a [top_n] that is not negative) and at most one per tracked player,
    each with a score of at least 55, in non-increasing order of score, with
    at most two reasons, and with a readiness flag that is READY or WAIT:
    the flag ALMOST is never reported, for no reason of a buy signal opens
    with the hourglass marker. *)
Theorem X21_monitor_report (w : World) (db db' : Db) (top_n : Z) (out : list Opportunity) :
  find_buy_opportunities w db top_n = Ok (out, db') ->
  (0 <= top_n -> len out <= top_n)
  /\ len out <= len (get_active_players w)
  /\ Forall (fun o => 55 <= o_score o
                      /\ (o_ready o = "READY"%string \/ o_ready o = "WAIT"%string)
                      /\ len (o_reasons o) <= 2) out
  /\ StronglySorted (fun a b => o_score b <= o_score a) out.
Proof.
  unfold find_buy_opportunities. intros H.
  apply bind_Ok in H as ([opps db1] & Hscan & H). inversion H; subst; clear H.
  rewrite scan_buy_result in Hscan.
  apply bind_Ok in Hscan as ([signals db2] & Hev & H). inversion H; subst; clear H.
  destruct (buy_evaluations_all
              (fun sg => forallb (fun r => negb (text_startswith "⏳" r)) (reasons sg) = true)
              w (fun db pid sg db1 => buy_reasons_marked w db db1 pid sg)
              (get_active_players w) db db' signals Hev) as [Hall Hlen].
  set (opps := sort_desc score (List.filter (fun sg => 55 <=? score sg) signals)).
  destruct (slice_to_sublist top_n opps) as (k & -> & Hk).
  assert (length (take k opps) <= length signals)%nat as Hle.
  { rewrite length_take. pose proof (sort_filter_length score (fun sg => 55 <=? score sg)
                                       signals). fold opps in H. lia. }
  split; [|split; [|split]].
  - intros Hn. unfold len. rewrite length_map, length_take. specialize (Hk Hn). lia.
  - unfold len. rewrite length_map. lia.
  - apply Forall_map. apply Forall_take.
    rewrite List.Forall_forall in Hall. rewrite List.Forall_forall. intros sg Hsg.
    apply (Permutation_in sg (sort_desc_perm score _)) in Hsg.
    apply filter_In in Hsg as [Hsg Hscore]. cbn [report o_score o_ready o_reasons].
    split; [lia|]. split.
    + rewrite (ready_status_spec (reasons sg) (Hall sg Hsg)).
      destruct (existsb _ _); auto.
    + destruct (slice_to_sublist 2 (reasons sg)) as (j & -> & Hj).
      unfold len. rewrite length_take. specialize (Hj ltac:(lia)). lia.
  - assert (StronglySorted (fun a b => score b <= score a) (take k opps)) as Hs
      by (apply take_sorted, sort_desc_sorted).
    clear Hle Hk. induction Hs as [|x l Hs IH Hx]; cbn [map]; [constructor|].
    constructor; [exact IH|]. apply Forall_map. exact Hx.
Qed.

Lemma X21_monitor_report_witness :
  exists o db',
    find_buy_opportunities Scenarios.crashed_world Fixtures.empty_db 5 = Ok ([o], db')
    /\ 55 <= o_score o
    /\ (o_ready o = "READY"%string \/ o_ready o = "WAIT"%string).
Proof.
  assert (exists o db',
            find_buy_opportunities Scenarios.crashed_world Fixtures.empty_db 5
            = Ok ([o], db'))
    as (o & db' & Hrun) by (eexists; eexists; vm_compute; reflexivity).
  exists o, db'. split; [exact Hrun|].
  destruct (X21_monitor_report Scenarios.crashed_world Fixtures.empty_db db' 5 [o] Hrun)
    as (_ & _ & Hall & _).
  apply Forall_cons_1 in Hall as [(Hscore & Hready & _) _]. auto.
Defined.

End MonitorReport.

Section MonitorReady.
Import VelocityV2 Monitor.

Lemma ready_flag_scored (w : World) (db : Db) (pid : string) (player : Player)
    (latest : PriceRecord) (vel : option VelocityAnalysisV2) (stab : bool * text * Z) :
  let m := buy_market_pulse (get_pulse w) in
  let t := _calculate_timing_score vel stab in
  let p := buy_position (get_longterm_daily_prices w (p_futbin_id player) (slug_of player))
                        (price latest) in
  ready_status ((m.1.2 ++ t.1.2) ++ p.1.2)
  = if ((0 <? m.1.1.2)
        || match vel with Some v => favorable (buy_readiness v) | None => false end
        || ((p.1.1.1 =? 3) || (p.1.1.1 =? 8)))%bool
    then "READY"%string else "WAIT"%string.
Proof.
  intros m t p.
  destruct (market_reasons_marked (get_pulse w)) as [Hm1 Hm2].
  destruct (timing_reasons_marked vel stab) as [Ht1 Ht2].
  destruct (position_reasons_marked
              (get_longterm_daily_prices w (p_futbin_id player) (slug_of player))
              (price latest)) as [Hp1 Hp2].
  cbv zeta in *. fold m in Hm1, Hm2. fold t in Ht1, Ht2. fold p in Hp1, Hp2.
  rewrite ready_status_spec by (rewrite !forallb_app, Hm1, Ht1, Hp1; reflexivity).
  rewrite !existsb_app, Hm2, Ht2, Hp2. reflexivity.
Qed.

(** X22: the readiness flag of the monitor is read off the check marks, not
    off the buy readiness.  For a scored evaluation the flag is READY exactly
    when the market component is positive (market CRASHED or RECOVERING), or
    the position component is 3 or 8, or the velocity report says READY or
    ALMOST; otherwise it is WAIT.  So a player whose readiness is ALMOST is
    flagged READY, and so is any player, whatever its readiness, while the
    market is CRASHED. *)
Theorem X22_ready_flag (w : World) (db db' : Db) (pid : string) (sg : TradeSignal)
    (latest : PriceRecord) :
  get_buy_score w db pid = Ok (Some sg, db') ->
  get_latest_price w pid = Some latest ->
  2 <= len (get_price_history w pid 200) ->
  exists entry market position,
    signal_log db' = signal_log db ++ [entry]
    /\ component "market" (log_components entry) = Some market
    /\ component "position" (log_components entry) = Some position
    /\ (o_ready (report sg) = "READY"%string
        <-> 0 < market \/ position = 3 \/ position = 8
            \/ exists v, SmartSignals.velocity sg = Some v
                         /\ (buy_readiness v = "READY"%string
                             \/ buy_readiness v = "ALMOST"%string))
    /\ (o_ready (report sg) = "READY"%string \/ o_ready (report sg) = "WAIT"%string)
    /\ (forall pulse, get_pulse w = Ok (Some pulse) -> status pulse = "CRASHED"%string ->
          o_ready (report sg) = "READY"%string).
Proof.
  intros H Hlatest Hlen.
  destruct (get_buy_score_cases w db db' pid (Some sg) H)
    as [(_ & Hnone & _) | [(player & _ & [Hd|Hd])
                          | (player & latest' & vel & stab & Hplayer & Hlatest' & _
                             & Hvel & Hstab)]]; try congruence; try lia.
  assert (latest' = latest) as -> by congruence.
  rewrite (get_buy_score_scored w db pid player latest vel stab Hplayer Hlatest Hlen
             Hvel Hstab) in H.
  inversion H; subst; clear H.
  cbn [_log_signal signal_log _save_player_state report o_ready reasons
       SmartSignals.velocity].
  eexists _, _, _. split; [reflexivity|].
  cbn [log_components component String.eqb Ascii.eqb Bool.eqb].
  split; [reflexivity|]. split; [reflexivity|].
  rewrite (ready_flag_scored w db pid player latest vel stab).
  set (m := buy_market_pulse (get_pulse w)).
  set (p := buy_position _ _).
  assert ((match vel with Some v => favorable (buy_readiness v) | None => false end = true)
          <-> exists v, vel = Some v
                        /\ (buy_readiness v = "READY"%string
                            \/ buy_readiness v = "ALMOST"%string)) as Hfav.
  { destruct vel as [v|].
    - unfold favorable. rewrite orb_true_iff, !String.eqb_eq. split.
      + intros Hv. exists v. auto.
      + intros (v' & [= <-] & Hv). exact Hv.
    - split; [discriminate | intros (v & [=] & _)]. }
  split; [|split].
  - destruct (_ || _ || _)%bool eqn:Hc.
    + split; [intros _ | reflexivity].
      rewrite !orb_true_iff, Z.ltb_lt, !Z.eqb_eq, Hfav in Hc. tauto.
    + split; [discriminate|]. intros Hr. exfalso.
      assert ((0 <? m.1.1.2) || match vel with
                                | Some v => favorable (buy_readiness v)
                                | None => false
                                end || ((p.1.1.1 =? 3) || (p.1.1.1 =? 8)) = true)%bool
        as Hc'; [|congruence].
      rewrite !orb_true_iff, Z.ltb_lt, !Z.eqb_eq, Hfav. tauto.
  - destruct (_ || _ || _)%bool; auto.
  - intros pulse Hpulse Hstatus. subst m. rewrite Hpulse. cbn [buy_market_pulse].
    rewrite Hstatus. reflexivity.
Qed.

(** The market CRASHED, two samples only: no velocity report, and the flag
    says READY. *)
Lemma X22_ready_flag_witness :
  exists sg db',
    get_buy_score Scenarios.crashed_world Fixtures.empty_db "p1" = Ok (Some sg, db')
    /\ SmartSignals.velocity sg = None
    /\ o_ready (report sg) = "READY"%string.
Proof.
  assert (exists sg db',
            get_buy_score Scenarios.crashed_world Fixtures.empty_db "p1" = Ok (Some sg, db')
            /\ SmartSignals.velocity sg = None)
    as (sg & db' & Hrun & Hvel)
    by (eexists; eexists; split; [vm_compute; reflexivity | reflexivity]).
  exists sg, db'. split; [exact Hrun|]. split; [exact Hvel|].
  destruct (X22_ready_flag Scenarios.crashed_world Fixtures.empty_db db' "p1" sg
              (Fixtures.sample 100 0) Hrun eq_refl ltac:(vm_compute; discriminate))
    as (entry & market & position & _ & _ & _ & _ & _ & Hcrashed).
  exact (Hcrashed Scenarios.crashed_pulse eq_refl eq_refl).
Defined.

End MonitorReady.

(** * Properties of the market pulse *)

Section PulseMetrics.
Import MarketPulseAnalyzer.

Lemma ratio_pct (c n : Z) :
  0 < n -> (Qz c / Qz n * 100 == (100 * c) # (Z.to_pos n))%Q.
Proof.
  intros Hn. destruct n as [|n|n]; try lia.
  unfold Qeq, Qdiv, Qmult, Qinv, Qz, inject_Z. cbn. lia.
Qed.

Lemma filter_len {A : Type} (p : A -> bool) (l : list A) :
  0 <= VelocityV2.len (List.filter p l) <= VelocityV2.len l.
Proof.
  unfold VelocityV2.len. induction l as [|x l IH]; cbn [List.filter length]; [lia|].
  destruct (p x); cbn [length]; lia.
Qed.

Lemma filter_len_disjoint {A : Type} (p q : A -> bool) (l : list A) :
  (forall x, p x = true -> q x = false) ->
  VelocityV2.len (List.filter p l) + VelocityV2.len (List.filter q l) <= VelocityV2.len l.
Proof.
  intros Hpq. unfold VelocityV2.len.
  induction l as [|x l IH]; cbn [List.filter length]; [lia|].
  destruct (p x) eqn:Hp; [rewrite (Hpq x Hp)|destruct (q x)]; cbn [length]; lia.
Qed.

Lemma pct_where_range {A : Type} (p : A -> bool) (l : list A) :
  l <> [] -> (0 <= pct_where p l <= 100)%Q.
Proof.
  intros Hl. unfold pct_where.
  assert (0 < VelocityV2.len l) as Hn
    by (unfold VelocityV2.len; destruct l; [congruence | cbn [length]; lia]).
  pose proof (filter_len p l) as Hc.
  rewrite (ratio_pct _ _ Hn). unfold Qle. cbn [Qnum Qden].
  rewrite Z2Pos.id by lia. lia.
Qed.

Lemma pct_where_disjoint {A : Type} (p q : A -> bool) (l : list A) :
  (forall x, p x = true -> q x = false) ->
  l <> [] -> (pct_where p l + pct_where q l <= 100)%Q.
Proof.
  intros Hpq Hl. unfold pct_where.
  assert (0 < VelocityV2.len l) as Hn
    by (unfold VelocityV2.len; destruct l; [congruence | cbn [length]; lia]).
  pose proof (filter_len_disjoint p q l Hpq) as Hc.
  pose proof (filter_len p l). pose proof (filter_len q l).
  rewrite !(ratio_pct _ _ Hn). unfold Qle, Qplus. cbn [Qnum Qden].
  rewrite Pos2Z.inj_mul, Z2Pos.id by lia. nia.
Qed.

Lemma sumQ_bounds (lo hi : Q) (l : list Q) :
  Forall (fun x => lo <= x <= hi)%Q l ->
  (lo * Qz (VelocityV2.len l) <= sumQ l <= hi * Qz (VelocityV2.len l))%Q.
Proof.
  unfold VelocityV2.len.
  induction 1 as [|x l [Hlo Hhi] _ IH]; cbn [sumQ length].
  - split; rewrite Qmult_0_r; apply Qle_refl.
  - assert (Qz (Z.of_nat (S (length l))) == 1 + Qz (Z.of_nat (length l)))%Q as ->.
    { unfold Qz. rewrite Nat2Z.inj_succ, <- Z.add_1_l, inject_Z_plus. reflexivity. }
    destruct IH as [IHlo IHhi]. split.
    + rewrite Qmult_plus_distr_r, Qmult_1_r. apply Qplus_le_compat; assumption.
    + rewrite Qmult_plus_distr_r, Qmult_1_r. apply Qplus_le_compat; assumption.
Qed.

Lemma average_bounds (lo hi : Q) (l : list Q) :
  l <> [] ->
  Forall (fun x => lo <= x <= hi)%Q l ->
  (lo <= sumQ l / Qz (VelocityV2.len l) <= hi)%Q.
Proof.
  intros Hl Hall.
  assert (0 < Qz (VelocityV2.len l))%Q as Hn.
  { unfold VelocityV2.len, Qz. rewrite <- (Zlt_Qlt 0). 
    destruct l; [congruence | cbn [length]; lia]. }
  destruct (sumQ_bounds lo hi l Hall) as [Hlo Hhi]. split.
  - apply Qle_shift_div_l; assumption.
  - apply Qle_shift_div_r; assumption.
Qed.

End PulseMetrics.

Section PulseLoop.
Import MarketPulseAnalyzer.

Lemma player_stat_usable (m : Market) (p : TrackedPlayer) :
  is_Some (player_stat m p) <-> usable m p = true.
Proof.
  unfold player_stat, usable.
  destruct (fetch_longterm m _ _) as [[longterm|]|e].
  - destruct (Z.ltb_spec (rg_data_points longterm) 10);
      destruct (Z.leb_spec 10 (rg_data_points longterm)); try lia.
    + split; [intros [x [=]] | discriminate].
    + split; [reflexivity | eauto].
  - split; [intros [x [=]] | discriminate].
  - split; [intros [x [=]] | discriminate].
Qed.

Lemma omap_cons_eq {A B : Type} (f : A -> option B) (x : A) (l : list A) :
  omap f (x :: l) = match f x with Some y => y :: omap f l | None => omap f l end.
Proof. reflexivity. Qed.

Lemma collect_loop (m : Market) (players : list TrackedPlayer) :
  forall acc,
    fold_left (fun '(all_stats, category_stats) p =>
                 match player_stat m p with
                 | Some (stat, category) =>
                     (all_stats ++ [stat], category_append category stat category_stats)
                 | None => (all_stats, category_stats)
                 end)
              players acc
    = fold_left (fun '(all_stats, category_stats) p =>
                   match player_stat m p with
                   | Some (stat, category) =>
                       (all_stats ++ [stat], category_append category stat category_stats)
                   | None => (all_stats, category_stats)
                   end)
                (List.filter (usable m) players) acc
    /\ (fold_left (fun '(all_stats, category_stats) p =>
                     match player_stat m p with
                     | Some (stat, category) =>
                         (all_stats ++ [stat], category_append category stat category_stats)
                     | None => (all_stats, category_stats)
                     end)
                  players acc).1
       = acc.1 ++ omap (fun p => fst <$> player_stat m p) players.
Proof.
  induction players as [|p players IH]; intros [all_stats category_stats].
  - cbn. rewrite app_nil_r. auto.
  - cbn [fold_left List.filter]. rewrite omap_cons_eq.
    pose proof (player_stat_usable m p) as Hu.
    destruct (player_stat m p) as [[stat category]|] eqn:Hp.
    + rewrite (proj1 Hu) by eauto. cbn [fold_left]. rewrite Hp.
      destruct (IH (all_stats ++ [stat], category_append category stat category_stats))
        as [IH1 IH2].
      split; [exact IH1|]. rewrite IH2. cbn [fst]. rewrite <- app_assoc. reflexivity.
    + destruct (usable m p); [destruct (proj2 Hu eq_refl) as [x [=]]|].
      destruct (IH (all_stats, category_stats)) as [IH1 IH2].
      split; [exact IH1|]. rewrite IH2. reflexivity.
Qed.

Lemma omap_usable_length (m : Market) (players : list TrackedPlayer) :
  VelocityV2.len (omap (fun p => fst <$> player_stat m p) players)
  = VelocityV2.len (List.filter (usable m) players).
Proof.
  unfold VelocityV2.len. induction players as [|p players IH]; [reflexivity|].
  rewrite omap_cons_eq. cbn [List.filter]. pose proof (player_stat_usable m p) as Hu.
  destruct (player_stat m p) as [[stat category]|].
  - rewrite (proj1 Hu) by eauto. cbn [fmap option_fmap option_map length]. lia.
  - destruct (usable m p); [destruct (proj2 Hu eq_refl) as [x [=]]|]. exact IH.
Qed.

Lemma collect_stats (m : Market) :
  (collect m (get_all_players m)).1
  = omap (fun p => fst <$> player_stat m p) (get_all_players m).
Proof. unfold collect. rewrite (proj2 (collect_loop m _ _)). reflexivity. Qed.

Lemma get_pulse_cases (now : datetime) (m : Market) :
  let good := List.filter (usable m) (get_all_players m) in
  (get_pulse now m = None <-> VelocityV2.len good < 3)
  /\ (forall r, get_pulse now m = Some r ->
        players_analyzed r = VelocityV2.len good
        /\ exists stats,
             stats = omap (fun p => fst <$> player_stat m p) (get_all_players m)
             /\ 3 <= VelocityV2.len stats
             /\ metrics stats
                = (avg_position_in_range (scored r), pct_at_lows (scored r),
                   pct_at_highs (scored r), pct_trending_down (scored r),
                   pct_trending_up r)
             /\ _determine_status (avg_position_in_range (scored r))
                  (pct_at_lows (scored r)) (pct_at_highs (scored r))
                  (pct_trending_down (scored r)) (pct_trending_up r)
                  (fodder_avg_position r)
                = (status (scored r), health_score r, summary r)
             /\ _determine_sentiment (status (scored r)) (avg_position_in_range (scored r))
                  (pct_at_lows (scored r)) (pct_trending_down (scored r))
                = (buy_sentiment r, sell_sentiment r)).
Proof.
  intros good.
  pose proof (filter_len (usable m) (get_all_players m)) as Hlen. fold good in Hlen.
  pose proof (collect_stats m) as Hstats.
  pose proof (omap_usable_length m (get_all_players m)) as Hgood. fold good in Hgood.
  unfold get_pulse.
  destruct (Z.ltb_spec (VelocityV2.len (get_all_players m)) 3) as [Hfew|Hmany].
  { split; [split; [lia | reflexivity] | discriminate]. }
  destruct (collect m (get_all_players m)) as [all_stats category_stats].
  cbn [fst] in Hstats. subst all_stats.
  rewrite Hgood.
  destruct (Z.ltb_spec (VelocityV2.len good) 3) as [Hfew|Hgood3].
  { split; [split; [lia | reflexivity] | discriminate]. }
  destruct (metrics _) as [[[[avg lows] highs] down] up] eqn:Hm.
  destruct (_determine_status _ _ _ _ _ _) as [[st hs] sm] eqn:Hst.
  destruct (_determine_sentiment _ _ _ _) as [bs ss] eqn:Hse.
  split; [split; [discriminate | lia]|].
  intros r [= <-]. cbn. split; [reflexivity|].
  eexists. split; [reflexivity|]. rewrite Hgood. split; [exact Hgood3|].
  split; [exact Hm|]. split; [exact Hst | exact Hse].
Qed.

End PulseLoop.

Section PulseTheorems.
Import MarketPulseAnalyzer.

(** X23: [get_pulse] skips what it cannot use.  It answers [None] exactly
    when fewer than three tracked players have a usable long-term range (the
    fetch returned one with at least 10 data points; a fetch that raises
    counts as unusable and never propagates); otherwise it reports as many
    players analysed as there are usable ones; and its answer is the answer
    it gives when only the usable players are tracked. *)
Theorem X23_pulse_skips_unusable (now : datetime) (m : Market) :
  let good := List.filter (usable m) (get_all_players m) in
  (get_pulse now m = None <-> VelocityV2.len good < 3)
  /\ (forall r, get_pulse now m = Some r ->
        players_analyzed r = VelocityV2.len good
        /\ 3 <= players_analyzed r <= VelocityV2.len (get_all_players m))
  /\ get_pulse now {| get_all_players := good;
                      fetch_longterm := fetch_longterm m;
                      recent_history := recent_history m |}
     = get_pulse now m.
Proof.
  intros good. destruct (get_pulse_cases now m) as [Hnone Hsome]. fold good in Hnone, Hsome.
  pose proof (filter_len (usable m) (get_all_players m)) as Hlen. fold good in Hlen.
  split; [exact Hnone|]. split.
  - intros r Hr. destruct (Hsome r Hr) as (Hn & stats & -> & H3 & _).
    rewrite omap_usable_length in H3. fold good in H3. rewrite Hn. lia.
  - destruct (Z.ltb_spec (VelocityV2.len good) 3) as [Hfew|Hmany].
    + rewrite (proj2 Hnone Hfew). unfold get_pulse. cbn [get_all_players].
      destruct (Z.ltb_spec (VelocityV2.len good) 3); [reflexivity | lia].
    + unfold get_pulse. cbn [get_all_players].
      destruct (Z.ltb_spec (VelocityV2.len good) 3); [lia|].
      destruct (Z.ltb_spec (VelocityV2.len (get_all_players m)) 3); [lia|].
      assert (collect {| get_all_players := good;
                         fetch_longterm := fetch_longterm m;
                         recent_history := recent_history m |} good
              = collect m (get_all_players m)) as ->; [|reflexivity].
      unfold collect. symmetry. exact (proj1 (collect_loop m (get_all_players m) ([], []))).
Qed.

Lemma stat_position (m : Market) (players : list TrackedPlayer) (s : Stat) :
  In s (omap (fun p => fst <$> player_stat m p) players) ->
  exists p longterm,
    In p players
    /\ fetch_longterm m (p_futbin_id (tp_player p)) (SmartSignals.slug_of (tp_player p))
       = Ok (Some longterm)
    /\ st_position_in_range s = rg_position_in_range longterm.
Proof.
  induction players as [|p players IH]; [intros []|].
  rewrite omap_cons_eq. unfold player_stat at 1.
  destruct (fetch_longterm m _ _) as [[longterm|]|e] eqn:Hfetch;
    try (intros Hin; destruct (IH Hin) as (p' & l' & Hp' & Hrest);
         exists p', l'; split; [right; exact Hp' | exact Hrest]).
  destruct (rg_data_points longterm <? 10);
    [intros Hin; destruct (IH Hin) as (p' & l' & Hp' & Hrest);
     exists p', l'; split; [right; exact Hp' | exact Hrest]|].
  cbn [fmap option_fmap option_map fst]. intros [<-|Hin].
  - exists p, longterm. split; [left; reflexivity|]. split; [exact Hfetch | reflexivity].
  - destruct (IH Hin) as (p' & l' & Hp' & Hrest).
    exists p', l'. split; [right; exact Hp' | exact Hrest].
Qed.

(** Two shares that add up to at most 100 are not both above 50. *)
Lemma shares_not_both (a b : Q) : (a + b <= 100)%Q -> (a <= 50)%Q \/ (b <= 50)%Q.
Proof.
  intros Hsum. destruct (Qlt_le_dec 50 a) as [Ha|Ha]; [|left; exact Ha].
  right. destruct (Qlt_le_dec 50 b) as [Hb|Hb]; [|exact Hb]. exfalso.
  apply (Qlt_not_le _ _ (Qplus_lt_le_compat _ _ _ _ Ha (Qlt_le_weak _ _ Hb))).
  exact Hsum.
Qed.

(** X24: the metrics of a returned pulse are percentages: each of the four
    shares lies in [0, 100]; the shares at lows and at highs are not both
    above 50, nor are the shares trending down and up; and when the position
    of every fetched range lies in [0, 100], so does the average position. *)
Theorem X24_pulse_metrics (now : datetime) (m : Market) (r : Pulse) :
  get_pulse now m = Some r ->
  (0 <= pct_at_lows (scored r) <= 100)%Q
  /\ (0 <= pct_at_highs (scored r) <= 100)%Q
  /\ (0 <= pct_trending_down (scored r) <= 100)%Q
  /\ (0 <= pct_trending_up r <= 100)%Q
  /\ ((pct_at_lows (scored r) <= 50)%Q \/ (pct_at_highs (scored r) <= 50)%Q)
  /\ ((pct_trending_down (scored r) <= 50)%Q \/ (pct_trending_up r <= 50)%Q)
  /\ ((forall p longterm,
         In p (get_all_players m) ->
         fetch_longterm m (p_futbin_id (tp_player p)) (SmartSignals.slug_of (tp_player p))
         = Ok (Some longterm) ->
         (0 <= rg_position_in_range longterm <= 100)%Q) ->
      (0 <= avg_position_in_range (scored r) <= 100)%Q).
Proof.
  intros Hr. destruct (get_pulse_cases now m) as [_ Hsome].
  destruct (Hsome r Hr) as (_ & stats & Hstats & H3 & Hm & _).
  unfold metrics in Hm. cbv zeta in Hm.
  injection Hm as Havg Hlows Hhighs Hdown Hup.
  assert (stats <> []) as Hne by (intros ->; unfold VelocityV2.len in H3; cbn in H3; lia).
  assert (map st_position_in_range stats <> []) as Hne1 by (destruct stats; [congruence | discriminate]).
  assert (map st_pct_change_24h stats <> []) as Hne2 by (destruct stats; [congruence | discriminate]).
  rewrite <- Hlows, <- Hhighs, <- Hdown, <- Hup, <- Havg.
  split; [apply pct_where_range; exact Hne1|].
  split; [apply pct_where_range; exact Hne1|].
  split; [apply pct_where_range; exact Hne2|].
  split; [apply pct_where_range; exact Hne2|].
  split.
  { apply shares_not_both.
    apply pct_where_disjoint; [|exact Hne1]. intros x Hx.
    apply Qle_bool_iff in Hx. destruct (Qle_bool 75 x) eqn:Hx'; [|reflexivity].
    apply Qle_bool_iff in Hx'. exfalso.
    assert (75 <= 25)%Q as Habs by (eapply Qle_trans; eassumption).
    revert Habs. unfold Qle. cbn. lia. }
  split.
  { apply shares_not_both.
    apply pct_where_disjoint; [|exact Hne2]. intros x Hx.
    unfold Qltb in *. apply negb_true_iff in Hx. apply negb_false_iff.
    apply Qle_bool_iff.
    destruct (Qlt_le_dec x 2) as [Hlt|Hge]; [apply Qlt_le_weak; exact Hlt|].
    exfalso. assert (Qle_bool (-2) x = true) as Habs; [|congruence].
    apply Qle_bool_iff. eapply Qle_trans; [|exact Hge]. unfold Qle. cbn. lia. }
  intros Hall. apply average_bounds; [exact Hne1|].
  rewrite List.Forall_forall. intros x Hx. apply in_map_iff in Hx as (s & <- & Hs).
  rewrite Hstats in Hs. apply stat_position in Hs as (p & longterm & Hp & Hfetch & ->).
  exact (Hall p longterm Hp Hfetch).
Qed.

Lemma X24_pulse_metrics_witness :
  exists r,
    get_pulse Fixtures.t_now Scenarios.split_market = Some r
    /\ ((pct_at_lows (scored r) <= 50)%Q \/ (pct_at_highs (scored r) <= 50)%Q)
    /\ (0 <= avg_position_in_range (scored r) <= 100)%Q.
Proof.
  assert (exists r, get_pulse Fixtures.t_now Scenarios.split_market = Some r)
    as (r & Hr) by (eexists; vm_compute; reflexivity).
  exists r. split; [exact Hr|].
  destruct (X24_pulse_metrics Fixtures.t_now Scenarios.split_market r Hr)
    as (_ & _ & _ & _ & Hsum & _ & Havg).
  split; [exact Hsum|]. apply Havg. intros p longterm _.
  cbn [fetch_longterm Scenarios.split_market].
  destruct (_ <=? 2); [intros [= <-]; split; discriminate|].
  destruct (_ <=? 5); [intros [= <-]; split; discriminate | discriminate].
Defined.

End PulseTheorems.

Section PulseStatus.
Import MarketPulseAnalyzer.

Lemma py_int_bounds (x : Q) (a b : Z) :
  0 <= a -> (Qz a <= x)%Q -> (x < Qz (b + 1))%Q -> a <= py_int x <= b.
Proof.
  destruct x as [n d]. unfold py_int, Qle, Qlt, Qz, inject_Z. cbn [Qnum Qden].
  intros Ha Hlo Hhi. rewrite Z.mul_1_r in Hlo, Hhi.
  assert (0 <= n) by nia.
  rewrite Z.quot_div_nonneg by lia. split.
  - apply Z.div_le_lower_bound; lia.
  - apply Z.lt_succ_r. apply Z.div_lt_upper_bound; lia.
Qed.

Lemma determine_status_table (avg lows highs down up fodder : Q) :
  let r := _determine_status avg lows highs down up fodder in
  let st := r.1.1 in
  let hs := r.1.2 in
  In st ["CRASHED"; "CRASHING"; "INFLATED"; "RECOVERING"; "STABLE"]%string
  /\ (st = "CRASHED"%string <-> (50 <= lows)%Q \/ (avg <= 25)%Q)
  /\ (st = "CRASHING"%string -> (60 <= down)%Q /\ (30 < avg)%Q)
  /\ (st = "INFLATED"%string -> (40 <= highs)%Q \/ (70 <= avg)%Q)
  /\ (st = "RECOVERING"%string -> (25 < avg <= 40)%Q /\ (40 <= up)%Q)
  /\ (st = "STABLE"%string -> hs = 50)
  /\ ((0 <= avg <= 100)%Q ->
      (st <> "INFLATED"%string -> 0 <= hs <= 100)
      /\ (st = "CRASHING"%string -> 24 <= hs <= 80)
      /\ (st = "RECOVERING"%string -> 45 <= hs <= 60)
      /\ (st = "INFLATED"%string ->
          50 <= hs <= 150 /\ ((avg <= 49)%Q -> 100 < hs) /\ (100 < hs -> (avg < 50)%Q))).
Proof.
  unfold _determine_status. cbv zeta.
  destruct (Qle_bool 50 lows || Qle_bool avg 25)%bool eqn:Hcr.
  { apply orb_true_iff in Hcr. rewrite !Qle_bool_iff in Hcr. cbn [fst snd].
    split; [cbn; auto|]. split; [split; [intros _; exact Hcr | reflexivity]|].
    split; [discriminate|]. split; [discriminate|]. split; [discriminate|].
    split; [discriminate|]. intros [H0 H100].
    split; [|split; [discriminate|split; discriminate]].
    intros _. apply py_int_bounds; [lia | exact H0 |].
    eapply Qle_lt_trans; [exact H100 | reflexivity]. }
  apply orb_false_iff in Hcr as [Hlows Havg25].
  assert (~ (50 <= lows)%Q) as Hnl by (rewrite <- Qle_bool_iff; congruence).
  assert (25 < avg)%Q as Hgt25
    by (apply Qnot_le_lt; rewrite <- Qle_bool_iff; congruence).
  assert (forall s : string, s <> "CRASHED"%string ->
            (s = "CRASHED"%string <-> (50 <= lows)%Q \/ (avg <= 25)%Q)) as Hnc.
  { intros s Hs. split; [congruence|]. intros [H|H]; [contradiction|].
    exfalso. apply (Qlt_not_le _ _ Hgt25 H). }
  destruct (Qle_bool 60 down && Qltb 30 avg)%bool eqn:Hcrashing.
  { apply andb_true_iff in Hcrashing as [Hd Ha].
    apply Qle_bool_iff in Hd. apply Qltb_lt in Ha. cbn [fst snd].
    split; [cbn; auto|]. split; [apply Hnc; discriminate|].
    split; [auto|]. split; [discriminate|]. split; [discriminate|]. split; [discriminate|].
    intros [H0 H100].
    assert (24 <= py_int (avg * (8 # 10)) <= 80) as Hb.
    { apply py_int_bounds; [lia | |].
      - apply Qlt_le_weak in Ha. revert Ha. unfold Qle, Qmult, Qz. cbn. lia.
      - revert H100. unfold Qle, Qlt, Qmult, Qz. cbn. lia. }
    split; [intros _; lia|]. split; [intros _; exact Hb|]. split; discriminate. }
  destruct (Qle_bool 40 highs || Qle_bool 70 avg)%bool eqn:Hinfl.
  { apply orb_true_iff in Hinfl. rewrite !Qle_bool_iff in Hinfl. cbn [fst snd].
    split; [cbn; auto|]. split; [apply Hnc; discriminate|].
    split; [discriminate|]. split; [auto|]. split; [discriminate|]. split; [discriminate|].
    intros [H0 H100]. split; [congruence|]. split; [discriminate|].
    split; [discriminate|]. intros _.
    destruct avg as [n d]. unfold py_int, Qle, Qlt, Qminus, Qplus, Qopp in *.
    cbn [Qnum Qden] in *. cbn in H0, H100.
    assert (0 <= 150 * Z.pos d - n) by lia.
    match goal with
    | |- context [?a `quot` ?b] =>
        replace a with (150 * Z.pos d - n) by lia; replace b with (Z.pos d) by lia
    end.
    rewrite Z.quot_div_nonneg by lia.
    assert (50 <= (150 * Z.pos d - n) `div` Z.pos d) by (apply Z.div_le_lower_bound; lia).
    assert ((150 * Z.pos d - n) `div` Z.pos d < 151)
      by (apply Z.div_lt_upper_bound; lia).
    split; [lia|]. cbn. split.
    - intros Hlt. assert (101 <= (150 * Z.pos d - n) `div` Z.pos d); [|lia].
      apply Z.div_le_lower_bound; lia.
    - intros Hhs. assert (101 * Z.pos d <= 150 * Z.pos d - n); [|lia].
      pose proof (Z.mul_div_le (150 * Z.pos d - n) (Z.pos d) ltac:(lia)). nia. }
  destruct (Qle_bool avg 40 && Qle_bool 40 up)%bool eqn:Hrec.
  { apply andb_true_iff in Hrec as [Ha Hu]. apply Qle_bool_iff in Ha, Hu. cbn [fst snd].
    split; [cbn; auto 10|]. split; [apply Hnc; discriminate|].
    split; [discriminate|]. split; [discriminate|]. split; [auto|]. split; [discriminate|].
    intros [H0 H100].
    assert (45 <= py_int (avg + 20) <= 60) as Hb.
    { apply py_int_bounds; [lia | |].
      - apply Qlt_le_weak in Hgt25. revert Hgt25. unfold Qle, Qplus, Qz. cbn. lia.
      - revert Ha. unfold Qle, Qlt, Qplus, Qz. cbn. lia. }
    split; [intros _; lia|]. split; [discriminate|]. split; [intros _; exact Hb|].
    discriminate. }
  cbn [fst snd].
  split; [cbn; auto 10|]. split; [apply Hnc; discriminate|].
  split; [discriminate|]. split; [discriminate|]. split; [discriminate|].
  split; [reflexivity|]. intros _.
  split; [intros _; lia|]. split; [discriminate|]. split; discriminate.
Qed.

End PulseStatus.

Section PulseReport.
Import MarketPulseAnalyzer.

(** X25: the status of a returned pulse is one of five; CRASHED wins
    whenever half the players are at their lows or the average position is at
    most 25; STABLE has health 50; and for an average position in [0, 100] the
    health score stays in [0, 100] for every status but INFLATED, where it is
    [int(150 - avg)], between 50 and 150: above 100 whenever the average
    position is at most 49, and only when it is below 50. *)
Theorem X25_pulse_status (now : datetime) (m : Market) (r : Pulse) :
  get_pulse now m = Some r ->
  let st := status (scored r) in
  let avg := avg_position_in_range (scored r) in
  In st ["CRASHED"; "CRASHING"; "INFLATED"; "RECOVERING"; "STABLE"]%string
  /\ (st = "CRASHED"%string <-> (50 <= pct_at_lows (scored r))%Q \/ (avg <= 25)%Q)
  /\ (st = "CRASHING"%string -> (60 <= pct_trending_down (scored r))%Q /\ (30 < avg)%Q)
  /\ (st = "INFLATED"%string -> (40 <= pct_at_highs (scored r))%Q \/ (70 <= avg)%Q)
  /\ (st = "RECOVERING"%string -> (25 < avg <= 40)%Q /\ (40 <= pct_trending_up r)%Q)
  /\ (st = "STABLE"%string -> health_score r = 50)
  /\ ((0 <= avg <= 100)%Q ->
      (st <> "INFLATED"%string -> 0 <= health_score r <= 100)
      /\ (st = "CRASHING"%string -> 24 <= health_score r <= 80)
      /\ (st = "RECOVERING"%string -> 45 <= health_score r <= 60)
      /\ (st = "INFLATED"%string ->
          50 <= health_score r <= 150
          /\ ((avg <= 49)%Q -> 100 < health_score r)
          /\ (100 < health_score r -> (avg < 50)%Q))).
Proof.
  intros Hr. destruct (get_pulse_cases now m) as [_ Hsome].
  destruct (Hsome r Hr) as (_ & stats & _ & _ & _ & Hst & _).
  pose proof (determine_status_table (avg_position_in_range (scored r))
                (pct_at_lows (scored r)) (pct_at_highs (scored r))
                (pct_trending_down (scored r)) (pct_trending_up r)
                (fodder_avg_position r)) as H.
  cbv zeta in H. rewrite Hst in H. exact H.
Qed.

(** Two players at 75% of their range and three at 30%: the average is 48,
    the status INFLATED and the health score 102. *)
Lemma X25_pulse_status_witness :
  exists r,
    get_pulse Fixtures.t_now Scenarios.split_market = Some r
    /\ players_analyzed r = 5
    /\ status (scored r) = "INFLATED"%string
    /\ health_score r = 102
    /\ 100 < health_score r.
Proof.
  assert (exists r,
            get_pulse Fixtures.t_now Scenarios.split_market = Some r
            /\ players_analyzed r = 5
            /\ status (scored r) = "INFLATED"%string
            /\ health_score r = 102
            /\ (avg_position_in_range (scored r) == 48)%Q)
    as (r & Hr & Hn & Hst & Hhs & Havg)
    by (eexists; split; [vm_compute; reflexivity | repeat split]).
  exists r. split; [exact Hr|]. split; [exact Hn|]. split; [exact Hst|].
  split; [exact Hhs|].
  destruct (X25_pulse_status Fixtures.t_now Scenarios.split_market r Hr)
    as (_ & _ & _ & _ & _ & _ & Hhealth).
  assert (0 <= avg_position_in_range (scored r) <= 100)%Q as Hrange
    by (rewrite Havg; split; discriminate).
  destruct (Hhealth Hrange) as (_ & _ & _ & Hinfl).
  destruct (Hinfl Hst) as (_ & Hover & _). apply Hover. rewrite Havg. discriminate.
Defined.

(** X26: how the scorer reads a pulse of the analyser.  The buy market
    component is +15 exactly for buy sentiment GREAT, +5 for GOOD, 0 for
    NEUTRAL and -15 for RISKY and AVOID.  The sell market component is +10
    exactly for sell sentiment GREAT and -15 exactly for status CRASHED; it
    is +15 exactly for status CRASHING, where the analyser's own sell
    sentiment is AVOID.  The two components are never both positive. *)
Theorem X26_pulse_to_scorer (now : datetime) (m : Market) (r : Pulse) :
  get_pulse now m = Some r ->
  let b := (SmartSignals.buy_market_pulse (Ok (Some (scored r)))).1.1.2 in
  let s := (SmartSignals.sell_market_pulse (Ok (Some (scored r)))).1.1.2 in
  (b = 15 <-> buy_sentiment r = "GREAT"%string)
  /\ (b = 5 <-> buy_sentiment r = "GOOD"%string)
  /\ (b = 0 <-> buy_sentiment r = "NEUTRAL"%string)
  /\ (b = -15 <-> buy_sentiment r = "RISKY"%string \/ buy_sentiment r = "AVOID"%string)
  /\ (s = 10 <-> sell_sentiment r = "GREAT"%string)
  /\ (s = -15 <-> status (scored r) = "CRASHED"%string)
  /\ (s = 15 <-> status (scored r) = "CRASHING"%string)
  /\ (s = 15 -> sell_sentiment r = "AVOID"%string)
  /\ ~ (0 < b /\ 0 < s).
Proof.
  intros Hr. destruct (get_pulse_cases now m) as [_ Hsome].
  destruct (Hsome r Hr) as (_ & stats & _ & _ & _ & Hst & Hse).
  pose proof (determine_status_table (avg_position_in_range (scored r))
                (pct_at_lows (scored r)) (pct_at_highs (scored r))
                (pct_trending_down (scored r)) (pct_trending_up r)
                (fodder_avg_position r)) as H.
  cbv zeta in H. rewrite Hst in H. destruct H as (Hin & _). cbn [fst snd] in Hin.
  unfold SmartSignals.buy_market_pulse, SmartSignals.sell_market_pulse.
  unfold _determine_sentiment in Hse.
  destruct Hin as [H|[H|[H|[H|[H|[]]]]]]; rewrite <- H in *;
    cbn in Hse; injection Hse as <- <-; cbn;
    repeat split; intros; try discriminate; try lia; auto;
    repeat match goal with
           | Hor : _ \/ _ |- _ => destruct Hor
           end; try discriminate.
Qed.

Lemma X26_pulse_to_scorer_witness :
  exists r,
    get_pulse Fixtures.t_now Scenarios.split_market = Some r
    /\ (SmartSignals.buy_market_pulse (Ok (Some (scored r)))).1.1.2 = -15.
Proof.
  assert (exists r,
            get_pulse Fixtures.t_now Scenarios.split_market = Some r
            /\ buy_sentiment r = "AVOID"%string)
    as (r & Hr & Hs) by (eexists; split; [vm_compute; reflexivity | reflexivity]).
  exists r. split; [exact Hr|].
  destruct (X26_pulse_to_scorer Fixtures.t_now Scenarios.split_market r Hr)
    as (_ & _ & _ & Hb & _).
  apply Hb. right. exact Hs.
Defined.

End PulseReport.

(** * Properties of the long-term prices *)

Section LongtermStats.
Import FutbinScraper.

Lemma fold_max_ge (l : list Z) (x y : Z) :
  In y (x :: l) -> y <= fold_left Z.max l x.
Proof.
  revert x y. induction l as [|z l IH]; intros x y; cbn [fold_left].
  - intros [<-|[]]. lia.
  - intros [<-|[<-|Hin]].
    + transitivity (Z.max x z); [lia | apply IH; left; reflexivity].
    + transitivity (Z.max x z); [lia | apply IH; left; reflexivity].
    + apply IH. right. exact Hin.
Qed.

Lemma fold_max_in (l : list Z) (x : Z) : In (fold_left Z.max l x) (x :: l).
Proof.
  revert x. induction l as [|y l IH]; intros x; cbn [fold_left]; [left; reflexivity|].
  destruct (IH (Z.max x y)) as [H|H]; [|right; right; exact H].
  rewrite <- H. destruct (Z.max_spec x y) as [[_ ->]|[_ ->]];
    [right; left | left]; reflexivity.
Qed.

Lemma list_max_ge (l : list Z) (y : Z) : In y l -> y <= list_max l.
Proof. destruct l as [|x l]; [intros []|]. apply fold_max_ge. Qed.

Lemma list_max_in (l : list Z) : l <> [] -> In (list_max l) l.
Proof. destruct l as [|x l]; [congruence|]. intros _. apply fold_max_in. Qed.

Lemma last_in {A : Type} (l : list A) (x : A) : last l = Some x -> In x l.
Proof.
  induction l as [|y [|z l] IH]; [discriminate | intros [= ->]; left; reflexivity|].
  intros H. right. apply IH. exact H.
Qed.

Lemma last_map_eq {A B : Type} (f : A -> B) (l : list A) :
  last (map f l) = f <$> last l.
Proof.
  induction l as [|x [|y l] IH]; [reflexivity | reflexivity|]. exact IH.
Qed.

Lemma last_is_Some {A : Type} (l : list A) : l <> [] -> is_Some (last l).
Proof.
  induction l as [|y [|z l] IH]; [congruence | eauto|].
  intros _. apply IH. discriminate.
Qed.

(** A position in a range: [(c - lo) / (hi - lo) * 100] for [lo <= c <= hi]. *)
Lemma position_bounds (c lo hi : Z) :
  lo <= c <= hi ->
  (0 <= (if 0 <? hi - lo then Qz (c - lo) / Qz (hi - lo) * 100 else 50) <= 100)%Q.
Proof.
  intros Hc. destruct (Z.ltb_spec 0 (hi - lo)) as [Hr|Hr]; [|split; discriminate].
  rewrite (ratio_pct _ _ Hr). unfold Qle. cbn [Qnum Qden].
  rewrite Z2Pos.id by lia. lia.
Qed.

Lemma list_index_spec (x : Z) (l : list Z) :
  In x l ->
  exists pre post,
    l = pre ++ x :: post /\ ~ In x pre /\ list_index x l = length pre.
Proof.
  induction l as [|y l IH]; [intros []|].
  cbn [list_index]. destruct (Z.eqb_spec x y) as [->|Hne].
  - intros _. exists [], l. auto.
  - intros [->|Hin]; [congruence|].
    destruct (IH Hin) as (pre & post & -> & Hpre & Hidx).
    exists (y :: pre), post. split; [reflexivity|]. split.
    + intros [->|H]; [congruence | contradiction].
    + cbn [length]. rewrite Hidx. reflexivity.
Qed.

End LongtermStats.

Section LongtermBounds.
Import FutbinScraper.

Lemma sorted_last_max (data : Series) (x : Z * Z) :
  StronglySorted (fun a b => fst a <= fst b) data ->
  last data = Some x ->
  forall y, In y data -> fst y <= fst x.
Proof.
  induction 1 as [|a l Hs IH Ha]; [discriminate|].
  destruct l as [|b l].
  - intros [= <-] y [<-|[]]. lia.
  - intros Hlast y [<-|Hy].
    + rewrite List.Forall_forall in Ha. apply Ha. apply last_in. exact Hlast.
    + apply IH; assumption.
Qed.

Lemma ratio_nonneg (c n : Z) :
  0 <= c -> (0 <= (if 0 <? n then Qz c / Qz n * 100 else 0))%Q.
Proof.
  intros Hc. destruct (Z.ltb_spec 0 n) as [Hn|Hn]; [|discriminate].
  rewrite (ratio_pct _ _ Hn). unfold Qle. cbn [Qnum Qden]. lia.
Qed.

Lemma longterm_stats_bounds (now_ms : Q) (best_data : Series) :
  best_data <> [] ->
  let d := longterm_stats now_ms best_data in
  prices d = best_data /\ data_points d = VelocityV2.len best_data
  /\ all_time_low d <= current d <= all_time_high d
  /\ (0 <= position_in_range d <= 100)%Q
  /\ all_time_low d <= recent_low d /\ recent_low d <= recent_high d
  /\ recent_high d <= all_time_high d
  /\ (0 <= volatility_pct d)%Q
  /\ (exists pre post,
        best_data = pre ++ (floor_timestamp d, all_time_low d) :: post
        /\ Forall (fun e => all_time_low d < snd e) pre)
  /\ (StronglySorted (fun a b => fst a <= fst b) best_data ->
      recent_low d <= current d <= recent_high d
      /\ (0 <= recent_position d <= 100)%Q /\ (0 <= bounce_from_low d)%Q).
Proof.
  intros Hne. unfold longterm_stats. cbv zeta.
  set (ps := map snd best_data).
  assert (ps <> []) as Hps by (subst ps; destruct best_data; [congruence | discriminate]).
  destruct (last_is_Some ps Hps) as [cur Hcur]. rewrite Hcur. change (default 0 (Some cur)) with cur.
  pose proof (last_in ps cur Hcur) as Hcur_in.
  pose proof (list_min_le ps cur Hcur_in) as Hlo.
  pose proof (list_max_ge ps cur Hcur_in) as Hhi.
  set (recent := List.filter _ best_data).
  assert (forall e, In e recent -> In (snd e) ps) as Hrecent.
  { intros e He. apply filter_In in He as [He _]. subst ps. apply in_map. exact He. }
  assert (exists pre post,
            best_data = pre ++ (fst (nth (list_index (list_min ps) ps) best_data (0, 0)),
                                list_min ps) :: post
            /\ Forall (fun e => list_min ps < snd e) pre) as Hfloor.
  { destruct (list_index_spec (list_min ps) ps (list_min_in ps Hps))
      as (pre & post & Hsplit & Hpre & Hidx).
    subst ps. apply map_eq_app in Hsplit as (pre' & rest & Hdata & Hpre' & Hrest).
    destruct rest as [|[ts p] post']; [discriminate|]. cbn [map snd] in Hrest.
    injection Hrest as Hp Hpost. exists pre', post'.
    rewrite Hidx, <- Hpre', length_map.
    rewrite Hdata at 1 2. rewrite app_nth2 by lia. rewrite Nat.sub_diag. cbn [nth fst].
    rewrite Hp. split; [reflexivity|].
    rewrite List.Forall_forall. intros e He.
    assert (In (snd e) (map snd best_data)) as Hin
      by (rewrite Hdata, map_app; apply in_or_app; left; apply in_map; exact He).
    pose proof (list_min_le _ _ Hin).
    assert (snd e <> list_min (map snd best_data)); [|lia].
    intros Heq. apply Hpre. rewrite <- Hpre', <- Heq. apply in_map. exact He. }
  assert (0 <= (if 0 <? list_min ps
                then Qz (list_max ps - list_min ps) / Qz (list_min ps) * 100 else 0))%Q
    as Hvol by (apply ratio_nonneg; lia).
  destruct (Z.leb_spec 5 (VelocityV2.len recent)) as [H5|H5];
    cbn [prices data_points all_time_low all_time_high current position_in_range
         recent_low recent_high recent_position bounce_from_low volatility_pct
         floor_timestamp].
  - set (rp := map snd recent).
    assert (rp <> []) as Hrp.
    { subst rp. destruct recent; [unfold VelocityV2.len in H5; cbn in H5; lia | discriminate]. }
    assert (forall p, In p rp -> In p ps) as Hsub.
    { intros p Hp. subst rp. apply in_map_iff in Hp as (e & <- & He). apply Hrecent, He. }
    pose proof (Hsub _ (list_min_in rp Hrp)) as Hmin_in.
    pose proof (Hsub _ (list_max_in rp Hrp)) as Hmax_in.
    pose proof (list_min_le ps _ Hmin_in). pose proof (list_max_ge ps _ Hmax_in).
    pose proof (list_min_le rp _ (list_max_in rp Hrp)).
    split; [reflexivity|]. split; [reflexivity|]. split; [lia|].
    split; [apply position_bounds; lia|]. split; [assumption|]. split; [assumption|].
    split; [assumption|]. split; [exact Hvol|]. split; [exact Hfloor|].
    intros Hsorted.
    assert (In cur rp) as Hcur_recent.
    { destruct (last_is_Some best_data Hne) as [x Hx].
      assert (snd x = cur) as Hsnd.
      { subst ps. rewrite last_map_eq, Hx in Hcur. cbn in Hcur. congruence. }
      destruct recent as [|e0 recent'] eqn:Hrec;
        [unfold VelocityV2.len in H5; cbn in H5; lia|].
      assert (In e0 (List.filter
                       (fun d => Qltb (now_ms - Qz (30 * 24 * 60 * 60 * 1000)) (Qz (fst d)))
                       best_data)) as He0 by (fold recent; rewrite Hrec; left; reflexivity).
      apply filter_In in He0 as [He0 Hcut].
      pose proof (sorted_last_max best_data x Hsorted Hx e0 He0) as Hle.
      subst rp. rewrite <- Hsnd. apply in_map. rewrite <- Hrec. subst recent.
      apply filter_In. split; [apply last_in; exact Hx|].
      apply Qltb_lt. apply Qltb_lt in Hcut.
      eapply Qlt_le_trans; [exact Hcut|]. unfold Qz. rewrite <- Zle_Qle. exact Hle. }
    pose proof (list_min_le rp cur Hcur_recent).
    pose proof (list_max_ge rp cur Hcur_recent).
    split; [lia|]. split; [apply position_bounds; lia | apply ratio_nonneg; lia].
  - split; [reflexivity|]. split; [reflexivity|]. split; [lia|].
    split; [apply position_bounds; lia|]. split; [lia|]. split; [lia|]. split; [lia|].
    split; [exact Hvol|]. split; [exact Hfloor|].
    intros _. split; [lia|]. split; [apply position_bounds; lia | discriminate].
Qed.

End LongtermBounds.

Section LongtermFetch.
Import FutbinScraper.

Lemma select_best_loop (all_matches seen : list Series) (best : option Series) (sc : Q) :
  (0 <= sc)%Q ->
  (forall d, In d seen -> 30 <= VelocityV2.len d -> (series_score d <= sc)%Q) ->
  match best with
  | None => sc = 0%Q
  | Some d => 30 <= VelocityV2.len d /\ sc = series_score d /\ (0 < sc)%Q
              /\ exists pre post,
                   seen = pre ++ d :: post
                   /\ forall d', In d' pre -> 30 <= VelocityV2.len d' ->
                                 (series_score d' < sc)%Q
  end ->
  let r := fold_left (fun '(best_data, best_score) data =>
                        if VelocityV2.len data <? 30 then (best_data, best_score)
                        else
                          let score := series_score data in
                          if Qltb best_score score then (Some data, score)
                          else (best_data, best_score))
                     all_matches (best, sc) in
  (forall d, In d (seen ++ all_matches) -> 30 <= VelocityV2.len d ->
             (series_score d <= r.2)%Q)
  /\ match r.1 with
     | None => r.2 = 0%Q
     | Some d => 30 <= VelocityV2.len d /\ r.2 = series_score d /\ (0 < r.2)%Q
                 /\ exists pre post,
                      seen ++ all_matches = pre ++ d :: post
                      /\ forall d', In d' pre -> 30 <= VelocityV2.len d' ->
                                    (series_score d' < r.2)%Q
     end.
Proof.
  revert seen best sc. induction all_matches as [|data rest IH]; intros seen best sc H0 Hmax Hbest.
  - cbn. rewrite app_nil_r. split; [exact Hmax | exact Hbest].
  - cbn [fold_left]. replace (seen ++ data :: rest) with ((seen ++ [data]) ++ rest)
      by (rewrite <- app_assoc; reflexivity).
    destruct (Z.ltb_spec (VelocityV2.len data) 30) as [Hshort|Hlong].
    + apply IH; [exact H0 | |].
      * intros d Hd Hlen. apply in_app_or in Hd as [Hd|[<-|[]]]; [auto | lia].
      * destruct best as [d|]; [|exact Hbest].
        destruct Hbest as (Hl & Hs & Hp & pre & post & -> & Hpre).
        split; [exact Hl|]. split; [exact Hs|]. split; [exact Hp|].
        exists pre, (post ++ [data]). split; [rewrite <- app_assoc; reflexivity | exact Hpre].
    + cbv zeta. destruct (Qltb sc (series_score data)) eqn:Hlt.
      * apply Qltb_lt in Hlt. apply IH.
        -- apply Qlt_le_weak. eapply Qle_lt_trans; eassumption.
        -- intros d Hd Hlen. apply in_app_or in Hd as [Hd|[<-|[]]]; [|apply Qle_refl].
           eapply Qle_trans; [apply Hmax; assumption | apply Qlt_le_weak; exact Hlt].
        -- split; [exact Hlong|]. split; [reflexivity|].
           split; [eapply Qle_lt_trans; eassumption|].
           exists seen, []. split; [reflexivity|].
           intros d' Hd' Hlen. eapply Qle_lt_trans; [apply Hmax; assumption | exact Hlt].
      * assert (series_score data <= sc)%Q as Hle.
        { unfold Qltb in Hlt. apply negb_false_iff in Hlt. apply Qle_bool_iff. exact Hlt. }
        apply IH; [exact H0 | |].
        -- intros d Hd Hlen. apply in_app_or in Hd as [Hd|[<-|[]]]; [auto | exact Hle].
        -- destruct best as [d|]; [|exact Hbest].
           destruct Hbest as (Hl & Hs & Hp & pre & post & -> & Hpre).
           split; [exact Hl|]. split; [exact Hs|]. split; [exact Hp|].
           exists pre, (post ++ [data]).
           split; [rewrite <- app_assoc; reflexivity | exact Hpre].
Qed.

Lemma select_best_inv (all_matches : list Series) :
  let r := select_best all_matches in
  (forall d, In d ([] ++ all_matches) -> 30 <= VelocityV2.len d ->
             (series_score d <= r.2)%Q)
  /\ match r.1 with
     | None => r.2 = 0%Q
     | Some d => 30 <= VelocityV2.len d /\ r.2 = series_score d /\ (0 < r.2)%Q
                 /\ exists pre post,
                      [] ++ all_matches = pre ++ d :: post
                      /\ forall d', In d' pre -> 30 <= VelocityV2.len d' ->
                                    (series_score d' < r.2)%Q
     end.
Proof.
  exact (select_best_loop all_matches [] None 0%Q (Qle_refl 0)
           (fun d (H : In d []) => match H with end) eq_refl).
Qed.

Lemma select_best_spec (all_matches : list Series) :
  (forall d, In d all_matches -> 30 <= VelocityV2.len d ->
             (series_score d <= (select_best all_matches).2)%Q)
  /\ match (select_best all_matches).1 with
     | None => True
     | Some d => 30 <= VelocityV2.len d /\ (0 < series_score d)%Q
                 /\ (select_best all_matches).2 = series_score d
                 /\ exists pre post,
                      all_matches = pre ++ d :: post
                      /\ forall d', In d' pre -> 30 <= VelocityV2.len d' ->
                                    (series_score d' < series_score d)%Q
     end.
Proof.
  pose proof (select_best_inv all_matches) as H. cbv zeta in H. cbn [app] in H.
  destruct (select_best all_matches) as [best sc]. cbn [fst snd] in *.
  destruct H as [Hmax Hbest]. split; [exact Hmax|].
  destruct best as [d|]; [|exact I].
  destruct Hbest as (Hl & Hs & Hp & pre & post & Hsplit & Hpre).
  split; [exact Hl|]. split; [rewrite <- Hs; exact Hp|]. split; [exact Hs|].
  exists pre, post. split; [exact Hsplit|]. rewrite <- Hs. exact Hpre.
Qed.

End LongtermFetch.

Section LongtermTheorems.
Import FutbinScraper.

(** X27: what a fetch chooses.  When the function goes to the network and
    the page is read, with arrays of at most a million entries, it answers
    with the statistics of one of the arrays matched: one of at least 30
    entries whose score is positive and maximal among the arrays of at least
    30 entries (which one of several arrays of maximal score is taken is
    left open); so the answer always passes the scorer's test of 30 data
    points.  It answers [None], and marks the cache entry [no_data], exactly
    when no array of at least 30 entries has a positive score. *)
Theorem X27_fetch_selects (now : datetime) (now_ms : Q) (cache : option CacheEntry)
    (max_cache_hours : Z) (all_matches : list Series) :
  cache_answer now cache max_cache_hours false = None ->
  Forall (fun d => VelocityV2.len d <= 1000000) all_matches ->
  match get_longterm_daily_prices now now_ms cache max_cache_hours false
          (Some all_matches) with
  | (Some r, cache') =>
      r = longterm_stats now_ms (prices r)
      /\ 30 <= data_points r
      /\ (30 <=? lt_data_points (scorer_view r)) = true
      /\ (0 < series_score (prices r))%Q
      /\ (forall d, In d all_matches -> 30 <= VelocityV2.len d ->
                    (series_score d <= series_score (prices r))%Q)
      /\ In (prices r) all_matches
      /\ (exists entry, cache' = Some entry /\ data entry = Some r /\ cached_at entry = now)
  | (None, cache') =>
      (forall d, In d all_matches -> 30 <= VelocityV2.len d -> (series_score d <= 0)%Q)
      /\ cache' = Some {| cached_at := now; no_data := true; data := cache ≫= data |}
  end.
Proof.
  intros Hmiss _. unfold get_longterm_daily_prices. rewrite Hmiss.
  destruct (select_best_spec all_matches) as [Hmax Hbest].
  pose proof (select_best_inv all_matches) as Hinv. cbv zeta in Hinv.
  destruct (select_best all_matches) as [[best|] sc]; cbn [fst snd] in *.
  - destruct Hbest as (Hlen & Hpos & -> & pre & post & Hsplit & Hpre).
    destruct (Z.ltb_spec (VelocityV2.len best) 10) as [|_]; [lia|].
    destruct best as [|e best'] eqn:Hb; [unfold VelocityV2.len in Hlen; cbn in Hlen; lia|].
    rewrite <- Hb in *.
    assert (best <> []) as Hne by (rewrite Hb; discriminate).
    destruct (longterm_stats_bounds now_ms best Hne) as (Hprices & Hpoints & _).
    cbv zeta in Hprices, Hpoints. rewrite Hprices.
    split; [reflexivity|]. split; [rewrite Hpoints; exact Hlen|].
    split; [cbn [scorer_view lt_data_points]; rewrite Hpoints; apply Z.leb_le; exact Hlen|].
    split; [exact Hpos|]. split; [exact Hmax|].
    split; [rewrite Hsplit; apply in_elt|].
    eexists. split; [reflexivity|]. split; reflexivity.
  - destruct Hinv as [_ ->]. split; [exact Hmax | reflexivity].
Qed.

Lemma X27_fetch_selects_witness :
  exists r cache',
    get_longterm_daily_prices Fixtures.t_now Scenarios.now_ms None 6 false
      (Some [Scenarios.hourly_series; Scenarios.daily_series]) = (Some r, cache')
    /\ prices r = Scenarios.daily_series
    /\ 30 <= data_points r.
Proof.
  assert (exists r cache',
            get_longterm_daily_prices Fixtures.t_now Scenarios.now_ms None 6 false
              (Some [Scenarios.hourly_series; Scenarios.daily_series]) = (Some r, cache')
            /\ prices r = Scenarios.daily_series)
    as (r & cache' & Hrun & Hprices)
    by (eexists; eexists; split; [vm_compute; reflexivity | reflexivity]).
  exists r, cache'. split; [exact Hrun|]. split; [exact Hprices|].
  assert (Forall (fun d => VelocityV2.len d <= 1000000)
                 [Scenarios.hourly_series; Scenarios.daily_series]) as Hsize
    by (repeat constructor; vm_compute; discriminate).
  pose proof (X27_fetch_selects Fixtures.t_now Scenarios.now_ms None 6
                [Scenarios.hourly_series; Scenarios.daily_series] eq_refl Hsize) as H.
  rewrite Hrun in H. destruct H as (_ & Hpoints & _). exact Hpoints.
Defined.

(** X28: the statistics of a non-empty array.  The current price lies
    between the all-time low and high, the position in range in [0, 100], the
    recent low and high within the all-time ones, the volatility is not
    negative, and the floor date is that of the first entry at the all-time
    low.  When the entries are in time order, the current price also lies
    between the recent low and high, so the recent position is in [0, 100]
    and the bounce from the low is not negative. *)
Theorem X28_longterm_stats_bounds (now_ms : Q) (best_data : Series) :
  best_data <> [] ->
  let d := longterm_stats now_ms best_data in
  prices d = best_data /\ data_points d = VelocityV2.len best_data
  /\ all_time_low d <= current d <= all_time_high d
  /\ (0 <= position_in_range d <= 100)%Q
  /\ all_time_low d <= recent_low d /\ recent_low d <= recent_high d
  /\ recent_high d <= all_time_high d
  /\ (0 <= volatility_pct d)%Q
  /\ (exists pre post,
        best_data = pre ++ (floor_timestamp d, all_time_low d) :: post
        /\ Forall (fun e => all_time_low d < snd e) pre)
  /\ (StronglySorted (fun a b => fst a <= fst b) best_data ->
      recent_low d <= current d <= recent_high d
      /\ (0 <= recent_position d <= 100)%Q /\ (0 <= bounce_from_low d)%Q).
Proof. exact (longterm_stats_bounds now_ms best_data). Qed.

Lemma X28_longterm_stats_bounds_witness :
  let d := longterm_stats Scenarios.now_ms Scenarios.daily_series in
  all_time_low d = 1160 /\ current d = 1500
  /\ (0 <= position_in_range d <= 100)%Q.
Proof.
  assert (Scenarios.daily_series <> []) as Hne by (vm_compute; discriminate).
  destruct (X28_longterm_stats_bounds Scenarios.now_ms Scenarios.daily_series Hne)
    as (_ & _ & _ & Hpos & _).
  split; [vm_compute; reflexivity|]. split; [vm_compute; reflexivity | exact Hpos].
Defined.

End LongtermTheorems.

Section LongtermCache.
Import FutbinScraper.

Lemma cache_only_read (now : datetime) (now_ms : Q) (cache : option CacheEntry)
    (max_cache_hours : Z) (response : option (list Series)) :
  get_longterm_daily_prices now now_ms cache max_cache_hours true response
  = (match cache with
     | Some entry => if no_data entry then None else data entry
     | None => None
     end, cache).
Proof.
  unfold get_longterm_daily_prices, cache_answer.
  destruct cache as [entry|]; [|reflexivity].
  rewrite orb_true_r. destruct (no_data entry); [reflexivity|].
  destruct (data entry); reflexivity.
Qed.

Lemma fetch_cases (now : datetime) (now_ms : Q) (cache : option CacheEntry)
    (max_cache_hours : Z) (cache_only : bool) (response : option (list Series))
    (answer : option LongtermData) (cache' : option CacheEntry) :
  get_longterm_daily_prices now now_ms cache max_cache_hours cache_only response
  = (answer, cache') ->
  cache' = cache
  \/ (cache_only = false
      /\ exists all_matches,
           response = Some all_matches
           /\ ((answer = None
                /\ cache' = Some {| cached_at := now; no_data := true;
                                    data := cache ≫= data |})
               \/ (exists r,
                     answer = Some r
                     /\ cache' = Some {| cached_at := now;
                                         no_data := from_option no_data false cache;
                                         data := Some r |}))).
Proof.
  unfold get_longterm_daily_prices.
  destruct (cache_answer now cache max_cache_hours cache_only) as [a|];
    [intros [= <- <-]; left; reflexivity|].
  destruct cache_only; [intros [= <- <-]; left; reflexivity|].
  destruct response as [all_matches|]; [|intros [= <- <-]; left; reflexivity].
  intros H. right. split; [reflexivity|]. exists all_matches. split; [reflexivity|].
  destruct (select_best all_matches) as [[best|] sc].
  - destruct (VelocityV2.len best <? 10); injection H as <- <-; [left; auto|].
    right. eexists. split; reflexivity.
  - injection H as <- <-. left. auto.
Qed.

Lemma answer_is_cached (now : datetime) (now_ms : Q) (cache : option CacheEntry)
    (max_cache_hours : Z) (cache_only : bool) (response : option (list Series))
    (r : LongtermData) (cache' : option CacheEntry) :
  get_longterm_daily_prices now now_ms cache max_cache_hours cache_only response
  = (Some r, cache') ->
  exists entry,
    cache' = Some entry /\ data entry = Some r
    /\ no_data entry = from_option no_data false cache.
Proof.
  unfold get_longterm_daily_prices.
  destruct (cache_answer now cache max_cache_hours cache_only) as [a|] eqn:Hanswer.
  - intros [= -> <-]. unfold cache_answer in Hanswer.
    destruct cache as [entry|]; [|discriminate].
    destruct (_ || _)%bool; [|discriminate].
    destruct (no_data entry) eqn:Hno; [discriminate|].
    destruct (data entry) as [d|] eqn:Hd; [|discriminate].
    injection Hanswer as ->. exists entry. cbn [from_option]. auto.
  - destruct cache_only; [discriminate|].
    destruct response as [all_matches|]; [|discriminate].
    destruct (select_best all_matches) as [[best|] sc]; [|discriminate].
    destruct (VelocityV2.len best <? 10); [discriminate|].
    intros [= <- <-]. eexists. split; [reflexivity|]. split; reflexivity.
Qed.

(** X29: the cache round trip.  A read with [cache_only] never changes the
    cache and never depends on the response or on the age of the entry; a
    failed request leaves the cache as it was; and when the entry was never
    marked [no_data], whatever data a call returns is what every later
    [cache_only] read returns, at any time. *)
Theorem X29_cache_round_trip (now : datetime) (now_ms : Q) (cache : option CacheEntry)
    (max_cache_hours : Z) (cache_only : bool) (response : option (list Series))
    (answer : option LongtermData) (cache' : option CacheEntry) :
  get_longterm_daily_prices now now_ms cache max_cache_hours cache_only response
  = (answer, cache') ->
  (cache_only = true \/ response = None -> cache' = cache)
  /\ (cache_only = true ->
      forall now2 now_ms2 hours2 response2,
        get_longterm_daily_prices now2 now_ms2 cache hours2 true response2
        = (answer, cache))
  /\ (from_option no_data false cache = false ->
      forall r, answer = Some r ->
      forall now2 now_ms2 hours2 response2,
        get_longterm_daily_prices now2 now_ms2 cache' hours2 true response2
        = (Some r, cache')).
Proof.
  intros H. split; [|split].
  - intros [->| ->].
    + rewrite cache_only_read in H. congruence.
    + destruct (fetch_cases _ _ _ _ _ _ _ _ H) as [Hc|(_ & ms & Hresp & _)];
        [exact Hc | discriminate].
  - intros -> now2 now_ms2 hours2 response2.
    rewrite cache_only_read in *. congruence.
  - intros Hclean r -> now2 now_ms2 hours2 response2. rewrite cache_only_read.
    destruct (answer_is_cached _ _ _ _ _ _ _ _ H) as (entry & -> & Hdata & Hno).
    rewrite Hno, Hclean, Hdata. reflexivity.
Qed.

Lemma X29_cache_round_trip_witness :
  exists r cache',
    get_longterm_daily_prices Fixtures.t_now Scenarios.now_ms None 6 false
      (Some [Scenarios.daily_series]) = (Some r, cache')
    /\ get_longterm_daily_prices (Fixtures.t_now + Fixtures.hours 100) Scenarios.now_ms
         cache' 6 true None = (Some r, cache').
Proof.
  assert (exists r cache',
            get_longterm_daily_prices Fixtures.t_now Scenarios.now_ms None 6 false
              (Some [Scenarios.daily_series]) = (Some r, cache'))
    as (r & cache' & Hrun) by (eexists; eexists; vm_compute; reflexivity).
  exists r, cache'. split; [exact Hrun|].
  destruct (X29_cache_round_trip _ _ _ _ _ _ _ _ Hrun) as (_ & _ & Hread).
  apply Hread; reflexivity.
Defined.

(** X30: a [no_data] mark is never taken back.  Once the entry of a player
    is marked, every call leaves it marked, also a call that fetches and
    returns fresh data; and every [cache_only] read, which is how the scorer
    reads, answers [None] from then on. *)
Theorem X30_no_data_sticky (now : datetime) (now_ms : Q) (entry : CacheEntry)
    (max_cache_hours : Z) (cache_only : bool) (response : option (list Series))
    (answer : option LongtermData) (cache' : option CacheEntry) :
  no_data entry = true ->
  get_longterm_daily_prices now now_ms (Some entry) max_cache_hours cache_only response
  = (answer, cache') ->
  (exists entry', cache' = Some entry' /\ no_data entry' = true)
  /\ (forall now2 now_ms2 hours2 response2,
        get_longterm_daily_prices now2 now_ms2 cache' hours2 true response2
        = (None, cache'))
  /\ (answer <> None ->
      cache_only = false /\ max_cache_hours * us_per_hour <= now - cached_at entry).
Proof.
  intros Hno H.
  assert (exists entry', cache' = Some entry' /\ no_data entry' = true) as Hmarked.
  { destruct (fetch_cases _ _ _ _ _ _ _ _ H)
      as [->|(_ & ms & _ & [[_ ->]|(r & _ & ->)])].
    - exists entry. auto.
    - eexists. split; reflexivity.
    - eexists. split; [reflexivity|]. cbn [no_data from_option]. exact Hno. }
  split; [exact Hmarked|]. split.
  - intros now2 now_ms2 hours2 response2. rewrite cache_only_read.
    destruct Hmarked as (entry' & -> & ->). reflexivity.
  - intros Hanswer. unfold get_longterm_daily_prices, cache_answer in H.
    rewrite Hno in H.
    destruct (Z.ltb_spec (now - cached_at entry) (max_cache_hours * us_per_hour)) as [Hf|Hs];
      cbn [orb] in H; [injection H as <- _; congruence|].
    destruct cache_only; [injection H as <- _; congruence|]. split; [reflexivity | exact Hs].
Qed.

(** A stale entry marked [no_data]; the page now holds a daily array: the
    call returns its statistics, and the next [cache_only] read is [None]. *)
Lemma X30_no_data_sticky_witness :
  exists r cache',
    get_longterm_daily_prices Fixtures.t_now Scenarios.now_ms
      (Some {| cached_at := Fixtures.t_now - Fixtures.hours 7; no_data := true;
               data := None |})
      6 false (Some [Scenarios.daily_series]) = (Some r, cache')
    /\ get_longterm_daily_prices Fixtures.t_now Scenarios.now_ms cache' 6 true None
       = (None, cache').
Proof.
  assert (exists r cache',
            get_longterm_daily_prices Fixtures.t_now Scenarios.now_ms
              (Some {| cached_at := Fixtures.t_now - Fixtures.hours 7; no_data := true;
                       data := None |})
              6 false (Some [Scenarios.daily_series]) = (Some r, cache'))
    as (r & cache' & Hrun) by (eexists; eexists; vm_compute; reflexivity).
  exists r, cache'. split; [exact Hrun|].
  destruct (X30_no_data_sticky Fixtures.t_now Scenarios.now_ms
              {| cached_at := Fixtures.t_now - Fixtures.hours 7; no_data := true;
                 data := None |}
              6 false (Some [Scenarios.daily_series]) (Some r) cache' eq_refl Hrun)
    as (_ & Hread & _).
  apply Hread.
Defined.

End LongtermCache.
